(** * rpi-vk-driver: instance, physical device, device and queue layer

    A shallow embedding of [src/driver/instance.c] and [src/driver/device.c]
    and the properties of the enumeration protocol, of instance and device
    creation, of device destruction and of the two entry-point resolvers.

    Conventions of the embedding
    - a C integer is a [Z]; the conversions between [uint32_t] and [int]
      that the code performs implicitly are written out ([to_int],
      [to_uint32]);
    - a pointer to a heap block is the block's address, a [nat], and [0]
      is the null pointer; a pointer to a member or to an array element is a
      constructor around the address of the enclosing block;
    - an output buffer owned by the caller is a list that the function
      returns updated; a null buffer is [None];
    - an array passed with its length (the requested names, the queue
      requests) is a list, and the count field is its length; an array that
      is a member of a structure is a list of its declared length;
    - the number of queues of a request, a [uint32_t], is a [nat]: the size
      computed from it wraps as a [size_t] does, and the [int] counter of
      the loop that runs up to it overflows as an [int] does;
    - a function that touches the driver's heap or the kernel is a
      computation in the monad [M]: a state transformer over [world] that can
      stop with a [fault] (a failed [assert], or behaviour that C leaves
      undefined). *)

From stdpp Require Import base option list gmap strings.
From Stdlib Require Import ZArith Lia.

(** ** Results and faults *)

Inductive VkResult :=
| VK_SUCCESS
| VK_INCOMPLETE
| VK_ERROR_OUT_OF_HOST_MEMORY
| VK_ERROR_EXTENSION_NOT_PRESENT
| VK_ERROR_FEATURE_NOT_PRESENT
| VK_ERROR_TOO_MANY_OBJECTS.

#[global] Instance VkResult_eq_dec : EqDecision VkResult.
Proof. solve_decision. Defined.

(** What stops a call without a result: a failed [assert], or one of the
    behaviours C does not define. *)
Inductive fault :=
| AssertionFailed
| OutOfBounds
| Indeterminate
| InvalidFree
| InvalidPointer
| SignedOverflow.

Inductive outcome (A : Type) :=
| Ok (a : A)
| Fault (f : fault).
Arguments Ok {A} a.
Arguments Fault {A} f.

Definition obind {A B} (m : outcome A) (k : A -> outcome B) : outcome B :=
  match m with
  | Ok a => k a
  | Fault f => Fault f
  end.

Definition assert_ {A} (b : bool) (k : outcome A) : outcome A :=
  if b then k else Fault AssertionFailed.

(** ** Machine integers *)

Module Int.
Local Open Scope Z_scope.

Definition UINT32_MOD : Z := 2 ^ 32.
Definition INT_MAX : Z := 2 ^ 31 - 1.

(** Conversion to [uint32_t]: reduction modulo 2^32. *)
Definition to_uint32 (z : Z) : Z := z mod UINT32_MOD.

(** Conversion of a [uint32_t] to [int] as gcc defines it: the value
    is reduced modulo 2^32 into the range of [int]. *)
Definition to_int (z : Z) : Z :=
  let u := z mod UINT32_MOD in
  if u <=? INT_MAX then u else u - UINT32_MOD.

(** Modelled from the spec: the macro [min] of common.h, a file that is
    not among the translated sources; the spec writes
    [min(total, capacity)]. *)
Definition min (a b : Z) : Z := if a <? b then a else b.

End Int.

(** ** Handles *)

(** The address of a heap block; [0] is the null pointer. *)
Definition addr := nat.
Definition VkBool32 := Z.
Definition VkInstance := addr.
Definition VkDevice := addr.

(** [PD_of i] is [&i->dev], the physical device embedded in the instance
    block at address [i]. *)
Inductive VkPhysicalDevice :=
| PD_null
| PD_of (instance : addr).

(** [Q_at a i] is [&a[i]], element [i] of the queue array at address [a]. *)
Inductive VkQueue :=
| Q_null
| Q_at (array : addr) (index : nat).

#[global] Instance VkPhysicalDevice_eq_dec : EqDecision VkPhysicalDevice.
Proof. solve_decision. Defined.
#[global] Instance VkQueue_eq_dec : EqDecision VkQueue.
Proof. solve_decision. Defined.

Definition is_null (a : addr) : bool := bool_decide (a = 0%nat).
Definition pd_is_null (p : VkPhysicalDevice) : bool :=
  match p with PD_null => true | PD_of _ => false end.

Record VkExtensionProperties := {
  extensionName : string;
  specVersion : Z
}.

Record VkPhysicalDeviceGroupProperties := {
  physicalDeviceCount : Z;
  physicalDevices : list VkPhysicalDevice;
  subsetAllocation : VkBool32
}.

(** ** Loops *)

(** [for (c = from; c < from + n; ++c) s = body c s], stopping at the
    first fault. *)
Fixpoint for_range {S : Type} (from n : nat) (body : nat -> S -> outcome S)
  (s : S) : outcome S :=
  match n with
  | O => Ok s
  | Datatypes.S n' => obind (body from s) (for_range (Datatypes.S from) n' body)
  end.

(** [dst[c] = v] on a caller-owned array. *)
Definition store {A} (dst : list A) (c : nat) (v : A) : outcome (list A) :=
  if decide (c < length dst)%nat then Ok (<[c := v]> dst) else Fault OutOfBounds.

(** [dst[c] = src[c]]. *)
Definition copy_item {A} (src : list A) (c : nat) (dst : list A) : outcome (list A) :=
  match src !! c with
  | Some x => store dst c x
  | None => Fault OutOfBounds
  end.

(** ** The enumeration operations *)

Section Enumeration.
Local Open Scope Z_scope.

(** The static tables of the registry are declared outside the
    translated files; the development is parametric in them. *)
Variable instanceExtensions : list VkExtensionProperties.
Variable deviceExtensions : list VkExtensionProperties.

(** The numbers of records of the tables, compared as [int]s with
    [arraySize]. *)
Definition numInstanceExtensions : Z := Z.of_nat (length instanceExtensions).
Definition numDeviceExtensions : Z := Z.of_nat (length deviceExtensions).

(** instance.c, vkEnumerateInstanceExtensionProperties. The count is
    [None] for a null [pPropertyCount]; the result carries the value left
    in [*pPropertyCount] and the buffer. *)
Definition vkEnumerateInstanceExtensionProperties
    (pLayerName : option string) (pPropertyCount : option Z)
    (pProperties : option (list VkExtensionProperties))
  : outcome (VkResult * Z * option (list VkExtensionProperties)) :=
  assert_ (bool_decide (pLayerName = None)) (
  match pPropertyCount with
  | None => Fault AssertionFailed
  | Some count =>
    match pProperties with
    | None => Ok (VK_SUCCESS, Int.to_uint32 numInstanceExtensions, None)
    | Some buf =>
      let arraySize := Int.to_int count in
      let elementsWritten := Int.min numInstanceExtensions arraySize in
      obind (for_range 0 (Z.to_nat elementsWritten)
               (copy_item instanceExtensions) buf) (fun buf' =>
      let count' := Int.to_uint32 elementsWritten in
      if arraySize <? numInstanceExtensions
      then Ok (VK_INCOMPLETE, count', Some buf')
      else Ok (VK_SUCCESS, count', Some buf'))
    end
  end).

(** device.c, vkEnumerateDeviceExtensionProperties. *)
Definition vkEnumerateDeviceExtensionProperties
    (physicalDevice : VkPhysicalDevice)
    (pLayerName : option string) (pPropertyCount : option Z)
    (pProperties : option (list VkExtensionProperties))
  : outcome (VkResult * Z * option (list VkExtensionProperties)) :=
  assert_ (negb (pd_is_null physicalDevice)) (
  assert_ (bool_decide (pLayerName = None)) (
  match pPropertyCount with
  | None => Fault AssertionFailed
  | Some count =>
    match pProperties with
    | None => Ok (VK_SUCCESS, Int.to_uint32 numDeviceExtensions, None)
    | Some buf =>
      let arraySize := Int.to_int count in
      let elementsWritten := Int.min numDeviceExtensions arraySize in
      obind (for_range 0 (Z.to_nat elementsWritten)
               (copy_item deviceExtensions) buf) (fun buf' =>
      Ok (VK_SUCCESS, Int.to_uint32 elementsWritten, Some buf'))
    end
  end)).
End Enumeration.

Section PhysicalDevices.
Local Open Scope Z_scope.

(** device.c, vkEnumeratePhysicalDevices. *)
Definition vkEnumeratePhysicalDevices
    (instance : VkInstance) (pPhysicalDeviceCount : option Z)
    (pPhysicalDevices : option (list VkPhysicalDevice))
  : outcome (VkResult * Z * option (list VkPhysicalDevice)) :=
  assert_ (negb (is_null instance)) (
  let numGPUs := 1 in
  match pPhysicalDeviceCount with
  | None => Fault AssertionFailed
  | Some count =>
    match pPhysicalDevices with
    | None => Ok (VK_SUCCESS, Int.to_uint32 numGPUs, None)
    | Some buf =>
      let arraySize := Int.to_int count in
      let elementsWritten := Int.min numGPUs arraySize in
      obind (for_range 0 (Z.to_nat elementsWritten)
               (fun c dst => store dst c (PD_of instance)) buf) (fun buf' =>
      let count' := Int.to_uint32 elementsWritten in
      if arraySize <? numGPUs
      then Ok (VK_INCOMPLETE, count', Some buf')
      else Ok (VK_SUCCESS, count', Some buf'))
    end
  end).

(** The three stores of the loop body of vkEnumeratePhysicalDeviceGroups
    into entry [g]. *)
Definition write_group (instance : VkInstance)
    (g : VkPhysicalDeviceGroupProperties)
  : outcome VkPhysicalDeviceGroupProperties :=
  obind (store (physicalDevices g) 0 (PD_of instance)) (fun devs =>
  Ok {| physicalDeviceCount := 1;
        physicalDevices := devs;
        subsetAllocation := 0 |}).

(** device.c, vkEnumeratePhysicalDeviceGroups. The loop counter is a
    [uint32_t] compared with [*pPhysicalDeviceGroupCount], which the
    function never writes when the buffer is present. *)
Definition vkEnumeratePhysicalDeviceGroups
    (instance : VkInstance) (pPhysicalDeviceGroupCount : option Z)
    (pPhysicalDeviceGroupProperties : option (list VkPhysicalDeviceGroupProperties))
  : outcome (VkResult * Z * option (list VkPhysicalDeviceGroupProperties)) :=
  assert_ (negb (is_null instance)) (
  match pPhysicalDeviceGroupCount with
  | None => Fault AssertionFailed
  | Some count =>
    match pPhysicalDeviceGroupProperties with
    | None => Ok (VK_SUCCESS, 1, None)
    | Some buf =>
      obind (for_range 0 (Z.to_nat count)
               (fun c dst =>
                  match dst !! c with
                  | Some g => obind (write_group instance g) (store dst c)
                  | None => Fault OutOfBounds
                  end) buf) (fun buf' =>
      let c := count in
      if c <? 1
      then Ok (VK_INCOMPLETE, count, Some buf')
      else Ok (VK_SUCCESS, count, Some buf'))
    end
  end).
End PhysicalDevices.

(** ** The driver's objects *)

(** A field or an array cell that the code has not yet written holds an
    indeterminate value, [None]. The struct declarations are outside the
    translated files; the records have the fields the two files use, and
    the array members [enabledExtensions], [queues] and [numQueues] are
    lists of their declared length. *)

Record _physicalDevice := {
  path : option string;
  instance : option VkInstance
}.

Record _instance := {
  i_dev : _physicalDevice;
  i_numEnabledExtensions : option Z;
  i_enabledExtensions : list (option Z);
  chipVersion : option Z;
  hasTiling : option Z;
  hasControlFlow : option Z;
  hasEtc1 : option Z;
  hasThreadedFs : option Z;
  hasMadvise : option Z
}.

Record _queue := {
  lastEmitSeqno : option Z;
  q_dev : option VkDevice
}.

Record _device := {
  d_dev : option VkPhysicalDevice;
  d_numEnabledExtensions : option Z;
  d_enabledExtensions : list (option Z);
  enabledFeatures : option (list VkBool32);
  queues : list (option addr);
  numQueues : list (option nat)
}.

Inductive block :=
| BInstance (i : _instance)
| BDevice (d : _device)
| BQueues (qs : list _queue).

Inductive cell :=
| Live (b : block)
| Freed.

(** What instance creation asks of the kernel driver. *)
Inductive drm_param :=
| DRM_VC4_PARAM_SUPPORTS_BRANCHES
| DRM_VC4_PARAM_SUPPORTS_ETC1
| DRM_VC4_PARAM_SUPPORTS_THREADED_FS
| DRM_VC4_PARAM_SUPPORTS_MADVISE.

Inductive kcall :=
| Access (file : string)
| OpenIoctl
| CloseIoctl
| GetChipInfo
| TestTiling
| HasFeature (p : drm_param).

(** The answers of the kernel and of the file system. *)
Record kernel := {
  card0_exists : bool;
  openIoctl_result : Z;
  chip_info : Z;
  tiling : Z;
  feature : drm_param -> Z
}.

(** The state a call runs in: block [i] of [heap] lives at address [S i];
    [plan] holds the next answers of the host allocator ([false]: the
    allocation fails; an empty plan: it succeeds); [klog] is the sequence of
    calls made to the kernel so far, latest first. *)
Record world := {
  heap : list cell;
  plan : list bool;
  klog : list kcall;
  hw : kernel
}.

Definition set_heap (h : list cell) (w : world) : world :=
  {| heap := h; plan := plan w; klog := klog w; hw := hw w |}.

(** ** The monad of driver calls *)

Definition M (A : Type) : Type := world -> outcome (A * world).

Definition ret {A} (a : A) : M A := fun w => Ok (a, w).

Definition bind {A B} (m : M A) (k : A -> M B) : M B :=
  fun w => match m w with
           | Ok (a, w') => k a w'
           | Fault f => Fault f
           end.

Definition fail {A} (f : fault) : M A := fun _ => Fault f.

Notation "'do' x <- m ; k" := (bind m (fun x => k))
  (at level 10, x name, m at level 100, k at level 200).
Notation "m ;; k" := (bind m (fun _ => k))
  (at level 100, k at level 200, right associativity).

Definition massert (b : bool) : M unit :=
  if b then ret tt else fail AssertionFailed.

(** [for (c = from; c < from + n; ++c) body], where the body either falls
    through ([None]) or returns [r] from the enclosing function
    ([Some r]). *)
Fixpoint mfor {R : Type} (from n : nat) (body : nat -> M (option R)) : M (option R) :=
  match n with
  | O => ret None
  | S n' =>
    do r <- body from;
    match r with
    | Some x => ret (Some x)
    | None => mfor (S from) n' body
    end
  end.

(** *** Memory *)

(** The live block at address [p], if any. *)
Definition peek (w : world) (p : addr) : option block :=
  match p with
  | O => None
  | S i =>
    match heap w !! i with
    | Some (Live b) => Some b
    | _ => None
    end
  end.

(** The world with the cell at address [p] replaced. *)
Definition poke (p : addr) (c : cell) (w : world) : world :=
  set_heap (<[pred p := c]> (heap w)) w.

(** The world with one more block, at the address [S (length (heap w))],
    and the allocator's answer consumed. *)
Definition alloc (init : block) (w : world) : world :=
  {| heap := heap w ++ [Live init]; plan := tail (plan w);
     klog := klog w; hw := hw w |}.

Definition refuse (w : world) : world :=
  {| heap := heap w; plan := tail (plan w); klog := klog w; hw := hw w |}.

(** Modelled from the spec: the macro [ALLOCATE] of common.h, which is not
    among the translated sources. It yields a new block with indeterminate
    contents, or the null pointer when the host allocator fails (the spec's
    "allocation failure"). *)
Definition ALLOCATE (init : block) : M addr := fun w =>
  match plan w with
  | false :: _ => Ok (0, refuse w)
  | _ => Ok (S (length (heap w)), alloc init w)
  end.

(** Modelled from the spec: the macro [FREE] of common.h, which is not among
    the translated sources; it releases a block ("frees"), a null pointer is
    ignored, and releasing anything but a live block is undefined. *)
Definition FREE (p : addr) : M unit := fun w =>
  match p with
  | O => Ok (tt, w)
  | S _ =>
    match peek w p with
    | Some _ => Ok (tt, poke p Freed w)
    | None => Fault InvalidFree
    end
  end.

Definition load (p : addr) : M block := fun w =>
  match peek w p with
  | Some b => Ok (b, w)
  | None => Fault InvalidPointer
  end.

Definition store_block (p : addr) (b : block) : M unit := fun w =>
  match peek w p with
  | Some _ => Ok (tt, poke p (Live b) w)
  | None => Fault InvalidPointer
  end.

Definition load_instance (p : addr) : M _instance :=
  do b <- load p;
  match b with BInstance i => ret i | _ => fail InvalidPointer end.

Definition load_device (p : addr) : M _device :=
  do b <- load p;
  match b with BDevice d => ret d | _ => fail InvalidPointer end.

Definition load_queues (p : addr) : M (list _queue) :=
  do b <- load p;
  match b with BQueues qs => ret qs | _ => fail InvalidPointer end.

(** Reading a field or an array element. *)
Definition rd {A} (o : option A) : M A :=
  match o with Some a => ret a | None => fail Indeterminate end.

Definition elt {A} (l : list A) (i : nat) : M A :=
  match l !! i with Some a => ret a | None => fail OutOfBounds end.

(** Writing an array element. *)
Definition put {A} (l : list A) (i : nat) (v : A) : M (list A) :=
  if decide (i < length l) then ret (<[i := v]> l) else fail OutOfBounds.

(** Writing the array element at an [int] index. *)
Definition put_at {A} (l : list A) (n : Z) (v : A) : M (list A) :=
  if (n <? 0)%Z then fail OutOfBounds else put l (Z.to_nat n) v.

(** [++d] on an [int] counter [d]: undefined at [INT_MAX]. *)
Definition increment (d : nat) : M unit :=
  if (Z.of_nat d <? Int.INT_MAX)%Z then ret tt else fail SignedOverflow.

(** *** The kernel *)

(** Modelled from the spec: the calls of the capability prober ([access],
    [openIoctl], [closeIoctl] and the [vc4_] queries), defined outside the
    translated files. A call is recorded in [klog] and answered from
    [hw]. *)
Definition kernel_call {A} (c : kcall) (answer : kernel -> A) : M A := fun w =>
  Ok (answer (hw w),
      {| heap := heap w; plan := plan w; klog := c :: klog w; hw := hw w |}).

Definition access (file : string) : M Z :=
  kernel_call (Access file) (fun k => if card0_exists k then 0 else -1)%Z.
Definition openIoctl : M Z := kernel_call OpenIoctl openIoctl_result.
Definition closeIoctl : M unit := kernel_call CloseIoctl (fun _ => tt).
Definition vc4_get_chip_info : M Z := kernel_call GetChipInfo chip_info.
Definition vc4_test_tiling : M Z := kernel_call TestTiling tiling.
Definition vc4_has_feature (p : drm_param) : M Z :=
  kernel_call (HasFeature p) (fun k => feature k p).

(** ** The registry *)

Section Registry.
Local Open Scope Z_scope.

(** Modelled from the spec: the search behind [findInstanceExtension]
    and [findDeviceExtension], which are defined outside the translated
    files: the position of the first record of that name, counted from [c],
    or [-1]. *)
Fixpoint find_extension (table : list VkExtensionProperties) (name : string)
    (c : Z) : Z :=
  match table with
  | [] => -1
  | e :: rest =>
    if String.eqb (extensionName e) name then c
    else find_extension rest name (c + 1)
  end.

(** Modelled from the spec: [findInstanceExtension], defined outside the
    translated files: "look it up in the instance-extension Registry".
    The index of the record of that name, or [-1]. *)
Definition findInstanceExtension (instanceExtensions : list VkExtensionProperties)
    (name : string) : Z :=
  find_extension instanceExtensions name 0.

(** Modelled from the spec: [findDeviceExtension], defined outside the
    translated files: "validate every requested device extension against
    the device-extension Registry". The index of the record of that name,
    or [-1]. *)
Definition findDeviceExtension (deviceExtensions : list VkExtensionProperties)
    (name : string) : Z :=
  find_extension deviceExtensions name 0.
End Registry.

(** ** Instance creation and destruction *)

Record VkInstanceCreateInfo := {
  enabledLayerCount : Z;
  ppEnabledExtensionNames : list string
}.

(** The number of requested names, [enabledExtensionCount], is the length
    of the array of names. *)
Definition enabledExtensionCount (ci : VkInstanceCreateInfo) : nat :=
  length (ppEnabledExtensionNames ci).

(** A newly allocated instance block; [slots] is the declared length of
    the array [enabledExtensions]. *)
Definition fresh_instance (slots : nat) : _instance :=
  {| i_dev := {| path := None; instance := None |};
     i_numEnabledExtensions := None;
     i_enabledExtensions := replicate slots None;
     chipVersion := None; hasTiling := None; hasControlFlow := None;
     hasEtc1 := None; hasThreadedFs := None; hasMadvise := None |}.

Definition update_instance (p : addr) (f : _instance -> _instance) : M unit :=
  do i <- load_instance p;
  store_block p (BInstance (f i)).

Definition set_i_numEnabledExtensions (n : Z) (i : _instance) : _instance :=
  {| i_dev := i_dev i; i_numEnabledExtensions := Some n;
     i_enabledExtensions := i_enabledExtensions i;
     chipVersion := chipVersion i; hasTiling := hasTiling i;
     hasControlFlow := hasControlFlow i; hasEtc1 := hasEtc1 i;
     hasThreadedFs := hasThreadedFs i; hasMadvise := hasMadvise i |}.

Definition set_i_enabledExtensions (exts : list (option Z)) (i : _instance)
  : _instance :=
  {| i_dev := i_dev i; i_numEnabledExtensions := i_numEnabledExtensions i;
     i_enabledExtensions := exts;
     chipVersion := chipVersion i; hasTiling := hasTiling i;
     hasControlFlow := hasControlFlow i; hasEtc1 := hasEtc1 i;
     hasThreadedFs := hasThreadedFs i; hasMadvise := hasMadvise i |}.

Definition set_i_dev (pd : _physicalDevice) (i : _instance) : _instance :=
  {| i_dev := pd; i_numEnabledExtensions := i_numEnabledExtensions i;
     i_enabledExtensions := i_enabledExtensions i;
     chipVersion := chipVersion i; hasTiling := hasTiling i;
     hasControlFlow := hasControlFlow i; hasEtc1 := hasEtc1 i;
     hasThreadedFs := hasThreadedFs i; hasMadvise := hasMadvise i |}.

Definition set_chipVersion (v : Z) (i : _instance) : _instance :=
  {| i_dev := i_dev i; i_numEnabledExtensions := i_numEnabledExtensions i;
     i_enabledExtensions := i_enabledExtensions i;
     chipVersion := Some v; hasTiling := hasTiling i;
     hasControlFlow := hasControlFlow i; hasEtc1 := hasEtc1 i;
     hasThreadedFs := hasThreadedFs i; hasMadvise := hasMadvise i |}.

Definition set_hasTiling (v : Z) (i : _instance) : _instance :=
  {| i_dev := i_dev i; i_numEnabledExtensions := i_numEnabledExtensions i;
     i_enabledExtensions := i_enabledExtensions i;
     chipVersion := chipVersion i; hasTiling := Some v;
     hasControlFlow := hasControlFlow i; hasEtc1 := hasEtc1 i;
     hasThreadedFs := hasThreadedFs i; hasMadvise := hasMadvise i |}.

Definition set_hasControlFlow (v : Z) (i : _instance) : _instance :=
  {| i_dev := i_dev i; i_numEnabledExtensions := i_numEnabledExtensions i;
     i_enabledExtensions := i_enabledExtensions i;
     chipVersion := chipVersion i; hasTiling := hasTiling i;
     hasControlFlow := Some v; hasEtc1 := hasEtc1 i;
     hasThreadedFs := hasThreadedFs i; hasMadvise := hasMadvise i |}.

Definition set_hasEtc1 (v : Z) (i : _instance) : _instance :=
  {| i_dev := i_dev i; i_numEnabledExtensions := i_numEnabledExtensions i;
     i_enabledExtensions := i_enabledExtensions i;
     chipVersion := chipVersion i; hasTiling := hasTiling i;
     hasControlFlow := hasControlFlow i; hasEtc1 := Some v;
     hasThreadedFs := hasThreadedFs i; hasMadvise := hasMadvise i |}.

Definition set_hasThreadedFs (v : Z) (i : _instance) : _instance :=
  {| i_dev := i_dev i; i_numEnabledExtensions := i_numEnabledExtensions i;
     i_enabledExtensions := i_enabledExtensions i;
     chipVersion := chipVersion i; hasTiling := hasTiling i;
     hasControlFlow := hasControlFlow i; hasEtc1 := hasEtc1 i;
     hasThreadedFs := Some v; hasMadvise := hasMadvise i |}.

Definition set_hasMadvise (v : Z) (i : _instance) : _instance :=
  {| i_dev := i_dev i; i_numEnabledExtensions := i_numEnabledExtensions i;
     i_enabledExtensions := i_enabledExtensions i;
     chipVersion := chipVersion i; hasTiling := hasTiling i;
     hasControlFlow := hasControlFlow i; hasEtc1 := hasEtc1 i;
     hasThreadedFs := hasThreadedFs i; hasMadvise := Some v |}.

Section Instance.
Variable instanceExtensions : list VkExtensionProperties.

(** The declared length of the array [enabledExtensions] of [_instance],
    which is outside the translated files. *)
Variable instanceExtensionSlots : nat.

(** The body of the loop over the requested names; the store
    [enabledExtensions[numEnabledExtensions] = findres] is outside the array
    when [numEnabledExtensions] is not below its declared length. *)
Definition enable_instance_extension (p : addr) (names : list string)
    (c : nat) : M (option VkResult) :=
  do name <- elt names c;
  let findres := findInstanceExtension instanceExtensions name in
  if (-1 <? findres)%Z then
    do i <- load_instance p;
    do n <- rd (i_numEnabledExtensions i);
    do exts <- put_at (i_enabledExtensions i) n (Some findres);
    update_instance p (set_i_enabledExtensions exts) ;;
    update_instance p (set_i_numEnabledExtensions (n + 1)) ;;
    ret None
  else ret (Some VK_ERROR_EXTENSION_NOT_PRESENT).

(** instance.c, vkCreateInstance. The second component of the result is
    the value stored in [*pInstance], [None] if the function returns
    without storing one. The structure and the place for the handle are
    passed by value, so the asserts on the pointers to them hold. *)
Definition vkCreateInstance (pCreateInfo : VkInstanceCreateInfo)
  : M (VkResult * option VkInstance) :=
  do p <- ALLOCATE (BInstance (fresh_instance instanceExtensionSlots));
  if is_null p then ret (VK_ERROR_OUT_OF_HOST_MEMORY, Some p) else
  update_instance p (set_i_numEnabledExtensions 0) ;;
  massert (enabledLayerCount pCreateInfo =? 0)%Z ;;
  do r <- mfor 0 (enabledExtensionCount pCreateInfo)
            (enable_instance_extension p (ppEnabledExtensionNames pCreateInfo));
  match r with
  | Some err => ret (err, Some p)
  | None =>
    do a <- access "/dev/dri/card0";
    let gpuExists := negb (a =? -1)%Z in
    massert gpuExists ;;
    update_instance p
      (set_i_dev {| path := Some "/dev/dri/card0"; instance := Some p |}) ;;
    do o <- openIoctl;
    massert (negb (o =? -1)%Z) ;;
    do chip <- vc4_get_chip_info;
    update_instance p (set_chipVersion chip) ;;
    do til <- vc4_test_tiling;
    update_instance p (set_hasTiling til) ;;
    do cf <- vc4_has_feature DRM_VC4_PARAM_SUPPORTS_BRANCHES;
    update_instance p (set_hasControlFlow cf) ;;
    do etc1 <- vc4_has_feature DRM_VC4_PARAM_SUPPORTS_ETC1;
    update_instance p (set_hasEtc1 etc1) ;;
    do tfs <- vc4_has_feature DRM_VC4_PARAM_SUPPORTS_THREADED_FS;
    update_instance p (set_hasThreadedFs tfs) ;;
    do mad <- vc4_has_feature DRM_VC4_PARAM_SUPPORTS_MADVISE;
    update_instance p (set_hasMadvise mad) ;;
    ret (VK_SUCCESS, Some p)
  end.

(** instance.c, vkDestroyInstance. *)
Definition vkDestroyInstance (instance : VkInstance) : M unit :=
  massert (negb (is_null instance)) ;;
  closeIoctl ;;
  FREE instance.
End Instance.

(** ** Device creation, queues and destruction *)

Record VkDeviceQueueCreateInfo := {
  queueFamilyIndex : nat;
  queueCount : nat
}.

Record VkDeviceCreateInfo := {
  d_ppEnabledExtensionNames : list string;
  pEnabledFeatures : option (list VkBool32);
  pQueueCreateInfos : list VkDeviceQueueCreateInfo
}.

Definition d_enabledExtensionCount (ci : VkDeviceCreateInfo) : nat :=
  length (d_ppEnabledExtensionNames ci).
Definition queueCreateInfoCount (ci : VkDeviceCreateInfo) : nat :=
  length (pQueueCreateInfos ci).

Definition fresh_queue : _queue := {| lastEmitSeqno := None; q_dev := None |}.

(** A newly allocated device block; [slots] is the declared length of the
    array [enabledExtensions]. *)
Definition fresh_device (slots numQueueFamilies : nat) : _device :=
  {| d_dev := None; d_numEnabledExtensions := None;
     d_enabledExtensions := replicate slots None;
     enabledFeatures := None;
     queues := replicate numQueueFamilies None;
     numQueues := replicate numQueueFamilies None |}.

Definition update_device (p : addr) (f : _device -> _device) : M unit :=
  do d <- load_device p;
  store_block p (BDevice (f d)).

Definition set_d_dev (pd : VkPhysicalDevice) (d : _device) : _device :=
  {| d_dev := Some pd; d_numEnabledExtensions := d_numEnabledExtensions d;
     d_enabledExtensions := d_enabledExtensions d;
     enabledFeatures := enabledFeatures d;
     queues := queues d; numQueues := numQueues d |}.

Definition set_d_numEnabledExtensions (n : Z) (d : _device) : _device :=
  {| d_dev := d_dev d; d_numEnabledExtensions := Some n;
     d_enabledExtensions := d_enabledExtensions d;
     enabledFeatures := enabledFeatures d;
     queues := queues d; numQueues := numQueues d |}.

Definition set_d_enabledExtensions (exts : list (option Z)) (d : _device)
  : _device :=
  {| d_dev := d_dev d; d_numEnabledExtensions := d_numEnabledExtensions d;
     d_enabledExtensions := exts;
     enabledFeatures := enabledFeatures d;
     queues := queues d; numQueues := numQueues d |}.

Definition set_enabledFeatures (fs : list VkBool32) (d : _device) : _device :=
  {| d_dev := d_dev d; d_numEnabledExtensions := d_numEnabledExtensions d;
     d_enabledExtensions := d_enabledExtensions d;
     enabledFeatures := Some fs;
     queues := queues d; numQueues := numQueues d |}.

Definition set_queues (qs : list (option addr)) (d : _device) : _device :=
  {| d_dev := d_dev d; d_numEnabledExtensions := d_numEnabledExtensions d;
     d_enabledExtensions := d_enabledExtensions d;
     enabledFeatures := enabledFeatures d;
     queues := qs; numQueues := numQueues d |}.

Definition set_numQueues (ns : list (option nat)) (d : _device) : _device :=
  {| d_dev := d_dev d; d_numEnabledExtensions := d_numEnabledExtensions d;
     d_enabledExtensions := d_enabledExtensions d;
     enabledFeatures := enabledFeatures d;
     queues := queues d; numQueues := ns |}.

Definition set_lastEmitSeqno (v : Z) (q : _queue) : _queue :=
  {| lastEmitSeqno := Some v; q_dev := q_dev q |}.

Definition set_q_dev (v : VkDevice) (q : _queue) : _queue :=
  {| lastEmitSeqno := lastEmitSeqno q; q_dev := Some v |}.

(** A [VkBool32] in a condition. *)
Definition truthy (b : VkBool32) : bool := negb (b =? 0)%Z.

Section Device.
Variable deviceExtensions : list VkExtensionProperties.

(** The table of supported features and the number of queue families
    are declared outside the translated files. *)
Variable _features : list VkBool32.
Variable numQueueFamilies : nat.

(** So are the declared length of the array [enabledExtensions] of
    [_device], the size [sizeof(_queue)] of a queue record, and the largest
    value of a [size_t]. *)
Variable deviceExtensionSlots : nat.
Variable sizeof_queue : positive.
Variable SIZE_MAX : positive.

Definition numFeatures : nat := length _features.

(** First loop of vkCreateDevice: [return] at the first unknown name. *)
Definition check_device_extension (names : list string) (c : nat)
  : M (option VkResult) :=
  do name <- elt names c;
  let findres := findDeviceExtension deviceExtensions name in
  if (findres =? -1)%Z then ret (Some VK_ERROR_EXTENSION_NOT_PRESENT)
  else ret None.

(** [requestedFeatures[c] && !supportedFeatures[c]]. *)
Definition check_feature (requestedFeatures supportedFeatures : list VkBool32)
    (c : nat) : M (option VkResult) :=
  do r <- elt requestedFeatures c;
  do s <- elt supportedFeatures c;
  if truthy r && negb (truthy s) then ret (Some VK_ERROR_FEATURE_NOT_PRESENT)
  else ret None.

(** Second loop over the names, after the allocation; the store
    [enabledExtensions[numEnabledExtensions] = findres] is outside the array
    when [numEnabledExtensions] is not below its declared length. *)
Definition enable_device_extension (p : addr) (names : list string)
    (c : nat) : M (option VkResult) :=
  do name <- elt names c;
  let findres := findDeviceExtension deviceExtensions name in
  if (-1 <? findres)%Z then
    do d <- load_device p;
    do n <- rd (d_numEnabledExtensions d);
    do exts <- put_at (d_enabledExtensions d) n (Some findres);
    update_device p (set_d_enabledExtensions exts) ;;
    update_device p (set_d_numEnabledExtensions (n + 1)) ;;
    ret None
  else ret None.

(** [queues[c] = 0]. *)
Definition clear_queue_slot (p : addr) (c : nat) : M (option VkResult) :=
  do d <- load_device p;
  do qs <- put (queues d) c (Some 0%nat);
  update_device p (set_queues qs) ;;
  ret None.

(** A round of the loop [for (int d = 0; d < queueCount; ++d)]: the store
    [queues[family][d].lastEmitSeqno = 0], then [++d]. *)
Definition init_queue (p : addr) (family : nat) (d : nat)
  : M (option VkResult) :=
  do dv <- load_device p;
  do slot <- elt (queues dv) family;
  do a <- rd slot;
  do qs <- load_queues a;
  do q <- elt qs d;
  store_block a (BQueues (<[d := set_lastEmitSeqno 0 q]> qs)) ;;
  increment d ;;
  ret None.

(** [sizeof(_queue) * queueCount], computed in [size_t]. *)
Definition queue_array_size (queueCount : nat) : Z :=
  ((Z.pos sizeof_queue * Z.of_nat queueCount) mod (Z.pos SIZE_MAX + 1))%Z.

(** The number of queue records in a block of that many bytes. *)
Definition queue_array_length (queueCount : nat) : nat :=
  Z.to_nat (queue_array_size queueCount / Z.pos sizeof_queue).

(** The body of the loop over [pQueueCreateInfos]. *)
Definition create_queues (p : addr) (infos : list VkDeviceQueueCreateInfo)
    (c : nat) : M (option VkResult) :=
  do info <- elt infos c;
  let family := queueFamilyIndex info in
  do a <- ALLOCATE (BQueues (replicate (queue_array_length (queueCount info))
                               fresh_queue));
  do dv <- load_device p;
  do qs <- put (queues dv) family (Some a);
  update_device p (set_queues qs) ;;
  if is_null a then ret (Some VK_ERROR_OUT_OF_HOST_MEMORY) else
  do r <- mfor 0 (queueCount info) (init_queue p family);
  do dv' <- load_device p;
  do ns <- put (numQueues dv') family (Some (queueCount info));
  update_device p (set_numQueues ns) ;;
  ret None.

(** device.c, vkCreateDevice. The second component of the result is the
    value stored in [*pDevice], [None] if the function returns without
    storing one. *)
Definition vkCreateDevice (physicalDevice : VkPhysicalDevice)
    (pCreateInfo : VkDeviceCreateInfo) : M (VkResult * option VkDevice) :=
  massert (negb (pd_is_null physicalDevice)) ;;
  let names := d_ppEnabledExtensionNames pCreateInfo in
  do r <- mfor 0 (d_enabledExtensionCount pCreateInfo)
            (check_device_extension names);
  match r with Some err => ret (err, None) | None =>
  let requestedFeatures := pEnabledFeatures pCreateInfo in
  let supportedFeatures := _features in
  do r <- match requestedFeatures with
          | Some req => mfor 0 numFeatures (check_feature req supportedFeatures)
          | None => ret None
          end;
  match r with Some err => ret (err, None) | None =>
  do p <- ALLOCATE (BDevice (fresh_device deviceExtensionSlots
                               numQueueFamilies));
  if is_null p then ret (VK_ERROR_TOO_MANY_OBJECTS, Some p) else
  update_device p (set_d_dev physicalDevice) ;;
  update_device p (set_d_numEnabledExtensions 0) ;;
  do r <- mfor 0 (d_enabledExtensionCount pCreateInfo)
            (enable_device_extension p names);
  do r <- match requestedFeatures with
          | Some req =>
            do r <- mfor 0 numFeatures (check_feature req supportedFeatures);
            match r with
            | Some err => ret (Some err)
            | None => update_device p (set_enabledFeatures req) ;; ret None
            end
          | None =>
            update_device p (set_enabledFeatures (replicate numFeatures 0%Z)) ;;
            ret None
          end;
  match r with Some err => ret (err, Some p) | None =>
  do r <- mfor 0 numQueueFamilies (clear_queue_slot p);
  do r <- (if (0 <? queueCreateInfoCount pCreateInfo)%nat
           then mfor 0 (queueCreateInfoCount pCreateInfo)
                  (create_queues p (pQueueCreateInfos pCreateInfo))
           else ret None);
  match r with
  | Some err => ret (err, Some p)
  | None => ret (VK_SUCCESS, Some p)
  end end end end.

(** device.c, vkGetDeviceQueue. The result is the value stored in
    [*pQueue]. *)
Definition vkGetDeviceQueue (device : VkDevice) (queueFamilyIndex queueIndex : nat)
  : M VkQueue :=
  massert (negb (is_null device)) ;;
  massert (queueFamilyIndex <? numQueueFamilies)%nat ;;
  do dv <- load_device device;
  do n <- elt (numQueues dv) queueFamilyIndex;
  do n <- rd n;
  massert (queueIndex <? n)%nat ;;
  do slot <- elt (queues dv) queueFamilyIndex;
  do a <- rd slot;
  let pQueue := Q_at a queueIndex in
  do qs <- load_queues a;
  do q <- elt qs queueIndex;
  store_block a (BQueues (<[queueIndex := set_q_dev device q]> qs)) ;;
  ret pQueue.

(** [FREE(dev->queues[d])]: the inner loop body of vkDestroyDevice. The
    array is indexed by the queue counter [d]. *)
Definition free_queues (dev : addr) (d : nat) : M (option unit) :=
  do dv <- load_device dev;
  do slot <- elt (queues dv) d;
  do a <- rd slot;
  FREE a ;;
  ret None.

(** The outer loop body of vkDestroyDevice. *)
Definition free_family (dev : addr) (c : nat) : M (option unit) :=
  do dv <- load_device dev;
  do n <- elt (numQueues dv) c;
  do n <- rd n;
  mfor 0 n (free_queues dev).

(** device.c, vkDestroyDevice. *)
Definition vkDestroyDevice (device : VkDevice) : M unit :=
  massert (negb (is_null device)) ;;
  let dev := device in
  do r <- mfor 0 numQueueFamilies (free_family dev);
  FREE dev.
End Device.

(** ** Entry-point resolution *)

(** A function pointer: [None] is the null pointer, [Some f] the address
    of the exported function named [f]. *)
Definition PFN_vkVoidFunction := option string.

Section Resolver.
Local Open Scope string_scope.

(** The names of the [RETFUNC] lines of vkGetInstanceProcAddr, in the
    order of the source. *)
Definition exported : list string :=
[
  "vkCreateInstance"; "vkEnumerateInstanceVersion"; "vkDestroyInstance";
  "vkEnumeratePhysicalDevices"; "vkGetPhysicalDeviceFeatures";
  "vkGetPhysicalDeviceFormatProperties";
  "vkGetPhysicalDeviceImageFormatProperties";
  "vkGetPhysicalDeviceProperties";
  "vkGetPhysicalDeviceQueueFamilyProperties";
  "vkGetPhysicalDeviceMemoryProperties"; "vkGetInstanceProcAddr";
  "vkGetDeviceProcAddr"; "vkCreateDevice"; "vkDestroyDevice";
  "vkEnumerateInstanceExtensionProperties";
  "vkEnumerateDeviceExtensionProperties";
  "vkEnumerateInstanceLayerProperties"; "vkEnumerateDeviceLayerProperties";
  "vkGetDeviceQueue"; "vkQueueSubmit"; "vkQueueWaitIdle";
  "vkDeviceWaitIdle"; "vkAllocateMemory"; "vkFreeMemory"; "vkMapMemory";
  "vkUnmapMemory"; "vkFlushMappedMemoryRanges";
  "vkInvalidateMappedMemoryRanges"; "vkGetDeviceMemoryCommitment";
  "vkBindBufferMemory"; "vkBindImageMemory";
  "vkGetBufferMemoryRequirements"; "vkGetImageMemoryRequirements";
  "vkGetImageSparseMemoryRequirements";
  "vkGetPhysicalDeviceSparseImageFormatProperties"; "vkQueueBindSparse";
  "vkCreateFence"; "vkDestroyFence"; "vkResetFences"; "vkGetFenceStatus";
  "vkWaitForFences"; "vkCreateSemaphore"; "vkDestroySemaphore";
  "vkCreateEvent"; "vkDestroyEvent"; "vkGetEventStatus"; "vkSetEvent";
  "vkResetEvent"; "vkCreateQueryPool"; "vkDestroyQueryPool";
  "vkGetQueryPoolResults"; "vkCreateBuffer"; "vkDestroyBuffer";
  "vkCreateBufferView"; "vkDestroyBufferView"; "vkCreateImage";
  "vkDestroyImage"; "vkGetImageSubresourceLayout"; "vkCreateImageView";
  "vkDestroyImageView"; "vkCreateShaderModule"; "vkDestroyShaderModule";
  "vkCreatePipelineCache"; "vkDestroyPipelineCache";
  "vkGetPipelineCacheData"; "vkMergePipelineCaches";
  "vkCreateGraphicsPipelines"; "vkCreateComputePipelines";
  "vkDestroyPipeline"; "vkCreatePipelineLayout"; "vkDestroyPipelineLayout";
  "vkCreateSampler"; "vkDestroySampler"; "vkCreateDescriptorSetLayout";
  "vkDestroyDescriptorSetLayout"; "vkCreateDescriptorPool";
  "vkDestroyDescriptorPool"; "vkResetDescriptorPool";
  "vkAllocateDescriptorSets"; "vkFreeDescriptorSets";
  "vkUpdateDescriptorSets"; "vkCreateFramebuffer"; "vkDestroyFramebuffer";
  "vkCreateRenderPass"; "vkDestroyRenderPass";
  "vkGetRenderAreaGranularity"; "vkCreateCommandPool";
  "vkDestroyCommandPool"; "vkResetCommandPool"; "vkAllocateCommandBuffers";
  "vkFreeCommandBuffers"; "vkBeginCommandBuffer"; "vkEndCommandBuffer";
  "vkResetCommandBuffer"; "vkCmdBindPipeline"; "vkCmdSetViewport";
  "vkCmdSetScissor"; "vkCmdSetLineWidth"; "vkCmdSetDepthBias";
  "vkCmdSetBlendConstants"; "vkCmdSetDepthBounds";
  "vkCmdSetStencilCompareMask"; "vkCmdSetStencilWriteMask";
  "vkCmdSetStencilReference"; "vkCmdBindDescriptorSets";
  "vkCmdBindIndexBuffer"; "vkCmdBindVertexBuffers"; "vkCmdDraw";
  "vkCmdDrawIndexed"; "vkCmdDrawIndirect"; "vkCmdDrawIndexedIndirect";
  "vkCmdDispatch"; "vkCmdDispatchIndirect"; "vkCmdCopyBuffer";
  "vkCmdCopyImage"; "vkCmdBlitImage"; "vkCmdCopyBufferToImage";
  "vkCmdCopyImageToBuffer"; "vkCmdUpdateBuffer"; "vkCmdFillBuffer";
  "vkCmdClearColorImage"; "vkCmdClearDepthStencilImage";
  "vkCmdClearAttachments"; "vkCmdResolveImage"; "vkCmdSetEvent";
  "vkCmdResetEvent"; "vkCmdWaitEvents"; "vkCmdPipelineBarrier";
  "vkCmdBeginQuery"; "vkCmdEndQuery"; "vkCmdResetQueryPool";
  "vkCmdWriteTimestamp"; "vkCmdCopyQueryPoolResults"; "vkCmdPushConstants";
  "vkCmdBeginRenderPass"; "vkCmdNextSubpass"; "vkCmdEndRenderPass";
  "vkCmdExecuteCommands"; "vkEnumeratePhysicalDeviceGroups";
  "vkGetPhysicalDeviceFeatures2"; "vkGetPhysicalDeviceProperties2";
  "vkGetPhysicalDeviceFormatProperties2";
  "vkGetPhysicalDeviceImageFormatProperties2";
  "vkGetPhysicalDeviceQueueFamilyProperties2";
  "vkGetPhysicalDeviceMemoryProperties2";
  "vkGetPhysicalDeviceSparseImageFormatProperties2";
  "vkGetPhysicalDeviceExternalBufferProperties";
  "vkGetPhysicalDeviceExternalFenceProperties";
  "vkGetPhysicalDeviceExternalSemaphoreProperties"; "vkBindImageMemory2";
  "vkGetDeviceGroupPeerMemoryFeatures"; "vkCmdSetDeviceMask";
  "vkCmdDispatchBase"; "vkGetImageMemoryRequirements2";
  "vkGetBufferMemoryRequirements2"; "vkGetImageSparseMemoryRequirements2";
  "vkTrimCommandPool"; "vkGetDeviceQueue2";
  "vkCreateSamplerYcbcrConversion"; "vkDestroySamplerYcbcrConversion";
  "vkCreateDescriptorUpdateTemplate"; "vkDestroyDescriptorUpdateTemplate";
  "vkUpdateDescriptorSetWithTemplate"; "vkGetDescriptorSetLayoutSupport";
  "vkBindBufferMemory2"
].

(** [RETFUNC(f)]: [if(!strcmp(pName, #f)) return f], line after line. *)
Fixpoint RETFUNC (fs : list string) (pName : string) : PFN_vkVoidFunction :=
  match fs with
  | [] => None
  | f :: rest => if String.eqb pName f then Some f else RETFUNC rest pName
  end.

(** instance.c, vkGetInstanceProcAddr. *)
Definition vkGetInstanceProcAddr (instance : VkInstance) (pName : string)
  : PFN_vkVoidFunction :=
  if is_null instance &&
     negb (String.eqb pName "vkEnumerateInstanceVersion" ||
           String.eqb pName "vkEnumerateInstanceExtensionProperties" ||
           String.eqb pName "vkEnumerateInstanceLayerProperties" ||
           String.eqb pName "vkCreateInstance")
  then None
  else RETFUNC exported pName.

(** The names that the condition of vkGetDeviceProcAddr compares
    [pName] with, in the order of the source. *)
Definition device_refused : list string :=
[
  "vkDestroyInstance"; "vkEnumeratePhysicalDevices";
  "vkGetPhysicalDeviceFeatures"; "vkGetPhysicalDeviceFormatProperties";
  "vkGetPhysicalDeviceImageFormatProperties";
  "vkGetPhysicalDeviceProperties";
  "vkGetPhysicalDeviceQueueFamilyProperties";
  "vkGetPhysicalDeviceMemoryProperties"; "vkCreateDevice";
  "vkEnumerateDeviceExtensionProperties";
  "vkEnumerateDeviceLayerProperties";
  "vkGetPhysicalDeviceSparseImageFormatProperties";
  "vkEnumeratePhysicalDeviceGroups"; "vkGetPhysicalDeviceFeatures2";
  "vkGetPhysicalDeviceProperties2"; "vkGetPhysicalDeviceFormatProperties2";
  "vkGetPhysicalDeviceImageFormatProperties2";
  "vkGetPhysicalDeviceQueueFamilyProperties2";
  "vkGetPhysicalDeviceMemoryProperties2";
  "vkGetPhysicalDeviceSparseImageFormatProperties2";
  "vkGetPhysicalDeviceExternalBufferProperties";
  "vkGetPhysicalDeviceExternalFenceProperties";
  "vkGetPhysicalDeviceExternalSemaphoreProperties"
].

(** [d->dev->instance]: the instance whose embedded physical device the
    device was created from. *)
Definition device_instance (d : VkDevice) : M VkInstance :=
  do dv <- load_device d;
  do pd <- rd (d_dev dv);
  match pd with
  | PD_null => fail InvalidPointer
  | PD_of i =>
    do inst <- load_instance i;
    rd (instance (i_dev inst))
  end.

(** device.c, vkGetDeviceProcAddr. *)
Definition vkGetDeviceProcAddr (device : VkDevice) (pName : string)
  : M PFN_vkVoidFunction :=
  if existsb (fun f => String.eqb f pName) device_refused
  then ret None
  else
    let d := device in
    do owner <- device_instance d;
    ret (vkGetInstanceProcAddr owner pName).
End Resolver.

(** ** Version, properties, features and queue families *)

Record VkPhysicalDeviceSparseProperties := {
  residencyStandard2DBlockShape : VkBool32;
  residencyStandard2DMultisampleBlockShape : VkBool32;
  residencyStandard3DBlockShape : VkBool32;
  residencyAlignedMipSize : VkBool32;
  residencyNonResidentStrict : VkBool32
}.

Inductive VkPhysicalDeviceType :=
| VK_PHYSICAL_DEVICE_TYPE_OTHER
| VK_PHYSICAL_DEVICE_TYPE_INTEGRATED_GPU
| VK_PHYSICAL_DEVICE_TYPE_DISCRETE_GPU
| VK_PHYSICAL_DEVICE_TYPE_VIRTUAL_GPU
| VK_PHYSICAL_DEVICE_TYPE_CPU.

(** The properties record; the type of the limits is declared outside the
    translated files. [deviceName] and [pipelineCacheUUID] are the arrays
    of the C structure. *)
Record VkPhysicalDeviceProperties (Limits : Type) := {
  apiVersion : Z;
  driverVersion : Z;
  vendorID : Z;
  deviceID : Z;
  deviceType : VkPhysicalDeviceType;
  deviceName : list Ascii.ascii;
  pipelineCacheUUID : list Z;
  limits : Limits;
  sparseProperties : VkPhysicalDeviceSparseProperties
}.
Arguments apiVersion {Limits} _.
Arguments driverVersion {Limits} _.
Arguments vendorID {Limits} _.
Arguments deviceID {Limits} _.
Arguments deviceType {Limits} _.
Arguments deviceName {Limits} _.
Arguments pipelineCacheUUID {Limits} _.
Arguments limits {Limits} _.
Arguments sparseProperties {Limits} _.

(** The C library's [strcpy] into an array: the characters of [src] and
    the terminator replace the first cells of [dst]. *)
Definition strcpy (dst : list Ascii.ascii) (src : string)
  : outcome (list Ascii.ascii) :=
  let bytes := String.list_ascii_of_string src ++ [Ascii.zero] in
  if decide (length bytes <= length dst)
  then Ok (bytes ++ drop (length bytes) dst)
  else Fault OutOfBounds.

Section PhysicalDeviceQueries.
Local Open Scope Z_scope.

(** Declared outside the translated files: the driver version, the limits
    and the tables of supported features and of queue families. *)
Variable VK_DRIVER_VERSION : Z.
Variable Limits : Type.
Variable _limits : Limits.
Variable _features : list VkBool32.
Variable VkQueueFamilyProperties : Type.
Variable _queueFamilyProperties : list VkQueueFamilyProperties.
Variable numQueueFamilies : nat.

(** instance.c, vkEnumerateInstanceVersion. *)
Definition vkEnumerateInstanceVersion (pApiVersion : option Z)
  : outcome (VkResult * Z) :=
  match pApiVersion with
  | None => Fault AssertionFailed
  | Some _ => Ok (VK_SUCCESS, VK_DRIVER_VERSION)
  end.

(** device.c, vkGetPhysicalDeviceProperties. The argument is the content
    of [*pProperties] before the call, the result its content after. *)
Definition vkGetPhysicalDeviceProperties (physicalDevice : VkPhysicalDevice)
    (pProperties : option (VkPhysicalDeviceProperties Limits))
  : outcome (VkPhysicalDeviceProperties Limits) :=
  assert_ (negb (pd_is_null physicalDevice)) (
  match pProperties with
  | None => Fault AssertionFailed
  | Some props =>
    let sparseProps :=
      {| residencyStandard2DBlockShape := 1;
         residencyStandard2DMultisampleBlockShape := 1;
         residencyStandard3DBlockShape := 1;
         residencyAlignedMipSize := 1;
         residencyNonResidentStrict := 1 |} in
    obind (strcpy (deviceName props) "VideoCore IV HW") (fun name =>
    Ok {| apiVersion := VK_DRIVER_VERSION;
          driverVersion := 1;
          vendorID := 0x14E4;
          deviceID := 0;
          deviceType := VK_PHYSICAL_DEVICE_TYPE_INTEGRATED_GPU;
          deviceName := name;
          pipelineCacheUUID := pipelineCacheUUID props;
          limits := _limits;
          sparseProperties := sparseProps |})
  end).


(** device.c, vkGetPhysicalDeviceQueueFamilyProperties. With a null buffer
    the count written is the literal 1. *)
Definition vkGetPhysicalDeviceQueueFamilyProperties
    (physicalDevice : VkPhysicalDevice)
    (pQueueFamilyPropertyCount : option Z)
    (pQueueFamilyProperties : option (list VkQueueFamilyProperties))
  : outcome (Z * option (list VkQueueFamilyProperties)) :=
  assert_ (negb (pd_is_null physicalDevice)) (
  match pQueueFamilyPropertyCount with
  | None => Fault AssertionFailed
  | Some count =>
    match pQueueFamilyProperties with
    | None => Ok (1, None)
    | Some buf =>
      let arraySize := Int.to_int count in
      let elementsWritten := Int.min (Z.of_nat numQueueFamilies) arraySize in
      obind (for_range 0 (Z.to_nat elementsWritten)
               (copy_item _queueFamilyProperties) buf) (fun buf' =>
      Ok (Int.to_uint32 elementsWritten, Some buf'))
    end
  end).

(** device.c, vkGetPhysicalDeviceSurfaceSupportKHR. The result carries the
    value stored in [*pSupported]. *)
Definition vkGetPhysicalDeviceSurfaceSupportKHR
    (physicalDevice : VkPhysicalDevice) (queueFamilyIndex : nat)
    (surface : addr) (pSupported : option VkBool32)
  : outcome (VkResult * VkBool32) :=
  match pSupported with
  | None => Fault AssertionFailed
  | Some _ =>
    assert_ (negb (is_null surface)) (
    assert_ (negb (pd_is_null physicalDevice)) (
    assert_ (queueFamilyIndex <? numQueueFamilies)%nat (
    Ok (VK_SUCCESS, 1))))
  end.
End PhysicalDeviceQueries.

(** * Vocabulary of the statements *)

(** ** Weakest preconditions *)

(** [wp ff m Q w]: the call [m] in the world [w] ends in a result and a
    world that satisfy [Q]; a call that faults satisfies [ff] ([False] for
    total correctness, [True] for partial correctness). *)
Definition wp {A} (ff : Prop) (m : M A) (Q : A -> world -> Prop) (w : world)
  : Prop :=
  match m w with
  | Ok (a, w') => Q a w'
  | Fault _ => ff
  end.

(** ** The outcome of the resolvers and of the enumerations *)

(** What the device-scoped resolver answers, as a function of the name
    alone. *)
Definition device_scoped (name : string) : PFN_vkVoidFunction :=
  if existsb (fun f => String.eqb f name) device_refused then None
  else RETFUNC exported name.

(** An entry of the group buffer after the stores of the loop body. *)
Definition group_written (i : addr) (g : VkPhysicalDeviceGroupProperties)
  : VkPhysicalDeviceGroupProperties :=
  {| physicalDeviceCount := 1%Z;
     physicalDevices := <[0%nat := PD_of i]> (physicalDevices g);
     subsetAllocation := 0%Z |}.

(** ** Valid requests and the state of a device under construction *)

(** Every requested name is in the registry. *)
Definition extensions_known (deviceExtensions : list VkExtensionProperties)
    (names : list string) : Prop :=
  forall name, name ∈ names ->
    findDeviceExtension deviceExtensions name <> (-1)%Z.

(** No requested feature is unsupported. *)
Definition features_supported (_features : list VkBool32)
    (requested : option (list VkBool32)) : Prop :=
  match requested with
  | None => True
  | Some req =>
    length _features <= length req /\
    forall c r s, req !! c = Some r -> _features !! c = Some s ->
                  truthy r = true -> truthy s = true
  end.

Definition families_valid (nf : nat) (infos : list VkDeviceQueueCreateInfo)
  : Prop :=
  Forall (fun info => queueFamilyIndex info < nf) infos.

(** The queue arrays of the request can be sized and counted: for every
    count [n], [sizeof(_queue) * n] is a [size_t] and [n] is an [int]. *)
Definition queue_counts_fit (sizeof_queue SIZE_MAX : positive)
    (infos : list VkDeviceQueueCreateInfo) : Prop :=
  Forall (fun info =>
            (Z.pos sizeof_queue * Z.of_nat (queueCount info)
             <= Z.pos SIZE_MAX)%Z
            /\ (Z.of_nat (queueCount info) <= Int.INT_MAX)%Z) infos.

(** An array of [slots] cells: the first cells hold [exts], in order, and
    the others have not been written. *)
Definition filled (slots : nat) (exts : list Z) : list (option Z) :=
  (Some <$> exts) ++ replicate (slots - length exts) None.

(** The feature set of the created device. *)
Definition requested_features (nfeat : nat) (requested : option (list VkBool32))
  : list VkBool32 :=
  match requested with
  | Some req => req
  | None => replicate nfeat 0%Z
  end.

(** The count of the last request for family [f], if there is one. *)
Definition last_count (infos : list VkDeviceQueueCreateInfo) (f : nat)
  : option nat :=
  fold_left (fun acc info =>
               if decide (queueFamilyIndex info = f)
               then Some (queueCount info) else acc) infos None.

(** None of the next [n] answers of the allocator is a failure. *)
Definition all_granted (n : nat) (answers : list bool) : bool :=
  forallb (fun b => b) (take n answers).

(** Every family with a queue count has an array of that many queues, each
    with its sequence number at zero. *)
Definition queues_ok (w : world) (dv : _device) : Prop :=
  forall f n, numQueues dv !! f = Some (Some n) ->
    exists a qs,
      queues dv !! f = Some (Some a) /\ peek w a = Some (BQueues qs)
      /\ length qs = n
      /\ Forall (fun q => lastEmitSeqno q = Some 0%Z) qs.

(** What a step that only rewrites the extension list or the queue slots
    leaves alone. *)
Definition keeps (dv dv' : _device) : Prop :=
  d_dev dv' = d_dev dv /\ enabledFeatures dv' = enabledFeatures dv
  /\ numQueues dv' = numQueues dv
  /\ length (queues dv') = length (queues dv).

(** The device block at [p] while the loop over the queue requests runs:
    before round [c], [answers] being the allocator's plan when the loop
    starts. *)
Definition building (nf : nat) (p : addr) (pd : VkPhysicalDevice)
    (F : list VkBool32) (infos : list VkDeviceQueueCreateInfo)
    (answers : list bool) (c : nat) (w : world) : Prop :=
  exists dv,
    peek w p = Some (BDevice dv)
    /\ d_dev dv = Some pd /\ enabledFeatures dv = Some F
    /\ length (queues dv) = nf /\ length (numQueues dv) = nf
    /\ queues_ok w dv
    /\ (forall f, f < nf ->
          numQueues dv !! f = Some (last_count (take c infos) f))
    /\ plan w = drop c answers
    /\ all_granted c answers = true.

(** The device block at [p] when the allocation of a queue array has
    failed. *)
Definition abandoned (nf : nat) (p : addr) (pd : VkPhysicalDevice)
    (F : list VkBool32) (infos : list VkDeviceQueueCreateInfo)
    (answers : list bool) (w : world) : Prop :=
  all_granted (length infos) answers = false
  /\ exists dv,
       peek w p = Some (BDevice dv)
       /\ d_dev dv = Some pd /\ enabledFeatures dv = Some F.

(** What vkCreateDevice returns and leaves behind once the request has
    passed validation and the device block has been allocated, at the
    address [S (length (heap w))]. *)
Definition created (nfeat nf : nat) (pd : VkPhysicalDevice)
    (ci : VkDeviceCreateInfo) (w : world)
    (res : VkResult * option VkDevice) (w' : world) : Prop :=
  let p := S (length (heap w)) in
  let infos := pQueueCreateInfos ci in
  let F := requested_features nfeat (pEnabledFeatures ci) in
  if all_granted (length infos) (tail (plan w))
  then res = (VK_SUCCESS, Some p)
       /\ building nf p pd F infos (tail (plan w)) (length infos) w'
  else res = (VK_ERROR_OUT_OF_HOST_MEMORY, Some p)
       /\ abandoned nf p pd F infos (tail (plan w)) w'.

(** The device block at [p], if there is one. *)
Definition device_at (w : world) (p : addr) : option _device :=
  match peek w p with
  | Some (BDevice dv) => Some dv
  | _ => None
  end.

(** ** Concrete registries, requests and runs, for the examples *)

(** A registry with two device extensions, for the examples. *)
Definition ext (name : string) : VkExtensionProperties :=
  {| extensionName := name; specVersion := 1 |}.

Definition sample_instance_extensions : list VkExtensionProperties :=
  [ext "VK_KHR_surface"; ext "VK_KHR_display"].

Definition sample_device_extensions : list VkExtensionProperties :=
  [ext "VK_KHR_swapchain"; ext "VK_KHR_maintenance1"].

Definition sample_features : list VkBool32 := [1; 0; 1]%Z.

(** For the examples: arrays [enabledExtensions] of two cells, queue
    records of 16 bytes and a [size_t] of 32 bits. *)
Definition sample_slots : nat := 2.
Definition sample_sizeof_queue : positive := 16.
Definition sample_SIZE_MAX : positive := 4294967295.

Definition sample_group : VkPhysicalDeviceGroupProperties :=
  {| physicalDeviceCount := 7%Z;
     physicalDevices := [PD_null; PD_null];
     subsetAllocation := 9%Z |}.

Definition sample_kernel : kernel :=
  {| card0_exists := true; openIoctl_result := 3; chip_info := 21;
     tiling := 1; feature := fun _ => 1%Z |}.

Definition boot (answers : list bool) : world :=
  {| heap := []; plan := answers; klog := []; hw := sample_kernel |}.

(** The world [w] with the allocator's next answers replaced. *)
Definition with_answers (answers : list bool) (w : world) : world :=
  {| heap := heap w; plan := answers; klog := klog w; hw := hw w |}.

(** The world left by a call, the starting world if the call faults. *)
Definition after {A} (m : M A) (w : world) : world :=
  match m w with
  | Ok (_, w') => w'
  | Fault _ => w
  end.

Definition sample_instance_info : VkInstanceCreateInfo :=
  {| enabledLayerCount := 0; ppEnabledExtensionNames := ["VK_KHR_display"] |}.

Definition bogus_instance_info : VkInstanceCreateInfo :=
  {| enabledLayerCount := 0;
     ppEnabledExtensionNames := ["VK_KHR_display"; "VK_NOT_AN_EXTENSION"] |}.

Definition sample_device_info : VkDeviceCreateInfo :=
  {| d_ppEnabledExtensionNames := ["VK_KHR_swapchain"];
     pEnabledFeatures := Some [1; 0; 0]%Z;
     pQueueCreateInfos :=
       [ {| queueFamilyIndex := 0; queueCount := 2 |};
         {| queueFamilyIndex := 1; queueCount := 1 |} ] |}.



Definition plain_device_info : VkDeviceCreateInfo :=
  {| d_ppEnabledExtensionNames := ["VK_KHR_swapchain"];
     pEnabledFeatures := None;
     pQueueCreateInfos := [ {| queueFamilyIndex := 0; queueCount := 1 |} ] |}.

(** The request of the spec's example: three queues in family 0 and one in
    family 1. *)
Definition three_and_one_info : VkDeviceCreateInfo :=
  {| d_ppEnabledExtensionNames := [];
     pEnabledFeatures := None;
     pQueueCreateInfos :=
       [ {| queueFamilyIndex := 0; queueCount := 3 |};
         {| queueFamilyIndex := 1; queueCount := 1 |} ] |}.

(** One family with one queue. *)
Definition single_queue_info : VkDeviceCreateInfo :=
  {| d_ppEnabledExtensionNames := [];
     pEnabledFeatures := None;
     pQueueCreateInfos := [ {| queueFamilyIndex := 0; queueCount := 1 |} ] |}.

(** An instance at address 1. *)
Definition world_with_instance : world :=
  after (vkCreateInstance sample_instance_extensions sample_slots
           sample_instance_info)
        (boot []).

(** A device at address 2, with two queue families: two queues in family 0
    (the array at address 3) and one in family 1 (the array at address 4). *)
Definition world_with_device : world :=
  after (vkCreateDevice sample_device_extensions sample_features 2 sample_slots
           sample_sizeof_queue sample_SIZE_MAX
           (PD_of 1) sample_device_info)
        world_with_instance.

(** A second device, at address 5, next to the one at address 2: created
    without a feature set and with one queue. *)
Definition world_with_two_devices : world :=
  after (vkCreateDevice sample_device_extensions sample_features 2 sample_slots
           sample_sizeof_queue sample_SIZE_MAX
           (PD_of 1) plain_device_info)
        world_with_device.

Definition world_with_plain_device : world :=
  after (vkCreateDevice sample_device_extensions sample_features 2 sample_slots
           sample_sizeof_queue sample_SIZE_MAX
           (PD_of 1) plain_device_info)
        world_with_instance.

Definition world_with_three_and_one : world :=
  after (vkCreateDevice sample_device_extensions sample_features 2 sample_slots
           sample_sizeof_queue sample_SIZE_MAX
           (PD_of 1) three_and_one_info)
        world_with_instance.

Definition world_with_single_queue : world :=
  after (vkCreateDevice sample_device_extensions sample_features 1 sample_slots
           sample_sizeof_queue sample_SIZE_MAX
           (PD_of 1) single_queue_info)
        world_with_instance.

(** ** Further vocabulary: names, strings and frames *)

(** The names that resolve without an instance. *)
Definition pre_instance : list string :=
  ["vkEnumerateInstanceVersion"; "vkEnumerateInstanceExtensionProperties";
   "vkEnumerateInstanceLayerProperties"; "vkCreateInstance"]%string.

(** The C string held by an array of characters: the characters before
    the first terminator. *)
Fixpoint c_string (l : list Ascii.ascii) : string :=
  match l with
  | [] => EmptyString
  | c :: rest =>
    if Ascii.eqb c Ascii.zero then EmptyString else String c (c_string rest)
  end.

(** The world after a call to the kernel has been recorded. *)
Definition logged (c : kcall) (w : world) : world :=
  {| heap := heap w; plan := plan w; klog := c :: klog w; hw := hw w |}.

(** [w'] differs from [w] at most in the block at [p]. *)
Definition same_except (p : addr) (w w' : world) : Prop :=
  (forall q, q <> p -> peek w' q = peek w q)
  /\ plan w' = plan w /\ klog w' = klog w /\ hw w' = hw w.

(** ** Further vocabulary: the instance block *)

(** The instance block once [c] of the requested names have been
    entered. *)
Definition instance_enabling (table : list VkExtensionProperties)
    (slots : nat) (names : list string) (c : nat) : _instance :=
  {| i_dev := {| path := None; instance := None |};
     i_numEnabledExtensions := Some (Z.of_nat c);
     i_enabledExtensions :=
       filled slots (map (findInstanceExtension table) (take c names));
     chipVersion := None; hasTiling := None; hasControlFlow := None;
     hasEtc1 := None; hasThreadedFs := None; hasMadvise := None |}.

(** The instance block at [p] after a successful creation, [k] being the
    kernel's answers. *)
Definition instance_ready (table : list VkExtensionProperties)
    (slots : nat) (names : list string) (k : kernel) (p : addr) : _instance :=
  {| i_dev := {| path := Some "/dev/dri/card0"%string; instance := Some p |};
     i_numEnabledExtensions := Some (Z.of_nat (length names));
     i_enabledExtensions :=
       filled slots (map (findInstanceExtension table) names);
     chipVersion := Some (chip_info k);
     hasTiling := Some (tiling k);
     hasControlFlow := Some (feature k DRM_VC4_PARAM_SUPPORTS_BRANCHES);
     hasEtc1 := Some (feature k DRM_VC4_PARAM_SUPPORTS_ETC1);
     hasThreadedFs := Some (feature k DRM_VC4_PARAM_SUPPORTS_THREADED_FS);
     hasMadvise := Some (feature k DRM_VC4_PARAM_SUPPORTS_MADVISE) |}.

(** The calls to the kernel of a successful instance creation, latest
    first. *)
Definition probe_calls : list kcall :=
  [HasFeature DRM_VC4_PARAM_SUPPORTS_MADVISE;
   HasFeature DRM_VC4_PARAM_SUPPORTS_THREADED_FS;
   HasFeature DRM_VC4_PARAM_SUPPORTS_ETC1;
   HasFeature DRM_VC4_PARAM_SUPPORTS_BRANCHES;
   TestTiling; GetChipInfo; OpenIoctl; Access "/dev/dri/card0"%string].

(** Every requested name is in the instance-extension registry. *)
Definition instance_extensions_known (table : list VkExtensionProperties)
    (names : list string) : Prop :=
  forall name, name ∈ names -> findInstanceExtension table name <> (-1)%Z.

(** One family with two queues, and the device created from it at
    address 2, its array at address 3. *)
Definition two_queue_info : VkDeviceCreateInfo :=
  {| d_ppEnabledExtensionNames := [];
     pEnabledFeatures := None;
     pQueueCreateInfos := [ {| queueFamilyIndex := 0; queueCount := 2 |} ] |}.

Definition world_with_two_queues : world :=
  after (vkCreateDevice sample_device_extensions sample_features 1 sample_slots
           sample_sizeof_queue sample_SIZE_MAX (PD_of 1) two_queue_info)
        world_with_instance.

(** A request with one layer, and a machine without the device file. *)
Definition layered_instance_info : VkInstanceCreateInfo :=
  {| enabledLayerCount := 1; ppEnabledExtensionNames := [] |}.

Definition headless_world : world :=
  {| heap := []; plan := []; klog := [];
     hw := {| card0_exists := false; openIoctl_result := (-1)%Z;
              chip_info := 0%Z; tiling := 0%Z; feature := fun _ => 0%Z |} |}.

(** ** Further vocabulary: the footprint of device creation *)

(** The device block once [c] of the requested names have been entered. *)
Definition device_enabling (table : list VkExtensionProperties)
    (pd : VkPhysicalDevice) (slots nf : nat) (names : list string) (c : nat)
  : _device :=
  {| d_dev := Some pd;
     d_numEnabledExtensions := Some (Z.of_nat c);
     d_enabledExtensions :=
       filled slots (map (findDeviceExtension table) (take c names));
     enabledFeatures := None;
     queues := replicate nf None;
     numQueues := replicate nf None |}.

(** The physical device and the enabled extensions of a device: the array
    of [slots] cells holds [exts] in its first cells, and their number is
    [numEnabledExtensions]. *)
Definition header (pd : VkPhysicalDevice) (slots : nat) (exts : list Z)
    (dv : _device) : Prop :=
  d_dev dv = Some pd /\ d_enabledExtensions dv = filled slots exts
  /\ d_numEnabledExtensions dv = Some (Z.of_nat (length exts)).

(** [w'] has every block of [w] up to the address [n] as it was, the same
    kernel log and the same kernel. *)
Definition frame (n : nat) (w w' : world) : Prop :=
  n <= length (heap w')
  /\ (forall q, q <= n -> peek w' q = peek w q)
  /\ klog w' = klog w /\ hw w' = hw w.


(** What the loops over the queue slots and over the queue requests keep:
    the blocks up to [n], the kernel log, and in the block at [p] the physical
    device, the extensions and the features. *)
Definition footprint (n : nat) (p : addr) (pd : VkPhysicalDevice)
    (slots : nat) (exts : list Z) (w0 w : world) : Prop :=
  frame n w0 w
  /\ exists dv, peek w p = Some (BDevice dv) /\ header pd slots exts dv.

(** A properties structure as a caller hands it in: the name array has
    VK_MAX_PHYSICAL_DEVICE_NAME_SIZE characters and the UUID VK_UUID_SIZE
    bytes, all holding what was in memory before the call. *)
Definition sample_properties : VkPhysicalDeviceProperties nat :=
  {| apiVersion := 0%Z; driverVersion := 0%Z; vendorID := 0%Z;
     deviceID := 9%Z;
     deviceType := VK_PHYSICAL_DEVICE_TYPE_OTHER;
     deviceName := replicate 256 (Ascii.ascii_of_nat 120);
     pipelineCacheUUID := replicate 16 5%Z;
     limits := 0;
     sparseProperties :=
       {| residencyStandard2DBlockShape := 0%Z;
          residencyStandard2DMultisampleBlockShape := 0%Z;
          residencyStandard3DBlockShape := 0%Z;
          residencyAlignedMipSize := 0%Z;
          residencyNonResidentStrict := 0%Z |} |}.

(** * Properties *)

(** ** Integer conversions *)

Section IntFacts.
Local Open Scope Z_scope.

Lemma to_int_small z : 0 <= z <= Int.INT_MAX -> Int.to_int z = z.
Proof.
  intros H. unfold Int.to_int, Int.UINT32_MOD, Int.INT_MAX in *.
  rewrite Z.mod_small by lia.
  destruct (Z.leb_spec z (2 ^ 31 - 1)); lia.
Qed.

Lemma to_uint32_small z : 0 <= z < Int.UINT32_MOD -> Int.to_uint32 z = z.
Proof. intros H. unfold Int.to_uint32. now apply Z.mod_small. Qed.

Lemma min_spec a b : Int.min a b = Z.min a b.
Proof. unfold Int.min. destruct (Z.ltb_spec a b); lia. Qed.
End IntFacts.

(** ** The copy loop of the enumeration protocol *)

Section CopyLoop.
Context {A : Type}.

Lemma store_ok (dst : list A) c v :
  c < length dst -> store dst c v = Ok (<[c := v]> dst).
Proof. intros H. unfold store. by rewrite decide_True. Qed.

(** Running the loop from [from] for [n] rounds writes exactly the
    cells [from .. from + n - 1]. *)
Lemma for_range_copy (src : list A) n : forall from (dst : list A),
  from + n <= length src -> from + n <= length dst ->
  for_range from n (copy_item src) dst
  = Ok (take from dst ++ take n (drop from src) ++ drop (from + n) dst).
Proof.
  induction n as [|n IH]; intros from dst Hs Hd; simpl.
  - rewrite Nat.add_0_r. by rewrite take_drop.
  - destruct (lookup_lt_is_Some_2 src from ltac:(lia)) as [x Hx].
    unfold copy_item at 1. rewrite Hx, store_ok by lia. simpl.
    rewrite IH by (rewrite ?length_insert; lia).
    f_equal.
    rewrite drop_insert_lt by lia.
    rewrite (take_S_r _ _ x) by (by rewrite list_lookup_insert_eq by lia).
    rewrite take_insert_ge by lia.
    rewrite (drop_S _ _ _ Hx). simpl.
    rewrite <- app_assoc. simpl.
    by replace (from + S n) with (S (from + n)) by lia.
Qed.

Lemma for_range_fill (v : A) n : forall from (dst : list A),
  from + n <= length dst ->
  for_range from n (fun c d => store d c v) dst
  = Ok (take from dst ++ replicate n v ++ drop (from + n) dst).
Proof.
  induction n as [|n IH]; intros from dst Hd; simpl.
  - rewrite Nat.add_0_r. by rewrite take_drop.
  - rewrite store_ok by lia. simpl.
    rewrite IH by (rewrite ?length_insert; lia).
    f_equal.
    rewrite drop_insert_lt by lia.
    rewrite (take_S_r _ _ v) by (by rewrite list_lookup_insert_eq by lia).
    rewrite take_insert_ge by lia.
    rewrite <- app_assoc. simpl.
    by replace (from + S n) with (S (from + n)) by lia.
Qed.
End CopyLoop.

Section UpdateLoop.
Context {A : Type}.

(** A loop that rewrites cell [c] from its own content rewrites the whole
    range. *)
Lemma for_range_update (f : A -> outcome A) (h : A -> A) n :
  forall from (dst : list A),
  (forall i g, from <= i -> dst !! i = Some g -> f g = Ok (h g)) ->
  from + n <= length dst ->
  for_range from n
    (fun c d => match d !! c with
                | Some g => obind (f g) (store d c)
                | None => Fault OutOfBounds
                end) dst
  = Ok (take from dst ++ (h <$> take n (drop from dst)) ++ drop (from + n) dst).
Proof.
  induction n as [|n IH]; intros from dst Hf Hd; simpl.
  - rewrite Nat.add_0_r. by rewrite take_drop.
  - destruct (lookup_lt_is_Some_2 dst from ltac:(lia)) as [g Hg].
    rewrite Hg, (Hf from g) by (done || lia). simpl.
    rewrite store_ok by lia. simpl.
    rewrite IH.
    + f_equal.
      rewrite !drop_insert_lt by lia.
      rewrite (take_S_r _ _ (h g)) by (by rewrite list_lookup_insert_eq by lia).
      rewrite take_insert_ge by lia.
      rewrite (drop_S _ _ _ Hg). simpl.
      rewrite <- app_assoc. simpl.
      by replace (from + S n) with (S (from + n)) by lia.
    + intros i g' Hle Hi.
      rewrite list_lookup_insert_ne in Hi by lia.
      apply (Hf i); [lia | done].
    + rewrite length_insert. lia.
Qed.
End UpdateLoop.

(** ** Enumeration *)

Section EnumerationFacts.
Local Open Scope Z_scope.

Variable table : list VkExtensionProperties.
Local Abbreviation T := (Z.of_nat (length table)).

(** The instance-extension enumeration follows the protocol for every
    capacity that the [int] holding it can represent. *)
Lemma enumerate_instance_extensions_fill (C : Z) buf :
  0 <= C <= Int.INT_MAX -> T <= Int.INT_MAX ->
  length buf = Z.to_nat C ->
  vkEnumerateInstanceExtensionProperties table None (Some C) (Some buf)
  = Ok (if C <? T then VK_INCOMPLETE else VK_SUCCESS,
        Z.min T C,
        Some (take (Z.to_nat (Z.min T C)) table
              ++ drop (Z.to_nat (Z.min T C)) buf)).
Proof.
  intros HC HT Hbuf. unfold vkEnumerateInstanceExtensionProperties.
  rewrite bool_decide_true by done. simpl.
  rewrite to_int_small, min_spec by done.
  unfold numInstanceExtensions.
  rewrite for_range_copy by lia. simpl.
  rewrite to_uint32_small by (unfold Int.UINT32_MOD, Int.INT_MAX in *; lia).
  by destruct (C <? T).
Qed.

Lemma enumerate_instance_extensions_count (C : Z) :
  T <= Int.INT_MAX ->
  vkEnumerateInstanceExtensionProperties table None (Some C) None
  = Ok (VK_SUCCESS, T, None).
Proof.
  intros HT. unfold vkEnumerateInstanceExtensionProperties.
  rewrite bool_decide_true by done. simpl.
  unfold numInstanceExtensions.
  by rewrite to_uint32_small
    by (unfold Int.UINT32_MOD, Int.INT_MAX in *; lia).
Qed.

(** C1. The device-extension enumeration, called with a buffer of
    capacity [C] smaller than the number [T] of device extensions, writes
    the first [C] records and the count [C], and returns VK_SUCCESS: it
    has no VK_INCOMPLETE path, unlike the instance-extension enumeration
    ([enumerate_instance_extensions_fill]). *)
Theorem enumerate_device_extensions_truncates_with_success
    (i : addr) (C : Z) buf :
  0 <= C < T -> T <= Int.INT_MAX ->
  length buf = Z.to_nat C ->
  vkEnumerateDeviceExtensionProperties table (PD_of i) None (Some C) (Some buf)
  = Ok (VK_SUCCESS, C, Some (take (Z.to_nat C) table))
  /\ vkEnumerateInstanceExtensionProperties table None (Some C) (Some buf)
     = Ok (VK_INCOMPLETE, C, Some (take (Z.to_nat C) table)).
Proof.
  intros HC HT Hbuf.
  assert (Hdrop : drop (Z.to_nat C) buf = []) by (apply drop_ge; lia).
  split.
  - unfold vkEnumerateDeviceExtensionProperties.
    rewrite bool_decide_true by done. simpl.
    rewrite to_int_small, min_spec by lia.
    unfold numDeviceExtensions.
    rewrite for_range_copy by lia. simpl.
    rewrite to_uint32_small by (unfold Int.UINT32_MOD, Int.INT_MAX in *; lia).
    rewrite Z.min_r by lia. by rewrite Hdrop, app_nil_r.
  - rewrite enumerate_instance_extensions_fill by (done || lia).
    rewrite Z.min_r by lia. rewrite Hdrop, app_nil_r.
    by destruct (Z.ltb_spec C T); [|lia].
Qed.
End EnumerationFacts.

Lemma enumerate_device_extensions_truncates_with_success_witness :
  vkEnumerateDeviceExtensionProperties sample_device_extensions (PD_of 1)
    None (Some 1%Z) (Some [ext "scratch"])
  = Ok (VK_SUCCESS, 1%Z, Some [ext "VK_KHR_swapchain"])
  /\ vkEnumerateInstanceExtensionProperties sample_device_extensions
       None (Some 1%Z) (Some [ext "scratch"])
     = Ok (VK_INCOMPLETE, 1%Z, Some [ext "VK_KHR_swapchain"]).
Proof.
  apply (enumerate_device_extensions_truncates_with_success
           sample_device_extensions 1 1%Z [ext "scratch"]).
  - simpl. lia.
  - vm_compute. discriminate.
  - reflexivity.
Defined.

Section PhysicalDeviceFacts.
Local Open Scope Z_scope.

Lemma enumerate_physical_devices_count (i : addr) (C : Z) :
  i <> 0%nat ->
  vkEnumeratePhysicalDevices i (Some C) None = Ok (VK_SUCCESS, 1, None).
Proof.
  intros Hi. unfold vkEnumeratePhysicalDevices, is_null.
  by rewrite bool_decide_false by done.
Qed.

Lemma enumerate_physical_devices_empty (i : addr) buf :
  i <> 0%nat ->
  vkEnumeratePhysicalDevices i (Some 0) (Some buf)
  = Ok (VK_INCOMPLETE, 0, Some buf).
Proof.
  intros Hi. unfold vkEnumeratePhysicalDevices, is_null.
  by rewrite bool_decide_false by done.
Qed.

(** With a capacity between 1 and INT_MAX the one handle is stored in
    the first cell of the buffer. *)
Lemma enumerate_physical_devices_fill (i : addr) (C : Z) x rest :
  i <> 0%nat -> 1 <= C <= Int.INT_MAX ->
  vkEnumeratePhysicalDevices i (Some C) (Some (x :: rest))
  = Ok (VK_SUCCESS, 1, Some (PD_of i :: rest)).
Proof.
  intros Hi HC. unfold vkEnumeratePhysicalDevices, is_null.
  rewrite bool_decide_false by done. simpl.
  rewrite to_int_small, min_spec by lia.
  rewrite Z.min_l by lia. simpl.
  unfold store. simpl.
  by destruct (Z.ltb_spec C 1); [lia|].
Qed.

(** C8. A capacity of 2^31 does not fit the [int arraySize] it is stored
    in: the function then writes no handle, leaves the count at 2^31
    and returns VK_INCOMPLETE, whereas between 1 and INT_MAX it stores
    the handle, writes the count 1 and returns VK_SUCCESS
    ([enumerate_physical_devices_fill]). *)
Theorem enumerate_physical_devices_capacity_above_int_max buf :
  vkEnumeratePhysicalDevices 1%nat (Some 2147483648) (Some buf)
  = Ok (VK_INCOMPLETE, 2147483648, Some buf).
Proof. reflexivity. Qed.

Lemma enumerate_groups_count (i : addr) (C : Z) :
  i <> 0%nat ->
  vkEnumeratePhysicalDeviceGroups i (Some C) None = Ok (VK_SUCCESS, 1, None).
Proof.
  intros Hi. unfold vkEnumeratePhysicalDeviceGroups, is_null.
  by rewrite bool_decide_false by done.
Qed.

(** C6. With a buffer of capacity [C] the function writes all [C]
    entries, leaves the count at [C] and returns VK_SUCCESS when [C] is at
    least 1: for [C] above 1 it reports [C] groups, not one. *)
Theorem enumerate_groups_writes_every_entry (i : addr) (C : Z) buf :
  i <> 0%nat -> 0 <= C ->
  length buf = Z.to_nat C ->
  (forall g, g ∈ buf -> physicalDevices g <> []) ->
  vkEnumeratePhysicalDeviceGroups i (Some C) (Some buf)
  = Ok (if C <? 1 then VK_INCOMPLETE else VK_SUCCESS, C,
        Some (group_written i <$> buf)).
Proof.
  intros Hi HC Hlen Hne. unfold vkEnumeratePhysicalDeviceGroups, is_null.
  rewrite bool_decide_false by done. simpl.
  rewrite (for_range_update (write_group i) (group_written i)).
  - simpl. rewrite <- Hlen, firstn_all, drop_all, app_nil_r.
    by destruct (C <? 1).
  - intros k g _ Hk. unfold write_group, store.
    assert (Hg : physicalDevices g <> [])
      by (apply Hne; eapply list_elem_of_lookup_2; eauto).
    destruct (physicalDevices g) eqn:E; [done|]. simpl.
    unfold group_written. by rewrite E.
  - lia.
Qed.
End PhysicalDeviceFacts.

Lemma enumerate_groups_writes_every_entry_witness :
  vkEnumeratePhysicalDeviceGroups 1 (Some 2%Z) (Some [sample_group; sample_group])
  = Ok (VK_SUCCESS, 2%Z,
        Some [group_written 1 sample_group; group_written 1 sample_group]).
Proof.
  apply (enumerate_groups_writes_every_entry 1 2%Z [sample_group; sample_group]).
  - discriminate.
  - lia.
  - reflexivity.
  - intros g Hg. apply list_elem_of_In in Hg. simpl in Hg.
    destruct Hg as [<-|[<-|[]]]; discriminate.
Defined.

(** ** Entry-point resolution *)

Section ResolverFacts.
Local Open Scope string_scope.

Lemma refused_existsb name :
  name ∈ device_refused ->
  existsb (fun f => String.eqb f name) device_refused = true.
Proof.
  intros Hin. apply existsb_exists. exists name. split.
  - by apply list_elem_of_In.
  - apply String.eqb_refl.
Qed.

Lemma device_instance_frame d w owner w' :
  device_instance d w = Ok (owner, w') -> w' = w.
Proof.
  unfold device_instance, bind, load_device, load_instance, bind, load, rd,
    ret, fail.
  repeat (case_match; try discriminate; simplify_eq); congruence.
Qed.

(** Through the device-scoped resolver a name outside the refused block
    resolves as through the instance-scoped resolver of the owner. *)
Lemma device_resolution d name w owner :
  device_instance d w = Ok (owner, w) ->
  vkGetDeviceProcAddr d name w
  = Ok (if existsb (fun f => String.eqb f name) device_refused then None
        else vkGetInstanceProcAddr owner name, w).
Proof.
  intros H. unfold vkGetDeviceProcAddr.
  destruct (existsb _ _); [done|].
  unfold bind. by rewrite H.
Qed.

Lemma instance_resolution_with_instance i name :
  i <> 0 -> vkGetInstanceProcAddr i name = RETFUNC exported name.
Proof.
  intros Hi. unfold vkGetInstanceProcAddr, is_null.
  by rewrite bool_decide_false by done.
Qed.

(** C10. For two device handles, in any two states of the driver, whose
    owning instances exist, the device-scoped resolver returns the same
    function pointer for the same name: [device_scoped name]. *)
Theorem device_resolution_depends_only_on_name
    (name : string) (w1 w2 : world) (d1 d2 : VkDevice) (o1 o2 : VkInstance) :
  device_instance d1 w1 = Ok (o1, w1) -> o1 <> 0 ->
  device_instance d2 w2 = Ok (o2, w2) -> o2 <> 0 ->
  vkGetDeviceProcAddr d1 name w1 = Ok (device_scoped name, w1) /\
  vkGetDeviceProcAddr d2 name w2 = Ok (device_scoped name, w2).
Proof.
  intros H1 N1 H2 N2.
  rewrite (device_resolution _ _ _ _ H1), (device_resolution _ _ _ _ H2).
  unfold device_scoped.
  by rewrite !instance_resolution_with_instance by done.
Qed.

(** C5, as the code has it. The 23 names of [device_refused] resolve to
    null through the device-scoped resolver, for every device handle;
    "vkCreateInstance" and "vkDestroyDevice" are not among them, and resolve
    through a valid device handle to the functions themselves;
    "vkCreateInstance" resolves through the instance-scoped resolver with a
    null instance. *)
Theorem resolver_scoping (w : world) (d : VkDevice) (owner : VkInstance) :
  device_instance d w = Ok (owner, w) -> owner <> 0 ->
  (forall name d' w', name ∈ device_refused ->
     vkGetDeviceProcAddr d' name w' = Ok (None, w')) /\
  vkGetDeviceProcAddr d "vkCreateInstance" w = Ok (Some "vkCreateInstance", w) /\
  vkGetDeviceProcAddr d "vkDestroyDevice" w = Ok (Some "vkDestroyDevice", w) /\
  vkGetInstanceProcAddr 0 "vkCreateInstance" = Some "vkCreateInstance".
Proof.
  intros H Hne. repeat split.
  - intros name d' w' Hin. unfold vkGetDeviceProcAddr.
    by rewrite refused_existsb.
  - rewrite (device_resolution _ _ _ _ H).
    rewrite instance_resolution_with_instance by done.
    do 2 f_equal.
  - rewrite (device_resolution _ _ _ _ H).
    rewrite instance_resolution_with_instance by done.
    do 2 f_equal.
Qed.
End ResolverFacts.

Lemma device_resolution_depends_only_on_name_witness :
  vkGetDeviceProcAddr 2 "vkQueueSubmit" world_with_two_devices
  = Ok (device_scoped "vkQueueSubmit", world_with_two_devices) /\
  vkGetDeviceProcAddr 5 "vkQueueSubmit" world_with_two_devices
  = Ok (device_scoped "vkQueueSubmit", world_with_two_devices).
Proof.
  apply (device_resolution_depends_only_on_name "vkQueueSubmit"
           world_with_two_devices world_with_two_devices 2 5 1 1).
  - vm_compute. reflexivity.
  - discriminate.
  - vm_compute. reflexivity.
  - discriminate.
Defined.

Lemma resolver_scoping_witness :
  (forall name d' w', name ∈ device_refused ->
     vkGetDeviceProcAddr d' name w' = Ok (None, w')) /\
  vkGetDeviceProcAddr 2 "vkCreateInstance" world_with_device
  = Ok (Some "vkCreateInstance", world_with_device) /\
  vkGetDeviceProcAddr 2 "vkDestroyDevice" world_with_device
  = Ok (Some "vkDestroyDevice", world_with_device) /\
  vkGetInstanceProcAddr 0 "vkCreateInstance" = Some "vkCreateInstance".
Proof.
  apply (resolver_scoping world_with_device 2 1).
  - vm_compute. reflexivity.
  - discriminate.
Defined.

(** C5, counterexample. With the valid device handle 2 of
    [world_with_device], whose owning instance is the one at address 1, the
    device-scoped resolver does not return null for "vkCreateInstance". *)
Lemma create_instance_through_device_counterexample :
  device_instance 2 world_with_device = Ok (1, world_with_device) /\
  vkGetDeviceProcAddr 2 "vkCreateInstance" world_with_device
  <> Ok (None, world_with_device).
Proof. split; vm_compute; [reflexivity | discriminate]. Qed.

(** ** The heap *)

Section HeapFacts.
Implicit Types (w : world) (p q : addr) (b : block) (c : cell).

Lemma peek_bound w p : is_Some (peek w p) -> 0 < p <= length (heap w).
Proof.
  destruct p as [|i]; simpl; [by intros [? ?]|].
  destruct (heap w !! i) eqn:E; [|by intros [? ?]].
  apply lookup_lt_Some in E. lia.
Qed.

Lemma peek_poke_eq w p b :
  is_Some (peek w p) -> peek (poke p (Live b) w) p = Some b.
Proof.
  intros H. pose proof (peek_bound _ _ H) as Hb.
  destruct p as [|i]; [lia|]. unfold peek, poke. simpl.
  by rewrite list_lookup_insert_eq by lia.
Qed.

Lemma peek_poke_freed w p :
  is_Some (peek w p) -> peek (poke p Freed w) p = None.
Proof.
  intros H. pose proof (peek_bound _ _ H) as Hb.
  destruct p as [|i]; [lia|]. unfold peek, poke. simpl.
  by rewrite list_lookup_insert_eq by lia.
Qed.

Lemma peek_poke_ne w p q c :
  p <> 0 -> q <> p -> peek (poke p c w) q = peek w q.
Proof.
  intros Hp Hq. destruct q as [|j]; [done|].
  destruct p as [|i]; [done|]. unfold peek, poke. simpl.
  by rewrite list_lookup_insert_ne by lia.
Qed.

Lemma length_heap_poke w p c : length (heap (poke p c w)) = length (heap w).
Proof. unfold poke. simpl. apply length_insert. Qed.

Lemma peek_alloc w b q :
  peek (alloc b w) q
  = if decide (q = S (length (heap w))) then Some b else peek w q.
Proof.
  case_decide as E.
  - subst q. simpl. by rewrite list_lookup_middle.
  - destruct q as [|j]; [done|]. simpl.
    destruct (decide (j < length (heap w))).
    + by rewrite lookup_app_l by lia.
    + rewrite !lookup_ge_None_2; [done| lia |].
      rewrite length_app. simpl. lia.
Qed.

Lemma peek_alloc_old w b q :
  is_Some (peek w q) -> peek (alloc b w) q = peek w q.
Proof.
  intros H. apply peek_bound in H. rewrite peek_alloc.
  case_decide; [lia|done].
Qed.

Lemma peek_refuse w q : peek (refuse w) q = peek w q.
Proof. done. Qed.
End HeapFacts.

Arguments peek : simpl never.
Arguments poke : simpl never.
Arguments alloc : simpl never.

(** ** Rules of the weakest precondition *)

Section WpRules.
Context {A B : Type} (ff : Prop).
Implicit Types (w : world).

Lemma wp_ret (a : A) Q w : Q a w -> wp ff (ret a) Q w.
Proof. done. Qed.

Lemma wp_fail f (Q : A -> world -> Prop) w : ff -> wp ff (fail f) Q w.
Proof. done. Qed.

Lemma wp_bind (m : M A) (k : A -> M B) Q w :
  wp ff m (fun a w' => wp ff (k a) Q w') w -> wp ff (bind m k) Q w.
Proof.
  unfold wp, bind. destruct (m w) as [[a w']|f]; done.
Qed.

Lemma wp_mono (m : M A) (Q Q' : A -> world -> Prop) w :
  wp ff m Q w -> (forall a w', Q a w' -> Q' a w') -> wp ff m Q' w.
Proof.
  unfold wp. destruct (m w) as [[a w']|f]; auto.
Qed.

Lemma wp_rd (o : option A) Q w :
  (forall a, o = Some a -> Q a w) -> (o = None -> ff) -> wp ff (rd o) Q w.
Proof. destruct o; unfold wp; simpl; auto. Qed.

Lemma wp_elt (l : list A) i Q w :
  (forall a, l !! i = Some a -> Q a w) -> (length l <= i -> ff) ->
  wp ff (elt l i) Q w.
Proof.
  intros HQ Hf. unfold wp, elt.
  destruct (l !! i) eqn:E; simpl; [auto|].
  apply Hf. by apply lookup_ge_None.
Qed.

Lemma wp_put (l : list A) i v Q w :
  (i < length l -> Q (<[i := v]> l) w) -> (length l <= i -> ff) ->
  wp ff (put l i v) Q w.
Proof.
  intros HQ Hf. unfold wp, put.
  destruct (decide (i < length l)); simpl; [auto|]. apply Hf. lia.
Qed.

Lemma wp_put_at (l : list A) (n : Z) v Q w :
  ((0 <= n)%Z -> Z.to_nat n < length l -> Q (<[Z.to_nat n := v]> l) w) ->
  ((n < 0)%Z \/ length l <= Z.to_nat n -> ff) ->
  wp ff (put_at l n v) Q w.
Proof.
  intros HQ Hf. unfold put_at.
  destruct (Z.ltb_spec n 0); [apply Hf; by left|].
  apply wp_put; [by apply HQ|]. intros. apply Hf. by right.
Qed.
End WpRules.

Section WpPrimitives.
Context (ff : Prop).
Implicit Types (w : world) (p : addr).

Lemma wp_massert (b : bool) Q w :
  (b = true -> Q tt w) -> (b = false -> ff) -> wp ff (massert b) Q w.
Proof. destruct b; unfold wp; simpl; auto. Qed.

Lemma wp_increment (d : nat) Q w :
  ((Z.of_nat d < Int.INT_MAX)%Z -> Q tt w) ->
  ((Int.INT_MAX <= Z.of_nat d)%Z -> ff) ->
  wp ff (increment d) Q w.
Proof.
  intros HQ Hf. unfold increment.
  destruct (Z.ltb_spec (Z.of_nat d) Int.INT_MAX); [by apply HQ|by apply Hf].
Qed.

Lemma wp_ALLOCATE init Q w :
  (forall rest, plan w = false :: rest -> Q 0 (refuse w)) ->
  ((forall rest, plan w <> false :: rest) ->
   Q (S (length (heap w))) (alloc init w)) ->
  wp ff (ALLOCATE init) Q w.
Proof.
  intros Hfail Hok. unfold wp, ALLOCATE.
  destruct (plan w) as [|[] rest] eqn:E; eauto.
Qed.

Lemma wp_load_device p dv Q w :
  peek w p = Some (BDevice dv) -> Q dv w -> wp ff (load_device p) Q w.
Proof.
  intros Hp HQ. unfold wp, load_device, bind, load. by rewrite Hp.
Qed.

Lemma wp_load_queues p qs Q w :
  peek w p = Some (BQueues qs) -> Q qs w -> wp ff (load_queues p) Q w.
Proof.
  intros Hp HQ. unfold wp, load_queues, bind, load. by rewrite Hp.
Qed.

Lemma wp_load_instance p i Q w :
  peek w p = Some (BInstance i) -> Q i w -> wp ff (load_instance p) Q w.
Proof.
  intros Hp HQ. unfold wp, load_instance, bind, load. by rewrite Hp.
Qed.

Lemma wp_store_block p b Q w :
  is_Some (peek w p) -> Q tt (poke p (Live b) w) ->
  wp ff (store_block p b) Q w.
Proof.
  intros [b' Hp] HQ. unfold wp, store_block. by rewrite Hp.
Qed.

Lemma wp_update_device p f dv Q w :
  peek w p = Some (BDevice dv) ->
  Q tt (poke p (Live (BDevice (f dv))) w) ->
  wp ff (update_device p f) Q w.
Proof.
  intros Hp HQ. unfold update_device. apply wp_bind.
  eapply wp_load_device; [done|]. apply wp_store_block; [by eexists|done].
Qed.

Lemma wp_update_instance p f i Q w :
  peek w p = Some (BInstance i) ->
  Q tt (poke p (Live (BInstance (f i))) w) ->
  wp ff (update_instance p f) Q w.
Proof.
  intros Hp HQ. unfold update_instance. apply wp_bind.
  eapply wp_load_instance; [done|]. apply wp_store_block; [by eexists|done].
Qed.

(** The loop rule: [I c] holds before round [c]; a round that returns
    establishes the postcondition at once. *)
Lemma wp_mfor {R} (I : nat -> world -> Prop) (body : nat -> M (option R))
    (Q : option R -> world -> Prop) n : forall from w,
  I from w ->
  (forall c w', from <= c < from + n -> I c w' ->
     wp ff (body c)
       (fun r w'' => match r with
                     | None => I (S c) w''
                     | Some x => Q (Some x) w''
                     end) w') ->
  (forall w', I (from + n) w' -> Q None w') ->
  wp ff (mfor from n body) Q w.
Proof.
  induction n as [|n IH]; intros from w HI Hbody Hend; simpl.
  - apply wp_ret. apply Hend. by rewrite Nat.add_0_r.
  - apply wp_bind. eapply wp_mono; [apply (Hbody from); [lia|done]|].
    intros [x|] w' H; simpl.
    + by apply wp_ret.
    + apply IH; [done | |].
      * intros c w'' Hc. apply Hbody. lia.
      * intros w''. replace (S from + n) with (from + S n) by lia. apply Hend.
Qed.
End WpPrimitives.

(** Reading a weakest precondition back as a statement about the run. *)
Lemma wp_total {A} (m : M A) Q w :
  wp False m Q w -> exists a w', m w = Ok (a, w') /\ Q a w'.
Proof.
  unfold wp. destruct (m w) as [[a w']|f]; [eauto|done].
Qed.

Lemma wp_partial {A} (m : M A) Q w a w' :
  wp True m Q w -> m w = Ok (a, w') -> Q a w'.
Proof. unfold wp. intros H E. by rewrite E in H. Qed.

(** ** Instance creation *)

Section InstanceFacts.
Variable instanceExtensions : list VkExtensionProperties.
Variable slots : nat.


(** One round of the loop over the requested names, the earlier names
    having been entered: it either goes on, with one more name entered and
    the kernel untouched, or returns VK_ERROR_EXTENSION_NOT_PRESENT; it
    returns when the name is unknown. *)
Lemma enable_instance_extension_round ff p names c name w i :
  names !! c = Some name ->
  peek w p = Some (BInstance i) ->
  i_numEnabledExtensions i = Some (Z.of_nat c) ->
  (findInstanceExtension instanceExtensions name <> (-1)%Z ->
   ff \/ c < length (i_enabledExtensions i)) ->
  wp ff (enable_instance_extension instanceExtensions p names c)
    (fun r w' =>
       (exists i', peek w' p = Some (BInstance i')
                   /\ length (i_enabledExtensions i')
                      = length (i_enabledExtensions i)
                   /\ (r = None ->
                       i_numEnabledExtensions i' = Some (Z.of_nat (S c))))
       /\ klog w' = klog w /\ length (heap w') = length (heap w)
       /\ match r with
          | Some err => err = VK_ERROR_EXTENSION_NOT_PRESENT
          | None => findInstanceExtension instanceExtensions name <> (-1)%Z
          end) w.
Proof.
  intros Hname Hp Hn Hroom. unfold enable_instance_extension.
  apply wp_bind, wp_elt; [|intros Hlen; apply lookup_lt_Some in Hname; lia].
  intros ? [= <-]%(eq_trans (eq_sym Hname)).
  destruct (Z.ltb_spec (-1) (findInstanceExtension instanceExtensions name)).
  - apply wp_bind. eapply wp_load_instance; [done|].
    apply wp_bind, wp_rd; [|congruence]. intros n0 Hn0.
    assert (n0 = Z.of_nat c) as -> by congruence.
    apply wp_bind, wp_put_at.
    2:{ rewrite Nat2Z.id. intros [?|?]; [lia|].
        destruct Hroom as [?|?]; [lia|done|lia]. }
    intros _ Hlt.
    apply wp_bind. eapply wp_update_instance; [done|].
    apply wp_bind. eapply wp_update_instance.
    { apply peek_poke_eq. by eexists. }
    apply wp_ret. repeat split.
    + eexists. split; [apply peek_poke_eq|].
      { rewrite peek_poke_eq by (by eexists). by eexists. }
      simpl. rewrite length_insert. split; [done|].
      intros _. do 2 f_equal. lia.
    + by rewrite !length_heap_poke.
    + lia.
  - apply wp_ret. split; [|done]. exists i. by repeat split.
Qed.

(** C2. A request that names an extension missing from the registry, at a
    position [c] not beyond the length of the array [enabledExtensions], so
    that the names before it fit the array, when the allocation of the
    instance succeeds: vkCreateInstance returns
    VK_ERROR_EXTENSION_NOT_PRESENT without any call to the kernel, but it has
    stored the address of the newly allocated block in [*pInstance], and
    that block stays allocated. *)
Theorem create_instance_unknown_extension_leaves_instance
    (ci : VkInstanceCreateInfo) (w : world) (c : nat) (name : string) :
  enabledLayerCount ci = 0%Z ->
  ppEnabledExtensionNames ci !! c = Some name ->
  findInstanceExtension instanceExtensions name = (-1)%Z ->
  c <= slots ->
  (forall rest, plan w <> false :: rest) ->
  exists w',
    vkCreateInstance instanceExtensions slots ci w
    = Ok ((VK_ERROR_EXTENSION_NOT_PRESENT, Some (S (length (heap w)))), w')
    /\ (exists i, peek w' (S (length (heap w))) = Some (BInstance i))
    /\ peek w (S (length (heap w))) = None
    /\ klog w' = klog w.
Proof.
  intros Hlayers Hname Hmiss Hroom Hplan.
  set (p := S (length (heap w))).
  assert (Hfresh : peek w p = None).
  { destruct (peek w p) eqn:E; [|done].
    assert (is_Some (peek w p)) as Hs%peek_bound by (by eexists).
    subst p. lia. }
  cut (wp False (vkCreateInstance instanceExtensions slots ci)
         (fun r w' => r = (VK_ERROR_EXTENSION_NOT_PRESENT, Some p)
                      /\ (exists i, peek w' p = Some (BInstance i))
                      /\ klog w' = klog w) w).
  { intros (r & w' & Hrun & -> & Hi & Hk)%wp_total. eauto 10. }
  unfold vkCreateInstance.
  apply wp_bind, wp_ALLOCATE; [intros rest E; by destruct (Hplan rest)|].
  intros _. fold p.
  assert (Hp : peek (alloc (BInstance (fresh_instance slots)) w) p
               = Some (BInstance (fresh_instance slots))).
  { rewrite peek_alloc. subst p. by rewrite decide_True. }
  apply wp_bind. eapply wp_update_instance; [done|].
  apply wp_bind, wp_massert; [|by rewrite Hlayers]. intros _.
  apply wp_bind.
  apply (wp_mfor False
           (fun k w' => k <= c
                        /\ (exists i, peek w' p = Some (BInstance i)
                                      /\ i_numEnabledExtensions i
                                         = Some (Z.of_nat k)
                                      /\ length (i_enabledExtensions i)
                                         = slots)
                        /\ klog w' = klog w)).
  - split; [lia|split; [|done]].
    eexists. split; [apply peek_poke_eq; by eexists|].
    split; [done|]. simpl. apply length_replicate.
  - intros k w' Hk (Hkc & (i & Hi & Hn & Hlen) & Hlog).
    destruct (lookup_lt_is_Some_2 (ppEnabledExtensionNames ci) k) as [nm Hnm].
    { unfold enabledExtensionCount in Hk. lia. }
    eapply wp_mono;
      [apply (enable_instance_extension_round _ _ _ _ nm _ i); try done|].
    { intros Hknown. right. rewrite Hlen.
      destruct (decide (k = c)) as [->|]; [congruence|lia]. }
    intros [err|] w'' ((i' & Hi' & Hlen' & Hn') & Hlog' & _ & Hr); simpl.
    + subst err. apply wp_ret. repeat split; [eauto | congruence].
    + repeat split; [| |congruence].
      * destruct (decide (k = c)) as [->|]; [congruence|lia].
      * exists i'. split; [done|]. split; [by apply Hn'|congruence].
  - intros w' (Hle & _). unfold enabledExtensionCount in Hle.
    apply lookup_lt_Some in Hname. simpl in Hle. lia.
Qed.
End InstanceFacts.

Lemma create_instance_unknown_extension_leaves_instance_witness :
  exists w',
    vkCreateInstance sample_instance_extensions sample_slots
      bogus_instance_info (boot [])
    = Ok ((VK_ERROR_EXTENSION_NOT_PRESENT, Some 1), w')
    /\ (exists i, peek w' 1 = Some (BInstance i))
    /\ peek (boot []) 1 = None
    /\ klog w' = klog (boot []).
Proof.
  apply (create_instance_unknown_extension_leaves_instance
           sample_instance_extensions sample_slots bogus_instance_info
           (boot []) 1 "VK_NOT_AN_EXTENSION").
  - reflexivity.
  - reflexivity.
  - vm_compute. reflexivity.
  - unfold sample_slots. lia.
  - intros rest. simpl. discriminate.
Defined.

(** ** Device creation: validation *)

Lemma bind_eq {A B} (m : M A) (k : A -> M B) w a w' :
  m w = Ok (a, w') -> bind m k w = k a w'.
Proof. intros H. unfold bind. by rewrite H. Qed.

Lemma wp_exact {A} (m : M A) (a0 : A) w0 w :
  wp False m (fun a w' => a = a0 /\ w' = w0) w -> m w = Ok (a0, w0).
Proof. intros (a & w' & -> & -> & ->)%wp_total. done. Qed.

Section DeviceValidation.
Variable deviceExtensions : list VkExtensionProperties.
Variable _features : list VkBool32.

Local Abbreviation find := (findDeviceExtension deviceExtensions).

Lemma check_extensions_reject names c name w :
  names !! c = Some name -> find name = (-1)%Z ->
  mfor 0 (length names) (check_device_extension deviceExtensions names) w
  = Ok (Some VK_ERROR_EXTENSION_NOT_PRESENT, w).
Proof.
  intros Hname Hmiss. apply wp_exact.
  apply (wp_mfor False (fun k w' => k <= c /\ w' = w)).
  - split; [lia|done].
  - intros k w' Hk [Hkc ->]. unfold check_device_extension.
    apply wp_bind, wp_elt; [|lia]. intros nm Hnm.
    destruct (Z.eqb_spec (find nm) (-1)); apply wp_ret; [done|].
    split; [|done]. destruct (decide (k = c)) as [->|]; [congruence|lia].
  - intros w' [Hle _]. apply lookup_lt_Some in Hname. simpl in Hle. lia.
Qed.

Lemma check_extensions_accept names w :
  extensions_known deviceExtensions names ->
  mfor 0 (length names) (check_device_extension deviceExtensions names) w
  = Ok (None, w).
Proof.
  intros Hknown. apply wp_exact.
  apply (wp_mfor False (fun k w' => w' = w)); [done| |done].
  intros k w' Hk ->. unfold check_device_extension.
  apply wp_bind, wp_elt; [|lia]. intros nm Hnm.
  destruct (Z.eqb_spec (find nm) (-1)) as [E|E]; apply wp_ret; [|done].
  destruct (Hknown nm); [|done]. eapply list_elem_of_lookup_2; eauto.
Qed.


Lemma check_features_accept req w :
  features_supported _features (Some req) ->
  mfor 0 (numFeatures _features) (check_feature req _features) w = Ok (None, w).
Proof.
  intros [Hlen Hok]. apply wp_exact.
  apply (wp_mfor False (fun k w' => w' = w)); [done| |done].
  intros k w' Hk ->. unfold check_feature, numFeatures in *.
  apply wp_bind, wp_elt; [|lia]. intros r Hr.
  apply wp_bind, wp_elt; [|lia]. intros s Hs.
  destruct (truthy r) eqn:Tr; simpl; [|by apply wp_ret].
  rewrite (Hok k r s) by done. by apply wp_ret.
Qed.
End DeviceValidation.

Section DeviceRejection.
Variable deviceExtensions : list VkExtensionProperties.
Variable _features : list VkBool32.
Variable numQueueFamilies : nat.
Variable slots : nat.
Variable sizeof_queue SIZE_MAX : positive.

Local Abbreviation create :=
  (vkCreateDevice deviceExtensions _features numQueueFamilies slots
     sizeof_queue SIZE_MAX).

Lemma create_device_unknown_extension pd ci w c name :
  pd <> PD_null ->
  d_ppEnabledExtensionNames ci !! c = Some name ->
  findDeviceExtension deviceExtensions name = (-1)%Z ->
  create pd ci w = Ok ((VK_ERROR_EXTENSION_NOT_PRESENT, None), w).
Proof.
  intros Hpd Hname Hmiss. unfold vkCreateDevice.
  destruct pd; [done|]. simpl.
  erewrite (bind_eq (massert true)) by reflexivity.
  erewrite bind_eq by (eapply check_extensions_reject; eauto).
  reflexivity.
Qed.


(** When the request is valid and the allocation of the device fails,
    vkCreateDevice returns VK_ERROR_TOO_MANY_OBJECTS. *)
Lemma create_device_too_many_objects pd ci w rest :
  pd <> PD_null ->
  extensions_known deviceExtensions (d_ppEnabledExtensionNames ci) ->
  features_supported _features (pEnabledFeatures ci) ->
  plan w = false :: rest ->
  create pd ci w = Ok ((VK_ERROR_TOO_MANY_OBJECTS, Some 0), refuse w).
Proof.
  intros Hpd Hknown Hfeat Hplan. unfold vkCreateDevice.
  destruct pd; [done|]. simpl.
  erewrite (bind_eq (massert true)) by reflexivity.
  erewrite bind_eq by (by apply check_extensions_accept).
  cbv beta iota.
  erewrite bind_eq.
  2:{ destruct (pEnabledFeatures ci) as [req|];
        [by apply check_features_accept | reflexivity]. }
  cbv beta iota.
  unfold bind at 1, ALLOCATE. by rewrite Hplan.
Qed.
End DeviceRejection.

(** ** Device creation: the device block *)

Lemma keeps_refl dv : keeps dv dv.
Proof. done. Qed.

Lemma keeps_trans dv1 dv2 dv3 : keeps dv1 dv2 -> keeps dv2 dv3 -> keeps dv1 dv3.
Proof. unfold keeps. intros (? & ? & ? & ?) (? & ? & ? & ?). 
  repeat split; congruence. Qed.

Section DeviceBlock.
Variable deviceExtensions : list VkExtensionProperties.
Variable ff : Prop.

Lemma enable_device_extensions_wp p names w dv :
  peek w p = Some (BDevice dv) -> d_numEnabledExtensions dv = Some 0%Z ->
  ff \/ length names <= length (d_enabledExtensions dv) ->
  wp ff (mfor 0 (length names) (enable_device_extension deviceExtensions p names))
    (fun _ w' => exists dv', peek w' p = Some (BDevice dv')
                             /\ keeps dv dv' /\ plan w' = plan w) w.
Proof.
  intros Hp Hn Hroom.
  apply (wp_mfor ff
    (fun c w' => exists dv' n,
                   peek w' p = Some (BDevice dv')
                   /\ d_numEnabledExtensions dv' = Some n
                   /\ (0 <= n <= Z.of_nat c)%Z
                   /\ length (d_enabledExtensions dv')
                      = length (d_enabledExtensions dv)
                   /\ keeps dv dv' /\ plan w' = plan w)).
  - exists dv, 0%Z. repeat split; try done; lia.
  - intros c w' Hc (dv' & n & Hp' & Hn' & Hrange & Hlen & Hk & Hplan).
    unfold enable_device_extension.
    apply wp_bind, wp_elt; [|lia]. intros name _.
    destruct (_ <? _)%Z.
    2:{ apply wp_ret. exists dv', n.
        repeat split; try apply Hk; try done; lia. }
    apply wp_bind. eapply wp_load_device; [done|].
    apply wp_bind, wp_rd; [|congruence]. intros n0 Hn0.
    assert (n0 = n) as -> by congruence.
    apply wp_bind, wp_put_at.
    2:{ intros [?|?]; [lia|]. destruct Hroom as [?|?]; [done|lia]. }
    intros _ Hlt.
    apply wp_bind. eapply wp_update_device; [done|].
    apply wp_bind. eapply wp_update_device.
    { apply peek_poke_eq. by eexists. }
    apply wp_ret. eexists _, (n + 1)%Z. split.
    { apply peek_poke_eq. rewrite peek_poke_eq by (by eexists). by eexists. }
    simpl. rewrite length_insert.
    repeat split; try apply Hk; try done; lia.
  - intros w' (dv' & n & ? & _ & _ & _ & ? & ?). eauto.
Qed.

Lemma clear_queue_slots_wp p w dv :
  peek w p = Some (BDevice dv) ->
  wp ff (mfor 0 (length (queues dv)) (clear_queue_slot p))
    (fun _ w' => exists dv', peek w' p = Some (BDevice dv')
                             /\ keeps dv dv' /\ plan w' = plan w) w.
Proof.
  intros Hp.
  apply (wp_mfor ff
    (fun _ w' => exists dv', peek w' p = Some (BDevice dv')
                             /\ keeps dv dv' /\ plan w' = plan w)).
  - eauto using keeps_refl.
  - intros c w' Hc (dv' & Hp' & Hk & Hplan).
    unfold clear_queue_slot.
    apply wp_bind. eapply wp_load_device; [done|].
    apply wp_bind, wp_put; [|destruct Hk as (_ & _ & _ & Hlen); lia].
    intros _.
    apply wp_bind. eapply wp_update_device; [done|].
    apply wp_ret. eexists. split.
    { apply peek_poke_eq. by eexists. }
    split; [|done].
    destruct Hk as (? & ? & ? & ?). repeat split; simpl; try done.
    by rewrite length_insert.
  - eauto.
Qed.
End DeviceBlock.

(** ** Device creation: the queue arrays *)

Section QueueArrays.
Variable ff : Prop.

(** The loop that sets the sequence number of the first [n] queues of the
    array [a] of family [f] touches that array only; it comes to its end
    only if the array has [n] records. *)
Lemma init_queues_wp p f a w dv qs n :
  peek w p = Some (BDevice dv) ->
  queues dv !! f = Some (Some a) ->
  peek w a = Some (BQueues qs) ->
  ff \/ (n <= length qs /\ (Z.of_nat n <= Int.INT_MAX)%Z) ->
  wp ff (mfor 0 n (init_queue p f))
    (fun _ w' =>
       n <= length qs
       /\ (forall q, q <> a -> peek w' q = peek w q)
       /\ plan w' = plan w
       /\ exists qs', peek w' a = Some (BQueues qs')
                      /\ length qs' = length qs
                      /\ forall i q', i < n -> qs' !! i = Some q' ->
                                      lastEmitSeqno q' = Some 0%Z) w.
Proof.
  intros Hp Hslot Ha Hn.
  assert (Hap : a <> p) by (intros ->; congruence).
  assert (Ha0 : a <> 0).
  { assert (is_Some (peek w a)) as Hb%peek_bound by (by eexists). lia. }
  apply (wp_mfor ff
    (fun k w' =>
       k <= length qs
       /\ (forall q, q <> a -> peek w' q = peek w q)
       /\ plan w' = plan w
       /\ exists qs', peek w' a = Some (BQueues qs')
                      /\ length qs' = length qs
                      /\ forall i q', i < k -> qs' !! i = Some q' ->
                                      lastEmitSeqno q' = Some 0%Z)).
  - split; [lia|]. split; [done|]. split; [done|].
    exists qs. repeat split; [done|]. lia.
  - intros k w' Hk (Hkl & Hframe & Hplan & qs' & Ha' & Hlen & Hzero).
    unfold init_queue.
    apply wp_bind. eapply wp_load_device.
    { rewrite Hframe by done. exact Hp. }
    apply wp_bind, wp_elt; [|intros Hl; apply lookup_lt_Some in Hslot; lia].
    intros slot Hslot'. rewrite Hslot in Hslot'. injection Hslot' as <-.
    apply wp_bind, wp_rd; [|done]. intros a' [= <-].
    apply wp_bind. eapply wp_load_queues; [done|].
    apply wp_bind, wp_elt; [|destruct Hn as [?|[? ?]]; [done|lia]].
    intros q0 Hq0. apply lookup_lt_Some in Hq0 as Hq0'.
    apply wp_bind, wp_store_block; [by eexists|].
    apply wp_bind, wp_increment; [|destruct Hn as [?|[? ?]]; [done|lia]].
    intros _.
    apply wp_ret. split; [lia|]. split; [|split; [done|]].
    + intros q Hq. rewrite peek_poke_ne by done. by apply Hframe.
    + eexists. split; [apply peek_poke_eq; by eexists|].
      split; [by rewrite length_insert|].
      intros i q' Hi Hq'. destruct (decide (i = k)) as [->|Hne].
      * rewrite list_lookup_insert_eq in Hq' by lia. by injection Hq' as <-.
      * rewrite list_lookup_insert_ne in Hq' by done.
        apply (Hzero i); [lia|done].
  - done.
Qed.
End QueueArrays.

Section AllocatorAnswers.
Implicit Types (answers : list bool).

Lemma all_granted_fail c : forall n answers rest,
  drop c answers = false :: rest -> c < n -> all_granted n answers = false.
Proof.
  unfold all_granted.
  induction c as [|c IH]; intros [|n] [|b answers] rest Hd Hc;
    simpl in *; try lia; try discriminate.
  - by injection Hd as -> _.
  - rewrite (IH n answers rest) by (done || lia). by destruct b.
Qed.

Lemma all_granted_S c : forall answers,
  all_granted c answers = true ->
  (forall rest, drop c answers <> false :: rest) ->
  all_granted (S c) answers = true.
Proof.
  unfold all_granted.
  induction c as [|c IH]; intros [|b answers] Hg Hd; simpl in *; try done.
  - destruct b; [done|]. by destruct (Hd answers).
  - destruct b; [|done]. simpl in *. by apply IH.
Qed.

Lemma drop_tail c answers : tail (drop c answers) = drop (S c) answers.
Proof.
  revert answers. induction c as [|c IH]; intros [|b answers]; simpl; done.
Qed.
End AllocatorAnswers.

Lemma last_count_snoc infos info f :
  last_count (infos ++ [info]) f
  = if decide (queueFamilyIndex info = f) then Some (queueCount info)
    else last_count infos f.
Proof. unfold last_count. by rewrite fold_left_app. Qed.

Lemma last_count_take_S infos c info f :
  infos !! c = Some info ->
  last_count (take (S c) infos) f
  = if decide (queueFamilyIndex info = f) then Some (queueCount info)
    else last_count (take c infos) f.
Proof. intros H. by rewrite (take_S_r _ _ _ H), last_count_snoc. Qed.

Section QueueArraySizes.
Variable sizeof_queue SIZE_MAX : positive.
Local Open Scope Z_scope.

(** The block allocated for [n] queues never holds more than [n]
    records, and holds [n] when [sizeof(_queue) * n] is a [size_t]. *)
Lemma queue_array_length_le n :
  (queue_array_length sizeof_queue SIZE_MAX n <= n)%nat.
Proof.
  unfold queue_array_length, queue_array_size.
  set (s := Z.pos sizeof_queue). set (m := Z.pos SIZE_MAX + 1).
  assert (0 < s) by (subst s; lia). assert (0 < m) by (subst m; lia).
  assert (0 <= (s * Z.of_nat n) mod m <= s * Z.of_nat n).
  { split; [apply Z.mod_pos_bound; lia|]. apply Z.mod_le; lia. }
  assert ((s * Z.of_nat n) mod m / s <= Z.of_nat n).
  { apply Z.div_le_upper_bound; lia. }
  lia.
Qed.

Lemma queue_array_length_fits n :
  Z.pos sizeof_queue * Z.of_nat n <= Z.pos SIZE_MAX ->
  queue_array_length sizeof_queue SIZE_MAX n = n.
Proof.
  intros Hfit. unfold queue_array_length, queue_array_size.
  rewrite Z.mod_small by lia.
  rewrite Z.mul_comm, Z.div_mul by lia. apply Nat2Z.id.
Qed.
End QueueArraySizes.

Section QueueRequests.
Variable ff : Prop.
Variable nf : nat.
Variable sizeof_queue SIZE_MAX : positive.

Lemma create_queues_round p pd F infos answers c w :
  c < length infos ->
  ff \/ (families_valid nf infos
         /\ queue_counts_fit sizeof_queue SIZE_MAX infos) ->
  building nf p pd F infos answers c w ->
  wp ff (create_queues sizeof_queue SIZE_MAX p infos c)
    (fun r w' =>
       match r with
       | Some err => err = VK_ERROR_OUT_OF_HOST_MEMORY
                     /\ abandoned nf p pd F infos answers w'
       | None => building nf p pd F infos answers (S c) w'
       end) w.
Proof.
  intros Hc Hvalid
    (dv & Hp & Hpd & HF & Hlq & Hln & Hok & Hcount & Hplan & Hgranted).
  unfold create_queues.
  apply wp_bind, wp_elt; [|lia]. intros info Hinfo.
  (* an invalid family index is a fault *)
  assert (Hfam : length (queues dv) <= queueFamilyIndex info -> ff).
  { intros Hle. destruct Hvalid as [|[Hvalid _]]; [done|].
    apply (Forall_lookup_1 _ _ _ _ Hvalid) in Hinfo. simpl in Hinfo. lia. }
  assert (Hfit : ff \/ (queue_array_length sizeof_queue SIZE_MAX
                          (queueCount info) = queueCount info
                        /\ (Z.of_nat (queueCount info) <= Int.INT_MAX)%Z)).
  { destruct Hvalid as [|[_ Hfit]]; [by left|right].
    apply (Forall_lookup_1 _ _ _ _ Hfit) in Hinfo as [? ?].
    split; [by apply queue_array_length_fits|done]. }
  apply wp_bind, wp_ALLOCATE.
  - (* the allocation fails *)
    intros rest Hrest.
    apply wp_bind. eapply wp_load_device; [exact Hp|].
    apply wp_bind, wp_put; [|done]. intros _.
    apply wp_bind. eapply wp_update_device; [exact Hp|].
    simpl. apply wp_ret. split; [done|]. split.
    + apply (all_granted_fail c _ _ rest); [congruence|done].
    + eexists. split; [apply peek_poke_eq; by eexists|]. done.
  - (* the allocation succeeds *)
    intros Hgo.
    set (a := S (length (heap w))).
    set (n := queueCount info) in *.
    set (len := queue_array_length sizeof_queue SIZE_MAX n) in *.
    set (fam := queueFamilyIndex info) in *.
    set (w2 := alloc (BQueues (replicate len fresh_queue)) w).
    assert (Hpb : 0 < p <= length (heap w))
      by (apply peek_bound; by eexists).
    assert (Hap : a <> p) by (subst a; lia).
    assert (Hp2 : peek w2 p = Some (BDevice dv)).
    { subst w2. rewrite peek_alloc_old by (by eexists). done. }
    apply wp_bind. eapply wp_load_device; [exact Hp2|].
    apply wp_bind, wp_put; [|done]. intros Hfamlt.
    apply wp_bind. eapply wp_update_device; [exact Hp2|].
    set (dv3 := set_queues (<[fam := Some a]> (queues dv)) dv).
    set (w3 := poke p (Live (BDevice dv3)) w2).
    assert (Hp3 : peek w3 p = Some (BDevice dv3)).
    { subst w3. apply peek_poke_eq. by eexists. }
    assert (Ha3 : peek w3 a = Some (BQueues (replicate len fresh_queue))).
    { subst w3. rewrite peek_poke_ne by (done || lia).
      subst w2. rewrite peek_alloc. by rewrite decide_True. }
    replace (is_null a) with false by done.
    apply wp_bind.
    eapply wp_mono.
    { apply (init_queues_wp ff p fam a w3 dv3 (replicate len fresh_queue) n);
        [done | | done | ].
      - subst dv3. simpl. by rewrite list_lookup_insert_eq by lia.
      - rewrite length_replicate.
        destruct Hfit as [?|[-> ?]]; [by left|right]. split; [lia|done]. }
    intros _ w4 (Hall & Hframe & Hplan4 & qs' & Ha4 & Hlen4 & Hzero).
    assert (Hlen : len = n).
    { rewrite length_replicate in Hall.
      pose proof (queue_array_length_le sizeof_queue SIZE_MAX n).
      subst len. lia. }
    rewrite Hlen in *.
    assert (Hp4 : peek w4 p = Some (BDevice dv3)).
    { rewrite Hframe by done. exact Hp3. }
    apply wp_bind. eapply wp_load_device; [exact Hp4|].
    apply wp_bind, wp_put; [|subst dv3; simpl; lia]. intros _.
    apply wp_bind. eapply wp_update_device; [exact Hp4|].
    apply wp_ret.
    set (dv5 := set_numQueues (<[fam := Some n]> (numQueues dv3)) dv3).
    exists dv5. split; [apply peek_poke_eq; by eexists|].
    split; [done|]. split; [done|].
    split; [subst dv5 dv3; simpl; by rewrite length_insert|].
    split; [subst dv5 dv3; simpl; by rewrite length_insert|].
    rewrite length_replicate in Hlen4.
    split; [|split; [|split]].
    + (* the arrays *)
      intros f0 n0 Hn0. subst dv5 dv3. simpl in *.
      destruct (decide (f0 = fam)) as [->|Hne].
      * rewrite list_lookup_insert_eq in Hn0 by lia. injection Hn0 as <-.
        exists a, qs'. split; [by rewrite list_lookup_insert_eq by lia|].
        split; [by rewrite peek_poke_ne by lia|].
        split; [done|].
        apply Forall_lookup_2. intros i q Hq.
        apply (Hzero i q); [|done]. apply lookup_lt_Some in Hq. lia.
      * rewrite list_lookup_insert_ne in Hn0 by done.
        destruct (Hok f0 n0 Hn0) as (a0 & qs0 & Hs0 & Ha0 & Hl0 & Hz0).
        assert (Hb0 : 0 < a0 <= length (heap w))
          by (apply peek_bound; by eexists).
        assert (a0 <> p) by (intros ->; congruence).
        exists a0, qs0. split; [by rewrite list_lookup_insert_ne by done|].
        split; [|done].
        rewrite peek_poke_ne by lia.
        rewrite Hframe by (subst a; lia).
        subst w3. rewrite peek_poke_ne by lia.
        subst w2. by rewrite peek_alloc_old by (by eexists).
    + (* the counts *)
      intros f Hf. subst dv5 dv3. simpl.
      rewrite (last_count_take_S _ _ _ _ Hinfo). fold fam n.
      destruct (decide (fam = f)) as [<-|Hne].
      * by rewrite list_lookup_insert_eq by lia.
      * rewrite list_lookup_insert_ne by done. by apply Hcount.
    + (* the allocator *)
      change (plan (poke p (Live (BDevice dv5)) w4)) with (plan w4).
      rewrite Hplan4.
      change (plan w3) with (tail (plan w)).
      by rewrite Hplan, drop_tail.
    + apply all_granted_S; [done|]. intros rest. rewrite <- Hplan. apply Hgo.
Qed.
End QueueRequests.

(** ** Device creation: the whole call *)

Lemma wp_of_eq {A} ff (m : M A) (Q : A -> world -> Prop) w a w' :
  m w = Ok (a, w') -> Q a w' -> wp ff m Q w.
Proof. intros H HQ. unfold wp. by rewrite H. Qed.

Section DeviceCreation.
Variable deviceExtensions : list VkExtensionProperties.
Variable _features : list VkBool32.
Variable nf : nat.
Variable slots : nat.
Variable sizeof_queue SIZE_MAX : positive.
Variable ff : Prop.

Lemma create_device_wp pd ci w :
  pd <> PD_null ->
  extensions_known deviceExtensions (d_ppEnabledExtensionNames ci) ->
  features_supported _features (pEnabledFeatures ci) ->
  (forall rest, plan w <> false :: rest) ->
  ff \/ (families_valid nf (pQueueCreateInfos ci)
         /\ length (d_ppEnabledExtensionNames ci) <= slots
         /\ queue_counts_fit sizeof_queue SIZE_MAX (pQueueCreateInfos ci)) ->
  wp ff (vkCreateDevice deviceExtensions _features nf slots sizeof_queue
           SIZE_MAX pd ci)
    (created (numFeatures _features) nf pd ci w) w.
Proof.
  intros Hpd Hknown Hfeat Hplan Hvalid. unfold vkCreateDevice.
  apply wp_bind, wp_massert; [intros _|by destruct pd].
  apply wp_bind. eapply wp_of_eq; [by apply check_extensions_accept|].
  cbv beta iota.
  apply wp_bind. eapply wp_of_eq.
  { destruct (pEnabledFeatures ci) as [req|];
      [by apply check_features_accept | reflexivity]. }
  cbv beta iota.
  apply wp_bind, wp_ALLOCATE; [intros rest E; by destruct (Hplan rest)|].
  intros _.
  set (p := S (length (heap w))).
  set (w1 := alloc (BDevice (fresh_device slots nf)) w).
  assert (Hp1 : peek w1 p = Some (BDevice (fresh_device slots nf))).
  { subst w1 p. rewrite peek_alloc. by rewrite decide_True. }
  replace (is_null p) with false by done.
  apply wp_bind. eapply wp_update_device; [exact Hp1|].
  apply wp_bind. eapply wp_update_device; [apply peek_poke_eq; by eexists|].
  apply wp_bind. eapply wp_mono.
  { eapply enable_device_extensions_wp.
    - apply peek_poke_eq. rewrite peek_poke_eq by (by eexists). by eexists.
    - done.
    - simpl. rewrite length_replicate.
      destruct Hvalid as [?|(_ & ? & _)]; [by left|by right]. }
  intros _ w2 (dv2 & Hp2 & (Hd2 & He2 & Hn2 & Hl2) & Hplan2). simpl in *.
  set (F := requested_features (numFeatures _features) (pEnabledFeatures ci)).
  (* the feature set *)
  apply wp_bind.
  apply (wp_mono ff _
    (fun r w' => r = None /\ exists dv, peek w' p = Some (BDevice dv)
                 /\ d_dev dv = Some pd /\ enabledFeatures dv = Some F
                 /\ numQueues dv = replicate nf None
                 /\ length (queues dv) = nf /\ plan w' = plan w1)).
  { destruct (pEnabledFeatures ci) as [req|] eqn:Ereq.
    - apply wp_bind. eapply wp_of_eq; [by apply check_features_accept|].
      cbv beta iota.
      apply wp_bind. eapply wp_update_device; [exact Hp2|].
      apply wp_ret. split; [done|]. eexists.
      split; [apply peek_poke_eq; by eexists|].
      simpl. rewrite length_replicate in Hl2. done.
    - apply wp_bind. eapply wp_update_device; [exact Hp2|].
      apply wp_ret. split; [done|]. eexists.
      split; [apply peek_poke_eq; by eexists|].
      simpl. rewrite length_replicate in Hl2. done. }
  intros r w3 (-> & dv3 & Hp3 & Hd3 & He3 & Hn3 & Hl3 & Hplan3).
  (* the queue slots *)
  apply wp_bind. eapply wp_mono.
  { rewrite <- Hl3. by apply clear_queue_slots_wp. }
  intros _ w4 (dv4 & Hp4 & (Hd4 & He4 & Hn4 & Hl4) & Hplan4).
  assert (Hstart : building nf p pd F (pQueueCreateInfos ci) (tail (plan w))
                     0 w4).
  { exists dv4. split; [done|]. split; [congruence|]. split; [congruence|].
    split; [congruence|]. split; [by rewrite Hn4, Hn3, length_replicate|].
    split; [|split; [|split]].
    - intros f n Hn. rewrite Hn4, Hn3 in Hn.
      apply lookup_replicate in Hn as [? _]. done.
    - intros f Hf. rewrite Hn4, Hn3. by apply lookup_replicate_2.
    - rewrite Hplan4, Hplan3. done.
    - done. }
  (* the queue requests *)
  apply wp_bind.
  apply (wp_mono ff _
    (fun r w' =>
       match r with
       | Some err => err = VK_ERROR_OUT_OF_HOST_MEMORY
                     /\ abandoned nf p pd F (pQueueCreateInfos ci)
                          (tail (plan w)) w'
       | None => building nf p pd F (pQueueCreateInfos ci) (tail (plan w))
                   (queueCreateInfoCount ci) w'
       end)).
  { unfold queueCreateInfoCount.
    destruct (pQueueCreateInfos ci) as [|info infos] eqn:Einfos.
    - simpl. by apply wp_ret.
    - replace (0 <? length (info :: infos)) with true by done.
      apply (wp_mfor ff
               (building nf p pd F (info :: infos) (tail (plan w))));
        [done| |done].
      intros c w' Hc Hb. apply create_queues_round; [lia| |done].
      destruct Hvalid as [?|(? & _ & ?)]; [by left|by right]. }
  intros [err|] w5 Hpost; apply wp_ret; unfold created; fold p F.
  - destruct Hpost as (-> & Hab). pose proof Hab as [-> _]. done.
  - unfold queueCreateInfoCount in Hpost.
    pose proof Hpost as (dv & _ & _ & _ & _ & _ & _ & _ & _ & ->). done.
Qed.
End DeviceCreation.

Section DeviceResults.
Variable deviceExtensions : list VkExtensionProperties.
Variable _features : list VkBool32.
Variable nf : nat.
Variable slots : nat.
Variable sizeof_queue SIZE_MAX : positive.

Local Abbreviation create :=
  (vkCreateDevice deviceExtensions _features nf slots sizeof_queue SIZE_MAX).
Local Abbreviation find := (findDeviceExtension deviceExtensions).

Lemma unknown_extension_or_all_known (names : list string) :
  extensions_known deviceExtensions names
  \/ exists c name, names !! c = Some name /\ find name = (-1)%Z.
Proof.
  destruct (decide (Forall (fun name => find name <> (-1)%Z) names))
    as [Hall|Hex].
  - left. intros name Hin. by apply (proj1 (Forall_forall _ _) Hall).
  - right. apply not_Forall_Exists in Hex; [|apply _].
    apply Exists_exists in Hex as (name & Hin & Hmiss).
    apply list_elem_of_lookup in Hin as [c Hc].
    exists c, name. split; [done|].
    by destruct (decide (find name = (-1)%Z)).
Qed.


End DeviceResults.







(** ** Queues *)

Section QueueResults.
Variable deviceExtensions : list VkExtensionProperties.
Variable _features : list VkBool32.
Variable nf : nat.
Variable slots : nat.
Variable sizeof_queue SIZE_MAX : positive.

(** vkGetDeviceQueue on a family with [n] queues in the array [a]: the
    handle is [&a[i]] and the only store is that of the back-reference. *)
Lemma get_device_queue_run w p dv f n i a qs :
  peek w p = Some (BDevice dv) -> f < nf ->
  numQueues dv !! f = Some (Some n) -> i < n ->
  queues dv !! f = Some (Some a) ->
  peek w a = Some (BQueues qs) -> length qs = n ->
  exists q,
    qs !! i = Some q
    /\ vkGetDeviceQueue nf p f i w
       = Ok (Q_at a i, poke a (Live (BQueues (<[i := set_q_dev p q]> qs))) w).
Proof.
  intros Hp Hf Hn Hi Hslot Ha Hlen.
  destruct (lookup_lt_is_Some_2 qs i ltac:(lia)) as [q Hq].
  exists q. split; [done|]. apply wp_exact. unfold vkGetDeviceQueue.
  assert (Hp0 : 0 < p <= length (heap w)) by (apply peek_bound; by eexists).
  apply wp_bind, wp_massert; [intros _|].
  2:{ unfold is_null. rewrite bool_decide_false by lia. done. }
  apply wp_bind, wp_massert; [intros _|].
  2:{ intros E. apply Nat.ltb_ge in E. lia. }
  apply wp_bind. eapply wp_load_device; [done|].
  apply wp_bind, wp_elt; [|intros Hl; apply lookup_lt_Some in Hn; lia].
  intros n' Hn'. rewrite Hn in Hn'. injection Hn' as <-.
  apply wp_bind, wp_rd; [|done]. intros ? [= <-].
  apply wp_bind, wp_massert; [intros _|].
  2:{ intros E. apply Nat.ltb_ge in E. lia. }
  apply wp_bind, wp_elt; [|intros Hl; apply lookup_lt_Some in Hslot; lia].
  intros slot Hslot'. rewrite Hslot in Hslot'. injection Hslot' as <-.
  apply wp_bind, wp_rd; [|done]. intros ? [= <-].
  apply wp_bind. eapply wp_load_queues; [done|].
  apply wp_bind, wp_elt; [|lia].
  intros q' Hq'. rewrite Hq in Hq'. injection Hq' as <-.
  apply wp_bind, wp_store_block; [by eexists|].
  by apply wp_ret.
Qed.

End QueueResults.


(** ** Device destruction *)

(** C4. With two queue families, a device created with two queues in
    family 0 (the array at address 3) and one queue in family 1 (the array at
    address 4): the rounds of vkDestroyDevice for family 0 free
    [queues[0]] and [queues[1]], that is both arrays, and the round for
    family 1 frees [queues[0]] a second time. With the three queues and one
    queue of the spec's example the loop reads [queues[2]], past the end of
    the array of two slots. *)
Theorem destroy_device_indexes_arrays_by_queue :
  vkCreateDevice sample_device_extensions sample_features 2 sample_slots
    sample_sizeof_queue sample_SIZE_MAX (PD_of 1)
    sample_device_info world_with_instance
  = Ok ((VK_SUCCESS, Some 2), world_with_device)
  /\ queues <$> device_at world_with_device 2 = Some [Some 3; Some 4]
  /\ numQueues <$> device_at world_with_device 2 = Some [Some 2; Some 1]
  /\ free_family 2 0 world_with_device
     = Ok (None, after (free_family 2 0) world_with_device)
  /\ peek (after (free_family 2 0) world_with_device) 3 = None
  /\ peek (after (free_family 2 0) world_with_device) 4 = None
  /\ free_family 2 1 (after (free_family 2 0) world_with_device)
     = Fault InvalidFree
  /\ vkDestroyDevice 2 2 world_with_device = Fault InvalidFree
  /\ vkCreateDevice sample_device_extensions sample_features 2 sample_slots
       sample_sizeof_queue sample_SIZE_MAX (PD_of 1)
       three_and_one_info world_with_instance
     = Ok ((VK_SUCCESS, Some 2), world_with_three_and_one)
  /\ vkDestroyDevice 2 2 world_with_three_and_one = Fault OutOfBounds.
Proof.
  do 9 (split; [vm_compute; reflexivity|]). vm_compute; reflexivity.
Qed.

(** With one family and one queue the indices coincide, and the call
    frees the array and then the device. *)
Example destroy_device_single_queue :
  vkCreateDevice sample_device_extensions sample_features 1 sample_slots
    sample_sizeof_queue sample_SIZE_MAX (PD_of 1)
    single_queue_info world_with_instance
  = Ok ((VK_SUCCESS, Some 2), world_with_single_queue)
  /\ vkDestroyDevice 1 2 world_with_single_queue
     = Ok (tt, after (vkDestroyDevice 1 2) world_with_single_queue)
  /\ peek (after (vkDestroyDevice 1 2) world_with_single_queue) 2 = None
  /\ peek (after (vkDestroyDevice 1 2) world_with_single_queue) 3 = None
  /\ length (heap (after (vkDestroyDevice 1 2) world_with_single_queue)) = 3.
Proof.
  do 4 (split; [vm_compute; reflexivity|]). vm_compute; reflexivity.
Qed.

(** ** Requests beyond the arrays and the integers *)

(** Three known names for an array [enabledExtensions] of two cells: the
    third store of vkCreateDevice, and of vkCreateInstance, is outside the
    array. *)
Example create_overruns_enabled_extensions :
  vkCreateDevice sample_device_extensions sample_features 2 sample_slots
    sample_sizeof_queue sample_SIZE_MAX (PD_of 1)
    {| d_ppEnabledExtensionNames :=
         ["VK_KHR_swapchain"; "VK_KHR_swapchain"; "VK_KHR_swapchain"];
       pEnabledFeatures := None;
       pQueueCreateInfos := [] |}
    world_with_instance
  = Fault OutOfBounds
  /\ vkCreateInstance sample_instance_extensions sample_slots
       {| enabledLayerCount := 0;
          ppEnabledExtensionNames :=
            ["VK_KHR_display"; "VK_KHR_display"; "VK_KHR_display"] |}
       (boot [])
     = Fault OutOfBounds.
Proof. split; vm_compute; reflexivity. Qed.

(** With records of 16 bytes and a [size_t] of 6 bits, the size of an
    array of five queues wraps to 16 bytes, one record, and the second store
    of the loop over the queues is outside the array; the size of an array of
    four queues wraps to zero. *)
Example create_device_queue_array_size_wraps :
  queue_array_length 16 63 5 = 1
  /\ queue_array_length 16 63 4 = 0
  /\ vkCreateDevice sample_device_extensions sample_features 2 sample_slots
       16 63 (PD_of 1)
       {| d_ppEnabledExtensionNames := [];
          pEnabledFeatures := None;
          pQueueCreateInfos :=
            [ {| queueFamilyIndex := 0; queueCount := 5 |} ] |}
       world_with_instance
     = Fault OutOfBounds.
Proof. split; [|split]; vm_compute; reflexivity. Qed.

(** * Further properties *)

(** ** The enumerations within the range of [int] *)

Section EnumerationProtocol.
Local Open Scope Z_scope.

Variable table : list VkExtensionProperties.
Local Abbreviation T := (Z.of_nat (length table)).

Lemma enumerate_device_extensions_fill (i : addr) (C : Z) buf :
  0 <= C <= Int.INT_MAX -> T <= Int.INT_MAX ->
  length buf = Z.to_nat C ->
  vkEnumerateDeviceExtensionProperties table (PD_of i) None (Some C) (Some buf)
  = Ok (VK_SUCCESS, Z.min T C,
        Some (take (Z.to_nat (Z.min T C)) table
              ++ drop (Z.to_nat (Z.min T C)) buf)).
Proof.
  intros HC HT Hbuf. unfold vkEnumerateDeviceExtensionProperties.
  rewrite bool_decide_true by done. simpl.
  rewrite to_int_small, min_spec by done.
  unfold numDeviceExtensions.
  rewrite for_range_copy by lia. simpl.
  by rewrite to_uint32_small by (unfold Int.UINT32_MOD, Int.INT_MAX in *; lia).
Qed.

(** X1. The instance-extension enumeration, for a table and a capacity that
    fit an [int]: a null buffer gives the number of records; a buffer of [C]
    cells receives the first [min(T, C)] records, keeps its other cells, and
    the code is VK_INCOMPLETE exactly when [C < T]. *)
Theorem instance_extension_enumeration_protocol (C : Z) buf :
  0 <= C <= Int.INT_MAX -> T <= Int.INT_MAX ->
  length buf = Z.to_nat C ->
  vkEnumerateInstanceExtensionProperties table None (Some C) None
  = Ok (VK_SUCCESS, T, None)
  /\ vkEnumerateInstanceExtensionProperties table None (Some C) (Some buf)
     = Ok (if C <? T then VK_INCOMPLETE else VK_SUCCESS,
           Z.min T C,
           Some (take (Z.to_nat (Z.min T C)) table
                 ++ drop (Z.to_nat (Z.min T C)) buf)).
Proof.
  intros HC HT Hbuf. split.
  - by apply enumerate_instance_extensions_count.
  - by apply enumerate_instance_extensions_fill.
Qed.

(** X2. The two-call idiom: the count of a first call with a null buffer,
    passed with a buffer of that many cells to a second call, yields the
    whole table and VK_SUCCESS, from the instance-extension and from the
    device-extension enumeration alike. *)
Theorem extension_two_call_idiom (i : addr) (C0 : Z) buf :
  T <= Int.INT_MAX -> length buf = length table ->
  vkEnumerateInstanceExtensionProperties table None (Some C0) None
  = Ok (VK_SUCCESS, T, None)
  /\ vkEnumerateInstanceExtensionProperties table None (Some T) (Some buf)
     = Ok (VK_SUCCESS, T, Some table)
  /\ vkEnumerateDeviceExtensionProperties table (PD_of i) None (Some C0) None
     = Ok (VK_SUCCESS, T, None)
  /\ vkEnumerateDeviceExtensionProperties table (PD_of i) None (Some T)
       (Some buf)
     = Ok (VK_SUCCESS, T, Some table).
Proof.
  intros HT Hbuf.
  assert (Htake : take (length table) table ++ drop (length table) buf = table).
  { rewrite firstn_all, drop_ge by lia. apply app_nil_r. }
  split; [by apply enumerate_instance_extensions_count|]. split.
  - rewrite enumerate_instance_extensions_fill by lia.
    rewrite Z.min_id, Nat2Z.id, Htake.
    by destruct (Z.ltb_spec T T); [lia|].
  - split.
    + unfold vkEnumerateDeviceExtensionProperties, numDeviceExtensions. simpl.
      by rewrite to_uint32_small
        by (unfold Int.UINT32_MOD, Int.INT_MAX in *; lia).
    + rewrite enumerate_device_extensions_fill by lia.
      by rewrite Z.min_id, Nat2Z.id, Htake.
Qed.
End EnumerationProtocol.

Lemma instance_extension_enumeration_protocol_witness :
  vkEnumerateInstanceExtensionProperties sample_instance_extensions None
    (Some 1%Z) None
  = Ok (VK_SUCCESS, 2%Z, None)
  /\ vkEnumerateInstanceExtensionProperties sample_instance_extensions None
       (Some 1%Z) (Some [ext "scratch"])
     = Ok (VK_INCOMPLETE, 1%Z, Some [ext "VK_KHR_surface"]).
Proof.
  apply (instance_extension_enumeration_protocol
           sample_instance_extensions 1%Z [ext "scratch"]).
  - simpl. unfold Int.INT_MAX. lia.
  - vm_compute. discriminate.
  - reflexivity.
Defined.

Lemma extension_two_call_idiom_witness :
  vkEnumerateInstanceExtensionProperties sample_device_extensions None
    (Some 0%Z) None
  = Ok (VK_SUCCESS, 2%Z, None)
  /\ vkEnumerateInstanceExtensionProperties sample_device_extensions None
       (Some 2%Z) (Some [ext "a"; ext "b"])
     = Ok (VK_SUCCESS, 2%Z, Some sample_device_extensions)
  /\ vkEnumerateDeviceExtensionProperties sample_device_extensions (PD_of 1)
       None (Some 0%Z) None
     = Ok (VK_SUCCESS, 2%Z, None)
  /\ vkEnumerateDeviceExtensionProperties sample_device_extensions (PD_of 1)
       None (Some 2%Z) (Some [ext "a"; ext "b"])
     = Ok (VK_SUCCESS, 2%Z, Some sample_device_extensions).
Proof.
  apply (extension_two_call_idiom sample_device_extensions 1 0%Z
           [ext "a"; ext "b"]).
  - vm_compute. discriminate.
  - reflexivity.
Defined.

Section SingleDeviceEnumeration.
Local Open Scope Z_scope.

(** X3. vkEnumeratePhysicalDevices for a capacity that fits an [int]: a null
    buffer gives the count 1; a buffer of [C] cells receives the handle of
    the instance's physical device in its first cell when [C >= 1], keeps
    its other cells, and the code is VK_INCOMPLETE exactly when [C = 0]. *)
Theorem physical_device_enumeration_in_range (i : addr) (C : Z) buf :
  i <> 0%nat -> 0 <= C <= Int.INT_MAX ->
  length buf = Z.to_nat C ->
  vkEnumeratePhysicalDevices i (Some C) None = Ok (VK_SUCCESS, 1, None)
  /\ vkEnumeratePhysicalDevices i (Some C) (Some buf)
     = Ok (if C <? 1 then VK_INCOMPLETE else VK_SUCCESS,
           Z.min 1 C,
           Some (replicate (Z.to_nat (Z.min 1 C)) (PD_of i)
                 ++ drop (Z.to_nat (Z.min 1 C)) buf)).
Proof.
  intros Hi HC Hbuf. split; [by apply enumerate_physical_devices_count|].
  unfold vkEnumeratePhysicalDevices, is_null.
  rewrite bool_decide_false by done. simpl.
  rewrite to_int_small, min_spec by done.
  rewrite for_range_fill by lia. simpl.
  rewrite to_uint32_small by (unfold Int.UINT32_MOD, Int.INT_MAX in *; lia).
  by destruct (C <? 1).
Qed.

Variable VkQueueFamilyProperties : Type.
Variable _queueFamilyProperties : list VkQueueFamilyProperties.
Variable numQueueFamilies : nat.

(** X4. vkGetPhysicalDeviceQueueFamilyProperties, the table having
    [numQueueFamilies] records: a buffer of [C] cells receives the first
    [min(numQueueFamilies, C)] records and that count, and keeps its other
    cells; a null buffer gives the count 1 whatever [numQueueFamilies] is, so
    the two-call idiom yields the record of the first family only. *)
Theorem queue_family_enumeration (i : addr) (C : Z)
    (buf : list VkQueueFamilyProperties) (x : VkQueueFamilyProperties) :
  length _queueFamilyProperties = numQueueFamilies ->
  Z.of_nat numQueueFamilies <= Int.INT_MAX ->
  0 <= C <= Int.INT_MAX -> length buf = Z.to_nat C ->
  let nf := Z.of_nat numQueueFamilies in
  vkGetPhysicalDeviceQueueFamilyProperties VkQueueFamilyProperties
    _queueFamilyProperties numQueueFamilies (PD_of i) (Some C) None
  = Ok (1, None)
  /\ vkGetPhysicalDeviceQueueFamilyProperties VkQueueFamilyProperties
       _queueFamilyProperties numQueueFamilies (PD_of i) (Some C) (Some buf)
     = Ok (Z.min nf C,
           Some (take (Z.to_nat (Z.min nf C)) _queueFamilyProperties
                 ++ drop (Z.to_nat (Z.min nf C)) buf))
  /\ vkGetPhysicalDeviceQueueFamilyProperties VkQueueFamilyProperties
       _queueFamilyProperties numQueueFamilies (PD_of i) (Some 1) (Some [x])
     = Ok (Z.min nf 1, Some (take 1 (_queueFamilyProperties ++ [x]))).
Proof.
  intros Hlen Hnf HC Hbuf nf. split; [done|].
  assert (Hfill : forall C' (b : list VkQueueFamilyProperties),
            0 <= C' <= Int.INT_MAX -> length b = Z.to_nat C' ->
            vkGetPhysicalDeviceQueueFamilyProperties VkQueueFamilyProperties
              _queueFamilyProperties numQueueFamilies (PD_of i) (Some C')
              (Some b)
            = Ok (Z.min nf C',
                  Some (take (Z.to_nat (Z.min nf C')) _queueFamilyProperties
                        ++ drop (Z.to_nat (Z.min nf C')) b))).
  { intros C' b HC' Hb. unfold vkGetPhysicalDeviceQueueFamilyProperties.
    simpl. rewrite to_int_small, min_spec by done. fold nf.
    rewrite for_range_copy by (subst nf; lia). simpl.
    by rewrite to_uint32_small
      by (unfold Int.UINT32_MOD, Int.INT_MAX in *; subst nf; lia). }
  split; [by apply Hfill|].
  rewrite Hfill by (unfold Int.INT_MAX; done || lia).
  do 2 f_equal.
  destruct _queueFamilyProperties as [|y rest]; simpl in *.
  - subst numQueueFamilies. done.
  - subst numQueueFamilies nf. rewrite Z.min_r by lia. done.
Qed.
End SingleDeviceEnumeration.

Lemma physical_device_enumeration_in_range_witness :
  vkEnumeratePhysicalDevices 1 (Some 2%Z) None = Ok (VK_SUCCESS, 1%Z, None)
  /\ vkEnumeratePhysicalDevices 1 (Some 2%Z) (Some [PD_null; PD_null])
     = Ok (VK_SUCCESS, 1%Z, Some [PD_of 1; PD_null]).
Proof.
  apply (physical_device_enumeration_in_range 1 2%Z [PD_null; PD_null]).
  - discriminate.
  - unfold Int.INT_MAX. lia.
  - reflexivity.
Defined.

Lemma queue_family_enumeration_witness :
  vkGetPhysicalDeviceQueueFamilyProperties string ["graphics"; "transfer"] 2
    (PD_of 1) (Some 2%Z) None
  = Ok (1%Z, None)
  /\ vkGetPhysicalDeviceQueueFamilyProperties string ["graphics"; "transfer"] 2
       (PD_of 1) (Some 2%Z) (Some [""; ""])
     = Ok (2%Z, Some ["graphics"; "transfer"])
  /\ vkGetPhysicalDeviceQueueFamilyProperties string ["graphics"; "transfer"] 2
       (PD_of 1) (Some 1%Z) (Some [""])
     = Ok (1%Z, Some ["graphics"]).
Proof.
  apply (queue_family_enumeration string ["graphics"; "transfer"] 2 1 2%Z
           [""; ""] "").
  - reflexivity.
  - vm_compute. discriminate.
  - unfold Int.INT_MAX. lia.
  - reflexivity.
Defined.

(** ** The resolvers, name by name *)

Section ResolverTables.
Local Open Scope string_scope.

Lemma RETFUNC_elem_of (fs : list string) (name : string) :
  RETFUNC fs name = if decide (name ∈ fs) then Some name else None.
Proof.
  induction fs as [|f fs IH].
  - by rewrite decide_False by apply not_elem_of_nil.
  - simpl. destruct (String.eqb_spec name f) as [->|Hne].
    + by rewrite decide_True by apply list_elem_of_here.
    + rewrite IH. destruct (decide (name ∈ fs)) as [Hin|Hin].
      * by rewrite decide_True by (by apply list_elem_of_further).
      * rewrite decide_False; [done|].
        intros [->|?]%elem_of_cons; done.
Qed.

Lemma existsb_elem_of (fs : list string) (name : string) :
  existsb (fun f => String.eqb f name) fs = bool_decide (name ∈ fs).
Proof.
  induction fs as [|f fs IH].
  - by rewrite bool_decide_false by apply not_elem_of_nil.
  - simpl. destruct (String.eqb_spec f name) as [->|Hne]; simpl.
    + by rewrite bool_decide_true by apply list_elem_of_here.
    + rewrite IH. apply bool_decide_ext. rewrite elem_of_cons.
      split; [by right|]. by intros [?|?].
Qed.

Lemma listed_exported (names : list string) (name : string) :
  forallb (fun n => match RETFUNC exported n with
                    | Some _ => true
                    | None => false
                    end) names = true ->
  name ∈ names -> name ∈ exported.
Proof.
  intros Hall Hin. apply list_elem_of_In in Hin.
  pose proof (proj1 (forallb_forall _ _) Hall name Hin) as H.
  cbv beta in H. rewrite RETFUNC_elem_of in H. by destruct (decide (name ∈ exported)).
Qed.

Lemma pre_instance_exported name : name ∈ pre_instance -> name ∈ exported.
Proof. apply listed_exported. vm_compute. reflexivity. Qed.

Lemma refused_exported name : name ∈ device_refused -> name ∈ exported.
Proof. apply listed_exported. vm_compute. reflexivity. Qed.

(** X5. vkGetInstanceProcAddr answers with the function of the name asked
    for, or with null: it resolves a name exactly when the name has a
    RETFUNC line and, if the instance is null, is one of the four names of
    [pre_instance]; a non-null instance has no other influence. *)
Theorem instance_resolution_characterised (i : VkInstance) (name : string) :
  vkGetInstanceProcAddr i name
  = if decide (name ∈ exported /\ (i <> 0 \/ name ∈ pre_instance))
    then Some name else None.
Proof.
  unfold vkGetInstanceProcAddr.
  replace (String.eqb name "vkEnumerateInstanceVersion" ||
           String.eqb name "vkEnumerateInstanceExtensionProperties" ||
           String.eqb name "vkEnumerateInstanceLayerProperties" ||
           String.eqb name "vkCreateInstance")
    with (bool_decide (name ∈ pre_instance)).
  2:{ rewrite <- existsb_elem_of. unfold pre_instance. simpl.
      rewrite !(String.eqb_sym name). by rewrite orb_false_r, !orb_assoc. }
  unfold is_null. rewrite RETFUNC_elem_of.
  destruct (decide (i = 0)) as [->|Hi].
  - rewrite bool_decide_true by done. simpl.
    destruct (decide (name ∈ pre_instance)) as [Hpre|Hpre].
    + rewrite bool_decide_true by done. simpl.
      pose proof (pre_instance_exported name Hpre).
      by rewrite !decide_True by auto.
    + rewrite bool_decide_false by done. simpl.
      rewrite decide_False; [done|]. intros [_ [?|?]]; done.
  - rewrite bool_decide_false by done. simpl.
    destruct (decide (name ∈ exported)).
    + by rewrite decide_True by auto.
    + rewrite decide_False; [done|]. by intros [? _].
Qed.

(** X6. vkGetDeviceProcAddr through a device whose owning instance exists: it
    resolves a name exactly when the name has a RETFUNC line and is not one
    of the refused names, to the function of that name, and leaves the world
    as it is; the refused names all have a RETFUNC line, so the
    instance-scoped resolver of the owner resolves each of them. *)
Theorem device_resolution_characterised
    (d : VkDevice) (w : world) (owner : VkInstance) (name : string) :
  device_instance d w = Ok (owner, w) -> owner <> 0 ->
  vkGetDeviceProcAddr d name w
  = Ok (if decide (name ∈ exported /\ name ∉ device_refused)
        then Some name else None, w)
  /\ (name ∈ device_refused -> vkGetInstanceProcAddr owner name = Some name).
Proof.
  intros Hd Hne. split.
  - rewrite (device_resolution _ _ _ _ Hd), existsb_elem_of.
    rewrite instance_resolution_with_instance, RETFUNC_elem_of by done.
    destruct (decide (name ∈ device_refused)) as [Hr|Hr].
    + rewrite bool_decide_true by done.
      rewrite decide_False; [done|]. by intros [_ ?].
    + rewrite bool_decide_false by done.
      destruct (decide (name ∈ exported)).
      * by rewrite decide_True by done.
      * rewrite decide_False; [done|]. by intros [? _].
  - intros Hr.
    rewrite instance_resolution_with_instance, RETFUNC_elem_of by done.
    by rewrite decide_True by (by apply refused_exported).
Qed.
End ResolverTables.

Lemma device_resolution_characterised_witness :
  vkGetDeviceProcAddr 2 "vkCreateDevice" world_with_device
  = Ok (if decide ("vkCreateDevice" ∈ exported
                   /\ "vkCreateDevice" ∉ device_refused)
        then Some "vkCreateDevice" else None, world_with_device)
  /\ ("vkCreateDevice" ∈ device_refused ->
      vkGetInstanceProcAddr 1 "vkCreateDevice" = Some "vkCreateDevice").
Proof.
  apply (device_resolution_characterised 2 world_with_device 1
           "vkCreateDevice").
  - vm_compute. reflexivity.
  - discriminate.
Defined.

(** ** Frames and the kernel log *)

Section Frames.
Implicit Types (w : world) (p q : addr).

Lemma peek_logged c w q : peek (logged c w) q = peek w q.
Proof. done. Qed.

Lemma same_except_refl p w : same_except p w w.
Proof. done. Qed.

Lemma same_except_trans p w1 w2 w3 :
  same_except p w1 w2 -> same_except p w2 w3 -> same_except p w1 w3.
Proof.
  intros (F1 & ? & ? & ?) (F2 & ? & ? & ?). split; [|split; [|split]];
    try congruence.
  intros q Hq. rewrite F2, F1; done.
Qed.

Lemma same_except_poke p c w : p <> 0 -> same_except p w (poke p c w).
Proof.
  intros Hp. split; [|done]. intros q Hq. by apply peek_poke_ne.
Qed.

Lemma wp_kernel_call {A} ff (c : kcall) (answer : kernel -> A) Q w :
  Q (answer (hw w)) (logged c w) -> wp ff (kernel_call c answer) Q w.
Proof. done. Qed.

Lemma update_instance_run p f i w :
  peek w p = Some (BInstance i) ->
  update_instance p f w = Ok (tt, poke p (Live (BInstance (f i))) w).
Proof.
  intros Hp. apply wp_exact. eapply wp_update_instance; [done|]. done.
Qed.
End Frames.

(** ** The life of an instance *)

Section FindFacts.
Local Open Scope Z_scope.

Lemma find_extension_ge table name : forall c,
  -1 <= c -> -1 <= find_extension table name c.
Proof.
  induction table as [|e table IH]; intros c Hc; simpl; [lia|].
  destruct (String.eqb _ _); [lia|]. apply IH. lia.
Qed.

Lemma known_extension_found table name :
  findInstanceExtension table name <> -1 ->
  (-1 <? findInstanceExtension table name) = true.
Proof.
  intros Hne. apply Z.ltb_lt. unfold findInstanceExtension in *.
  pose proof (find_extension_ge table name 0). lia.
Qed.
End FindFacts.

(** The block at [p] of a world built by stores at [p] and calls to the
    kernel. *)
Ltac peek_at :=
  lazymatch goal with
  | |- is_Some _ => eexists; peek_at
  | |- peek (logged _ _) _ = _ => rewrite peek_logged; peek_at
  | |- peek (poke ?p _ _) ?p = _ => apply peek_poke_eq; peek_at
  | |- _ => eassumption
  end.

Section FilledFacts.
Implicit Types (exts : list Z).

Lemma length_filled slots exts :
  length exts <= slots -> length (filled slots exts) = slots.
Proof.
  intros H. unfold filled.
  rewrite length_app, length_fmap, length_replicate. lia.
Qed.

(** The store into the first cell that has not been written. *)
Lemma filled_snoc slots exts v :
  length exts < slots ->
  <[length exts := Some v]> (filled slots exts) = filled slots (exts ++ [v]).
Proof.
  intros H. unfold filled.
  rewrite insert_app_r_alt by (rewrite length_fmap; lia).
  rewrite length_fmap, Nat.sub_diag, fmap_app, length_app, <- app_assoc.
  f_equal. simpl.
  replace (slots - length exts) with (S (slots - (length exts + 1))) by lia.
  done.
Qed.

Lemma filled_nil slots : filled slots [] = replicate slots None.
Proof. unfold filled. simpl. by rewrite Nat.sub_0_r. Qed.
End FilledFacts.

Section InstanceLife.
Variable instanceExtensions : list VkExtensionProperties.
Variable slots : nat.

Local Abbreviation enabling := (instance_enabling instanceExtensions slots).

(** The loop over the names of a request whose names are all known and fit
    the array. *)
Lemma enable_instance_extensions_run p names w :
  instance_extensions_known instanceExtensions names ->
  length names <= slots ->
  peek w p = Some (BInstance (enabling names 0)) ->
  wp False
    (mfor 0 (length names)
       (enable_instance_extension instanceExtensions p names))
    (fun r w' => r = None
                 /\ peek w' p = Some (BInstance (enabling names (length names)))
                 /\ same_except p w w') w.
Proof.
  intros Hknown Hroom Hp.
  assert (Hp0 : p <> 0).
  { assert (is_Some (peek w p)) as Hb%peek_bound by (by eexists). lia. }
  apply (wp_mfor False
    (fun c w' => peek w' p = Some (BInstance (enabling names c))
                 /\ same_except p w w')).
  - split; [done|apply same_except_refl].
  - intros c w' Hc [Hp' Hsame]. unfold enable_instance_extension.
    apply wp_bind, wp_elt; [|lia]. intros name Hname.
    rewrite known_extension_found
      by (apply Hknown; eapply list_elem_of_lookup_2; eauto).
    apply wp_bind. eapply wp_load_instance; [done|].
    apply wp_bind, wp_rd; [|done]. intros n [= <-].
    assert (Hlen : length (map (findInstanceExtension instanceExtensions)
                             (take c names)) = c).
    { rewrite length_map, length_take. lia. }
    apply wp_bind, wp_put_at.
    2:{ simpl. rewrite Nat2Z.id, length_filled by lia. lia. }
    intros _ _.
    apply wp_bind. eapply wp_update_instance; [done|].
    apply wp_bind. eapply wp_update_instance.
    { apply peek_poke_eq. by eexists. }
    apply wp_ret. split.
    + rewrite peek_poke_eq.
      2:{ rewrite peek_poke_eq by (by eexists). by eexists. }
      do 2 f_equal. unfold instance_enabling, set_i_numEnabledExtensions,
        set_i_enabledExtensions. simpl. f_equal.
      * f_equal. lia.
      * rewrite Nat2Z.id. rewrite <- Hlen at 1.
        rewrite filled_snoc by lia.
        by rewrite (take_S_r _ _ _ Hname), map_app.
    + eapply same_except_trans; [exact Hsame|].
      eapply same_except_trans; by apply same_except_poke.
  - intros w' [? ?]. done.
Qed.

(** X7. A request with no layer and only known names, no more of them
    than the array [enabledExtensions] has cells, when the allocation
    succeeds, the device file exists and can be opened: vkCreateInstance
    returns VK_SUCCESS and the address of a new block that holds, in the
    first cells of [enabledExtensions], the positions of the names in the
    registry, in the order of the request, the kernel's answers, and, in its
    physical device, its own address; the kernel has been asked the eight
    questions of [probe_calls] in order, and no other block has changed. *)
Theorem create_instance_success (ci : VkInstanceCreateInfo) (w : world) :
  enabledLayerCount ci = 0%Z ->
  instance_extensions_known instanceExtensions (ppEnabledExtensionNames ci) ->
  length (ppEnabledExtensionNames ci) <= slots ->
  (forall rest, plan w <> false :: rest) ->
  card0_exists (hw w) = true ->
  openIoctl_result (hw w) <> (-1)%Z ->
  let p := S (length (heap w)) in
  exists w',
    vkCreateInstance instanceExtensions slots ci w = Ok ((VK_SUCCESS, Some p), w')
    /\ peek w' p
       = Some (BInstance (instance_ready instanceExtensions slots
                            (ppEnabledExtensionNames ci) (hw w) p))
    /\ klog w' = probe_calls ++ klog w
    /\ (forall q, q <> p -> peek w' q = peek w q)
    /\ plan w' = tail (plan w).
Proof.
  intros Hlayers Hknown Hroom Hplan Hcard Hopen p.
  cut (wp False (vkCreateInstance instanceExtensions slots ci)
         (fun r w' =>
            r = (VK_SUCCESS, Some p)
            /\ peek w' p
               = Some (BInstance (instance_ready instanceExtensions slots
                                    (ppEnabledExtensionNames ci) (hw w) p))
            /\ klog w' = probe_calls ++ klog w
            /\ (forall q, q <> p -> peek w' q = peek w q)
            /\ plan w' = tail (plan w)) w).
  { intros (r & w' & Hrun & -> & H)%wp_total. eauto. }
  unfold vkCreateInstance.
  apply wp_bind, wp_ALLOCATE; [intros rest E; by destruct (Hplan rest)|].
  intros _. fold p.
  set (w1 := alloc (BInstance (fresh_instance slots)) w).
  assert (Hp1 : peek w1 p = Some (BInstance (fresh_instance slots))).
  { subst w1 p. rewrite peek_alloc. by rewrite decide_True. }
  assert (Hold : forall q, q <> p -> peek w1 q = peek w q).
  { intros q Hq. subst w1. rewrite peek_alloc. by rewrite decide_False. }
  replace (is_null p) with false by done.
  apply wp_bind. eapply wp_update_instance; [exact Hp1|].
  apply wp_bind, wp_massert; [intros _|by rewrite Hlayers].
  apply wp_bind. eapply wp_mono.
  { apply enable_instance_extensions_run; [done|done|].
    rewrite peek_poke_eq by (by eexists). do 2 f_equal.
    unfold instance_enabling, set_i_numEnabledExtensions, fresh_instance.
    simpl. by rewrite filled_nil. }
  intros r w3 (-> & Hp3 & Hframe3 & Hplan3 & Hlog3 & Hhw3).
  change (hw (poke p _ w1)) with (hw w) in Hhw3.
  change (klog (poke p _ w1)) with (klog w) in Hlog3.
  change (plan (poke p _ w1)) with (tail (plan w)) in Hplan3.
  unfold access, openIoctl, vc4_get_chip_info, vc4_test_tiling,
    vc4_has_feature.
  apply wp_bind, wp_kernel_call. rewrite Hhw3, Hcard.
  apply wp_bind, wp_massert; [intros _|done].
  apply wp_bind. eapply wp_update_instance; [by rewrite peek_logged|].
  apply wp_bind, wp_kernel_call.
  apply wp_bind, wp_massert; [intros _|].
  2:{ intros E. apply negb_false_iff, Z.eqb_eq in E. simpl in E. congruence. }
  repeat (apply wp_bind, wp_kernel_call;
          apply wp_bind; eapply wp_update_instance; [peek_at|]).
  apply wp_ret. split; [done|].
  assert (Hp0 : p <> 0) by done.
  split; [|split; [|split]].
  - etransitivity; [peek_at|].
    unfold instance_ready, instance_enabling. simpl.
    by rewrite firstn_all, Hhw3.
  - simpl. by rewrite Hlog3.
  - intros q Hq.
    repeat first [rewrite peek_logged | rewrite peek_poke_ne by done].
    rewrite Hframe3 by done. rewrite peek_poke_ne by done. by apply Hold.
  - simpl. exact Hplan3.
Qed.
End InstanceLife.

Lemma create_instance_success_witness :
  exists w',
    vkCreateInstance sample_instance_extensions sample_slots
      sample_instance_info (boot [])
    = Ok ((VK_SUCCESS, Some 1), w')
    /\ peek w' 1
       = Some (BInstance (instance_ready sample_instance_extensions sample_slots
                            (ppEnabledExtensionNames sample_instance_info)
                            sample_kernel 1))
    /\ klog w' = probe_calls ++ []
    /\ (forall q, q <> 1 -> peek w' q = peek (boot []) q)
    /\ plan w' = [].
Proof.
  apply (create_instance_success sample_instance_extensions sample_slots
           sample_instance_info (boot [])).
  - reflexivity.
  - intros name Hin. apply list_elem_of_In in Hin. simpl in Hin.
    destruct Hin as [<-|[]]. vm_compute. discriminate.
  - unfold sample_slots. simpl. lia.
  - intros rest. simpl. discriminate.
  - reflexivity.
  - simpl. discriminate.
Defined.

Lemma ALLOCATE_run init w :
  (forall rest, plan w <> false :: rest) ->
  ALLOCATE init w = Ok (S (length (heap w)), alloc init w).
Proof.
  intros Hplan. unfold ALLOCATE.
  destruct (plan w) as [|[] rest] eqn:E; try done. by destruct (Hplan rest).
Qed.

Section InstanceAborts.
Variable instanceExtensions : list VkExtensionProperties.
Variable slots : nat.

(** X8. The conditions that vkCreateInstance asserts, when the allocation
    of the instance block is granted: a request with a layer stops the
    call at the assert on [enabledLayerCount]; a request without layers and
    with known names that fit the array [enabledExtensions] stops it at the
    assert on the device file when the file is missing, and at the assert on
    [openIoctl] when the file cannot be opened. *)
Theorem create_instance_aborts (ci : VkInstanceCreateInfo) (w : world) :
  (forall rest, plan w <> false :: rest) ->
  (enabledLayerCount ci <> 0%Z ->
   vkCreateInstance instanceExtensions slots ci w = Fault AssertionFailed)
  /\ (enabledLayerCount ci = 0%Z ->
      instance_extensions_known instanceExtensions
        (ppEnabledExtensionNames ci) ->
      length (ppEnabledExtensionNames ci) <= slots ->
      card0_exists (hw w) = false \/ openIoctl_result (hw w) = (-1)%Z ->
      vkCreateInstance instanceExtensions slots ci w = Fault AssertionFailed).
Proof.
  intros Hplan.
  set (p := S (length (heap w))).
  set (w1 := alloc (BInstance (fresh_instance slots)) w).
  assert (Hp1 : peek w1 p = Some (BInstance (fresh_instance slots))).
  { subst w1 p. rewrite peek_alloc. by rewrite decide_True. }
  split.
  - intros Hlayers. unfold vkCreateInstance.
    erewrite bind_eq by (by apply ALLOCATE_run). fold p w1.
    replace (is_null p) with false by done.
    erewrite bind_eq by (by apply update_instance_run).
    unfold bind at 1, massert.
    by rewrite (proj2 (Z.eqb_neq _ _) Hlayers).
  - intros Hlayers Hknown Hroom Hhw. unfold vkCreateInstance.
    erewrite bind_eq by (by apply ALLOCATE_run). fold p w1.
    replace (is_null p) with false by done.
    erewrite bind_eq by (by apply update_instance_run).
    rewrite Hlayers. erewrite (bind_eq (massert _)) by reflexivity.
    assert (Hp2 : peek (poke p (Live (BInstance (set_i_numEnabledExtensions 0
                                                  (fresh_instance slots))))
                          w1) p
                  = Some (BInstance (instance_enabling instanceExtensions slots
                                       (ppEnabledExtensionNames ci) 0))).
    { rewrite peek_poke_eq by (by eexists). do 2 f_equal.
      unfold instance_enabling, set_i_numEnabledExtensions, fresh_instance.
      simpl. by rewrite filled_nil. }
    destruct (wp_total _ _ _
      (enable_instance_extensions_run instanceExtensions slots p
         (ppEnabledExtensionNames ci) _ Hknown Hroom Hp2))
      as (r & w3 & Hloop & -> & Hp3 & _ & _ & _ & Hhw3).
    change (hw (poke p _ w1)) with (hw w) in Hhw3.
    unfold enabledExtensionCount.
    erewrite bind_eq by exact Hloop. cbv beta iota.
    unfold access. erewrite bind_eq by reflexivity.
    destruct (card0_exists (hw w3)) eqn:Ecard.
    + destruct Hhw as [Hcard|Hopen]; [congruence|].
      erewrite (bind_eq (massert _)) by reflexivity.
      erewrite bind_eq by (apply update_instance_run; peek_at).
      unfold openIoctl. erewrite bind_eq by reflexivity.
      unfold bind at 1, massert. simpl. by rewrite Hhw3, Hopen.
    + done.
Qed.
End InstanceAborts.

Lemma create_instance_aborts_witness :
  vkCreateInstance sample_instance_extensions sample_slots
    layered_instance_info (boot [])
  = Fault AssertionFailed
  /\ vkCreateInstance sample_instance_extensions sample_slots
       sample_instance_info headless_world
     = Fault AssertionFailed.
Proof.
  split.
  - destruct (create_instance_aborts sample_instance_extensions sample_slots
                layered_instance_info (boot [])) as [H _].
    + intros rest. simpl. discriminate.
    + apply H. simpl. lia.
  - destruct (create_instance_aborts sample_instance_extensions sample_slots
                sample_instance_info headless_world) as [_ H].
    + intros rest. simpl. discriminate.
    + apply H.
      * reflexivity.
      * intros name Hin. apply list_elem_of_In in Hin. simpl in Hin.
        destruct Hin as [<-|[]]. vm_compute. discriminate.
      * unfold sample_slots. simpl. lia.
      * left. reflexivity.
Defined.

Section InstanceEnd.
Implicit Types (w : world).

Lemma destroy_instance_run i w :
  is_Some (peek w i) ->
  vkDestroyInstance i w = Ok (tt, poke i Freed (logged CloseIoctl w)).
Proof.
  intros [b Hb]. unfold vkDestroyInstance.
  assert (0 < i <= length (heap w)) by (apply peek_bound; by eexists).
  destruct i as [|i]; [lia|].
  erewrite (bind_eq (massert _)) by reflexivity.
  unfold closeIoctl.
  erewrite (bind_eq _ _ w tt (logged CloseIoctl w)) by reflexivity.
  unfold FREE. by rewrite peek_logged, Hb.
Qed.

(** X9. vkDestroyInstance on a live block: it closes the kernel handle and
    frees that block and nothing else, whatever was created from the
    instance; a second call on the same handle does not return: it is the
    release of a block that is no longer allocated. *)
Theorem destroy_instance_frees_once (i : VkInstance) (b : block) w :
  peek w i = Some b ->
  exists w',
    vkDestroyInstance i w = Ok (tt, w')
    /\ peek w' i = None
    /\ (forall q, q <> i -> peek w' q = peek w q)
    /\ klog w' = CloseIoctl :: klog w
    /\ vkDestroyInstance i w' = Fault InvalidFree.
Proof.
  intros Hb.
  assert (Hi : 0 < i <= length (heap w)) by (apply peek_bound; by eexists).
  eexists. split; [apply destroy_instance_run; by eexists|].
  assert (Hgone : peek (poke i Freed (logged CloseIoctl w)) i = None).
  { apply peek_poke_freed. rewrite peek_logged. by eexists. }
  split; [done|]. split; [|split; [done|]].
  - intros q Hq. rewrite peek_poke_ne by lia. apply peek_logged.
  - unfold vkDestroyInstance. destruct i as [|i]; [lia|].
    erewrite (bind_eq (massert _)) by reflexivity.
    unfold closeIoctl.
    erewrite (bind_eq _ _ _ tt (logged CloseIoctl _)) by reflexivity.
    unfold FREE.
    replace (peek (logged CloseIoctl (poke (S i) Freed (logged CloseIoctl w)))
               (S i)) with (@None block); done.
Qed.

(** X10. A device outlives the destruction of its instance: the device block is
    still there, the refused names still resolve to null through it, and
    for every other name the device-scoped resolver reads the freed
    instance block. *)
Theorem resolution_after_instance_destruction
    (d : VkDevice) (dv : _device) (i : VkInstance) (inst : _instance)
    (name : string) w :
  peek w d = Some (BDevice dv) -> d_dev dv = Some (PD_of i) ->
  peek w i = Some (BInstance inst) ->
  exists w',
    vkDestroyInstance i w = Ok (tt, w')
    /\ peek w' d = Some (BDevice dv)
    /\ (name ∈ device_refused -> vkGetDeviceProcAddr d name w' = Ok (None, w'))
    /\ (name ∉ device_refused ->
        vkGetDeviceProcAddr d name w' = Fault InvalidPointer).
Proof.
  intros Hd Hpd Hi.
  assert (Hne : d <> i) by (intros ->; congruence).
  assert (Hib : 0 < i <= length (heap w)) by (apply peek_bound; by eexists).
  eexists. split; [apply destroy_instance_run; by eexists|].
  set (w' := poke i Freed (logged CloseIoctl w)).
  assert (Hd' : peek w' d = Some (BDevice dv)).
  { subst w'. rewrite peek_poke_ne by lia. by rewrite peek_logged. }
  assert (Hi' : peek w' i = None).
  { subst w'. apply peek_poke_freed. rewrite peek_logged. by eexists. }
  split; [done|]. split.
  - intros Hin. unfold vkGetDeviceProcAddr. by rewrite refused_existsb.
  - intros Hnin. unfold vkGetDeviceProcAddr.
    rewrite existsb_elem_of, bool_decide_false by done.
    unfold device_instance, bind, load_device, load_instance, bind, load.
    rewrite Hd'. simpl. rewrite Hpd. simpl. by rewrite Hi'.
Qed.
End InstanceEnd.

Lemma destroy_instance_frees_once_witness :
  exists w',
    vkDestroyInstance 1 world_with_device = Ok (tt, w')
    /\ peek w' 1 = None
    /\ (forall q, q <> 1 -> peek w' q = peek world_with_device q)
    /\ klog w' = CloseIoctl :: klog world_with_device
    /\ vkDestroyInstance 1 w' = Fault InvalidFree.
Proof.
  apply (destroy_instance_frees_once 1
           (BInstance (instance_ready sample_instance_extensions sample_slots
                         (ppEnabledExtensionNames sample_instance_info)
                         sample_kernel 1)) world_with_device).
  vm_compute. reflexivity.
Defined.

Lemma resolution_after_instance_destruction_witness :
  exists w',
    vkDestroyInstance 1 world_with_plain_device = Ok (tt, w')
    /\ peek w' 2
       = Some (BDevice
                 {| d_dev := Some (PD_of 1);
                    d_numEnabledExtensions := Some 1%Z;
                    d_enabledExtensions := [Some 0%Z; None];
                    enabledFeatures := Some [0; 0; 0]%Z;
                    queues := [Some 3; Some 0];
                    numQueues := [Some 1; None] |})
    /\ ("vkQueueSubmit"%string ∈ device_refused ->
        vkGetDeviceProcAddr 2 "vkQueueSubmit" w' = Ok (None, w'))
    /\ ("vkQueueSubmit"%string ∉ device_refused ->
        vkGetDeviceProcAddr 2 "vkQueueSubmit" w' = Fault InvalidPointer).
Proof.
  apply (resolution_after_instance_destruction 2 _ 1
           (instance_ready sample_instance_extensions sample_slots
              (ppEnabledExtensionNames sample_instance_info)
              sample_kernel 1)).
  - vm_compute. reflexivity.
  - reflexivity.
  - vm_compute. reflexivity.
Defined.

(** ** Queues of a device *)

Section RunEquations.
Implicit Types (w : world) (p : addr).

Lemma load_device_run p dv w :
  peek w p = Some (BDevice dv) -> load_device p w = Ok (dv, w).
Proof. intros H. unfold load_device, bind, load. by rewrite H. Qed.

Lemma FREE_run p b w :
  peek w p = Some b -> FREE p w = Ok (tt, poke p Freed w).
Proof.
  intros H. unfold FREE. destruct p as [|i]; [done|]. by rewrite H.
Qed.

Lemma poke_poke p c c' w : poke p c (poke p c' w) = poke p c w.
Proof.
  unfold poke, set_heap. simpl. f_equal. apply list_insert_insert_eq.
Qed.
End RunEquations.

Section QueueAccess.
Variable nf : nat.

(** X11. vkGetDeviceQueue is idempotent: a second call with the same arguments
    returns the same handle and changes nothing. The first call changes
    nothing but the [dev] field of the record it returns: the other blocks,
    the other records of the array and the sequence number of the record are
    as before. *)
Theorem get_device_queue_idempotent w p dv f n i a qs :
  peek w p = Some (BDevice dv) -> f < nf ->
  numQueues dv !! f = Some (Some n) -> i < n ->
  queues dv !! f = Some (Some a) ->
  peek w a = Some (BQueues qs) -> length qs = n ->
  exists w1 qs1 q q1,
    vkGetDeviceQueue nf p f i w = Ok (Q_at a i, w1)
    /\ vkGetDeviceQueue nf p f i w1 = Ok (Q_at a i, w1)
    /\ same_except a w w1
    /\ peek w1 a = Some (BQueues qs1) /\ length qs1 = length qs
    /\ (forall j, j <> i -> qs1 !! j = qs !! j)
    /\ qs !! i = Some q /\ qs1 !! i = Some q1
    /\ lastEmitSeqno q1 = lastEmitSeqno q /\ q_dev q1 = Some p.
Proof.
  intros Hp Hf Hn Hi Hslot Ha Hlen.
  assert (Hap : a <> p) by (intros ->; congruence).
  assert (Ha0 : 0 < a <= length (heap w)) by (apply peek_bound; by eexists).
  destruct (get_device_queue_run nf w p dv f n i a qs) as (q & Hq & Hrun);
    try done.
  set (qs1 := <[i := set_q_dev p q]> qs) in *.
  set (w1 := poke a (Live (BQueues qs1)) w) in *.
  assert (Ha1 : peek w1 a = Some (BQueues qs1))
    by (apply peek_poke_eq; by eexists).
  assert (Hq1 : qs1 !! i = Some (set_q_dev p q))
    by (subst qs1; by rewrite list_lookup_insert_eq by lia).
  exists w1, qs1, q, (set_q_dev p q).
  split; [done|]. split.
  - destruct (get_device_queue_run nf w1 p dv f n i a qs1)
      as (q' & Hq' & Hrun'); try done.
    { subst w1. by rewrite peek_poke_ne by lia. }
    { subst qs1. by rewrite length_insert. }
    rewrite Hrun'. do 2 f_equal.
    rewrite Hq1 in Hq'. injection Hq' as <-.
    subst w1. rewrite poke_poke. do 3 f_equal.
    subst qs1. by rewrite list_insert_insert_eq.
  - split; [apply same_except_poke; lia|].
    split; [done|]. split; [subst qs1; by rewrite length_insert|].
    split; [|done].
    intros j Hj. subst qs1. by rewrite list_lookup_insert_ne.
Qed.

(** X12. vkGetDeviceQueue does not return a handle but stops at an assert
    for a family index that is not below the number of families and for a
    queue index that is not below the queue count of the family. *)
Theorem get_device_queue_rejects w p dv f n i :
  peek w p = Some (BDevice dv) ->
  nf <= f \/ (numQueues dv !! f = Some (Some n) /\ n <= i) ->
  vkGetDeviceQueue nf p f i w = Fault AssertionFailed.
Proof.
  intros Hp Hbad. unfold vkGetDeviceQueue.
  assert (Hp0 : 0 < p <= length (heap w)) by (apply peek_bound; by eexists).
  replace (is_null p) with false
    by (unfold is_null; by rewrite bool_decide_false by lia).
  erewrite (bind_eq (massert _)) by reflexivity.
  destruct (Nat.ltb_spec f nf) as [Hlt|Hge].
  - destruct Hbad as [?|[Hn Hi]]; [lia|].
    erewrite (bind_eq (massert _)) by reflexivity.
    erewrite bind_eq by (by apply load_device_run).
    unfold elt at 1. rewrite Hn.
    erewrite (bind_eq (ret _)) by reflexivity.
    erewrite (bind_eq (rd _)) by reflexivity.
    unfold bind at 1, massert.
    by rewrite (proj2 (Nat.ltb_ge i n)).
  - done.
Qed.
End QueueAccess.

Lemma get_device_queue_idempotent_witness :
  exists w1 qs1 q q1,
    vkGetDeviceQueue 2 2 0 1 world_with_device = Ok (Q_at 3 1, w1)
    /\ vkGetDeviceQueue 2 2 0 1 w1 = Ok (Q_at 3 1, w1)
    /\ same_except 3 world_with_device w1
    /\ peek w1 3 = Some (BQueues qs1)
    /\ length qs1
       = length [ {| lastEmitSeqno := Some 0%Z; q_dev := None |};
                  {| lastEmitSeqno := Some 0%Z; q_dev := None |} ]
    /\ (forall j, j <> 1 ->
          qs1 !! j
          = [ {| lastEmitSeqno := Some 0%Z; q_dev := None |};
              {| lastEmitSeqno := Some 0%Z; q_dev := None |} ] !! j)
    /\ [ {| lastEmitSeqno := Some 0%Z; q_dev := None |};
         {| lastEmitSeqno := Some 0%Z; q_dev := None |} ] !! 1 = Some q
    /\ qs1 !! 1 = Some q1
    /\ lastEmitSeqno q1 = lastEmitSeqno q /\ q_dev q1 = Some 2.
Proof.
  apply (get_device_queue_idempotent 2 world_with_device 2
           {| d_dev := Some (PD_of 1);
              d_numEnabledExtensions := Some 1%Z;
              d_enabledExtensions := [Some 0%Z; None];
              enabledFeatures := Some [1; 0; 0]%Z;
              queues := [Some 3; Some 4];
              numQueues := [Some 2; Some 1] |} 0 2 1 3).
  - vm_compute. reflexivity.
  - lia.
  - reflexivity.
  - lia.
  - reflexivity.
  - vm_compute. reflexivity.
  - reflexivity.
Defined.

Lemma get_device_queue_rejects_witness :
  vkGetDeviceQueue 2 2 0 2 world_with_device = Fault AssertionFailed.
Proof.
  apply (get_device_queue_rejects 2 world_with_device 2
           {| d_dev := Some (PD_of 1);
              d_numEnabledExtensions := Some 1%Z;
              d_enabledExtensions := [Some 0%Z; None];
              enabledFeatures := Some [1; 0; 0]%Z;
              queues := [Some 3; Some 4];
              numQueues := [Some 2; Some 1] |} 0 2 2).
  - vm_compute. reflexivity.
  - right. split; [reflexivity|lia].
Defined.

(** ** Destroying a device with one queue family *)

Section OneFamily.
Implicit Types (w : world).

(** X13. With one queue family, vkDestroyDevice on a device whose family has
    [n] queues in the array [a]: for [n = 1] it frees the array and the
    device block; for [n = 0] it frees the device block and leaves the array
    allocated; for [n >= 2] it does not return but ends in an access
    outside an array: the first round of the loop over the queues frees the
    array, and the second round reads [queues[1]], outside the array of one
    slot. *)
Theorem destroy_device_one_family w p dv n a qs :
  peek w p = Some (BDevice dv) ->
  numQueues dv = [Some n] -> queues dv = [Some a] ->
  peek w a = Some (BQueues qs) ->
  vkDestroyDevice 1 p w
  = match n with
    | 0 => Ok (tt, poke p Freed w)
    | 1 => Ok (tt, poke p Freed (poke a Freed w))
    | _ => Fault OutOfBounds
    end
  /\ (2 <= n ->
      free_queues p 0 w = Ok (None, poke a Freed w)
      /\ free_queues p 1 (poke a Freed w) = Fault OutOfBounds).
Proof.
  intros Hp Hn Hq Ha.
  assert (Hap : a <> p) by (intros ->; congruence).
  assert (Hp0 : 0 < p <= length (heap w)) by (apply peek_bound; by eexists).
  assert (Ha0 : 0 < a <= length (heap w)) by (apply peek_bound; by eexists).
  assert (Hp1 : peek (poke a Freed w) p = Some (BDevice dv))
    by (by rewrite peek_poke_ne by lia).
  unfold vkDestroyDevice.
  replace (is_null p) with false
    by (unfold is_null; by rewrite bool_decide_false by lia).
  erewrite (bind_eq (massert _)) by reflexivity.
  assert (Hfirst : free_queues p 0 w = Ok (None, poke a Freed w)).
  { unfold free_queues.
    erewrite bind_eq by (by apply load_device_run).
    rewrite Hq. erewrite (bind_eq (elt _ _)) by reflexivity.
    erewrite (bind_eq (rd _)) by reflexivity.
    erewrite bind_eq by (by eapply FREE_run). done. }
  assert (Hsecond : free_queues p 1 (poke a Freed w) = Fault OutOfBounds).
  { unfold free_queues.
    erewrite bind_eq by (by apply load_device_run).
    rewrite Hq. done. }
  split; [|done].
  assert (Hfamily : forall k, free_family p 0 w = k ->
            k = match n with
                | 0 => Ok (None, w)
                | 1 => Ok (None, poke a Freed w)
                | _ => Fault OutOfBounds
                end).
  { intros k <-. unfold free_family.
    erewrite bind_eq by (by apply load_device_run).
    rewrite Hn. erewrite (bind_eq (elt _ _)) by reflexivity.
    erewrite (bind_eq (rd _)) by reflexivity.
    destruct n as [|[|n]]; [done| |].
    - simpl. by erewrite bind_eq by exact Hfirst.
    - simpl. erewrite bind_eq by exact Hfirst. cbv beta iota.
      unfold bind at 1, free_queues.
      erewrite bind_eq by (by apply load_device_run).
      rewrite Hq. done. }
  cbn [mfor]. unfold bind at 1. unfold bind at 1.
  rewrite (Hfamily _ eq_refl).
  destruct n as [|[|n]]; cbv beta iota; [| |done].
  - change (ret None w) with (Ok (@None unit, w)). cbv beta iota.
    by eapply FREE_run.
  - change (ret None (poke a Freed w))
      with (Ok (@None unit, poke a Freed w)). cbv beta iota.
    by eapply FREE_run.
Qed.
End OneFamily.

Lemma destroy_device_one_family_witness :
  vkDestroyDevice 1 2 world_with_two_queues = Fault OutOfBounds
  /\ (2 <= 2 ->
      free_queues 2 0 world_with_two_queues
      = Ok (None, poke 3 Freed world_with_two_queues)
      /\ free_queues 2 1 (poke 3 Freed world_with_two_queues)
         = Fault OutOfBounds).
Proof.
  apply (destroy_device_one_family world_with_two_queues 2
           {| d_dev := Some (PD_of 1);
              d_numEnabledExtensions := Some 0%Z;
              d_enabledExtensions := [None; None];
              enabledFeatures := Some [0; 0; 0]%Z;
              queues := [Some 3];
              numQueues := [Some 2] |} 2 3
           [ {| lastEmitSeqno := Some 0%Z; q_dev := None |};
             {| lastEmitSeqno := Some 0%Z; q_dev := None |} ]).
  - vm_compute. reflexivity.
  - reflexivity.
  - reflexivity.
  - vm_compute. reflexivity.
Defined.

(** ** Requesting the reported features *)

Section ReportedFeatures.
Variable deviceExtensions : list VkExtensionProperties.
Variable _features : list VkBool32.
Variable nf : nat.
Variable slots : nat.
Variable sizeof_queue SIZE_MAX : positive.


End ReportedFeatures.


(** ** The footprint of device creation *)

Section FrameFacts.
Implicit Types (w : world) (n p : nat).

Lemma frame_refl n w : n <= length (heap w) -> frame n w w.
Proof. done. Qed.

Lemma frame_trans n w1 w2 w3 : frame n w1 w2 -> frame n w2 w3 -> frame n w1 w3.
Proof.
  intros (? & F1 & ? & ?) (? & F2 & ? & ?).
  split; [done|]. split; [|split; congruence].
  intros q Hq. rewrite F2, F1; done.
Qed.

Lemma frame_poke n p c w :
  n < p -> n <= length (heap w) -> frame n w (poke p c w).
Proof.
  intros Hp Hn. split; [by rewrite length_heap_poke|]. split; [|done].
  intros q Hq. apply peek_poke_ne; lia.
Qed.

Lemma frame_alloc n b w : n <= length (heap w) -> frame n w (alloc b w).
Proof.
  intros Hn. split; [|split; [|done]].
  - unfold alloc. simpl. rewrite length_app. lia.
  - intros q Hq. rewrite peek_alloc. case_decide; [lia|done].
Qed.

Lemma frame_refuse n w : n <= length (heap w) -> frame n w (refuse w).
Proof. done. Qed.

Lemma frame_length n w w' : frame n w w' -> n <= length (heap w').
Proof. by intros [? _]. Qed.

Lemma wp_load_queues_partial a (Q : list _queue -> world -> Prop) w :
  (forall qs, peek w a = Some (BQueues qs) -> Q qs w) ->
  wp True (load_queues a) Q w.
Proof.
  intros HQ. unfold wp, load_queues, bind, load.
  destruct (peek w a) as [[| |qs]|] eqn:E; simpl; auto.
Qed.
End FrameFacts.

Section DeviceFootprint.
Variable deviceExtensions : list VkExtensionProperties.
Variable _features : list VkBool32.
Variable nf : nat.
Variable slots : nat.
Variable sizeof_queue SIZE_MAX : positive.

Local Abbreviation find := (findDeviceExtension deviceExtensions).
Local Abbreviation enabling := (device_enabling deviceExtensions).

Lemma known_device_extension_found name :
  find name <> (-1)%Z -> (-1 <? find name)%Z = true.
Proof.
  intros Hne. apply Z.ltb_lt. unfold findDeviceExtension in *.
  pose proof (find_extension_ge deviceExtensions name 0). lia.
Qed.

(** A first loop that returns nothing has seen every name. *)
Lemma check_extensions_complete names w :
  wp True (mfor 0 (length names) (check_device_extension deviceExtensions names))
    (fun r w' => w' = w
                 /\ (r = None -> extensions_known deviceExtensions names)) w.
Proof.
  apply (wp_mfor True
    (fun c w' => w' = w
                 /\ forall k name, k < c -> names !! k = Some name ->
                                   find name <> (-1)%Z)).
  - split; [done|]. intros k name Hk. lia.
  - intros c w' Hc [-> Hseen]. unfold check_device_extension.
    apply wp_bind, wp_elt; [|done]. intros nm Hnm.
    destruct (Z.eqb_spec (find nm) (-1)); apply wp_ret; [done|].
    split; [done|]. intros k name Hk Hname.
    destruct (decide (k = c)) as [->|]; [congruence|].
    apply (Hseen k); [lia|done].
  - intros w' [-> Hseen]. split; [done|]. intros _ name Hin.
    apply list_elem_of_lookup in Hin as [k Hk].
    apply (Hseen k); [|done]. apply lookup_lt_Some in Hk. simpl. lia.
Qed.

(** The loops over the features leave the world as it is. *)
Lemma check_features_quiet req n w :
  wp True (mfor 0 n (check_feature req _features)) (fun _ w' => w' = w) w.
Proof.
  apply (wp_mfor True (fun _ w' => w' = w)); [done| |done].
  intros c w' _ ->. unfold check_feature.
  apply wp_bind, wp_elt; [|done]. intros r _.
  apply wp_bind, wp_elt; [|done]. intros s _.
  destruct (_ && _); by apply wp_ret.
Qed.

(** The second loop over the names, all known: if it comes to its end, the
    names fit the array, and the block at [p] has received the positions of
    the names in the registry, in order. *)
Lemma enable_device_extensions_exact pd p names w :
  extensions_known deviceExtensions names ->
  peek w p = Some (BDevice (enabling pd slots nf names 0)) ->
  wp True
    (mfor 0 (length names) (enable_device_extension deviceExtensions p names))
    (fun _ w' =>
       length names <= slots
       /\ peek w' p = Some (BDevice (enabling pd slots nf names (length names)))
       /\ same_except p w w') w.
Proof.
  intros Hknown Hp.
  assert (Hp0 : p <> 0).
  { assert (is_Some (peek w p)) as Hb%peek_bound by (by eexists). lia. }
  apply (wp_mfor True
    (fun c w' => c <= slots
                 /\ peek w' p = Some (BDevice (enabling pd slots nf names c))
                 /\ same_except p w w')).
  - split; [lia|]. split; [done|apply same_except_refl].
  - intros c w' Hc (Hcs & Hp' & Hsame). unfold enable_device_extension.
    apply wp_bind, wp_elt; [|done]. intros name Hname.
    rewrite known_device_extension_found
      by (apply Hknown; eapply list_elem_of_lookup_2; eauto).
    apply wp_bind. eapply wp_load_device; [done|].
    apply wp_bind, wp_rd; [|done]. intros n [= <-].
    assert (Hlen : length (map find (take c names)) = c).
    { rewrite length_map, length_take. lia. }
    apply wp_bind, wp_put_at; [|done]. simpl.
    rewrite Nat2Z.id, length_filled by lia. intros _ Hlt.
    apply wp_bind. eapply wp_update_device; [done|].
    apply wp_bind. eapply wp_update_device.
    { apply peek_poke_eq. by eexists. }
    apply wp_ret. split; [lia|]. split.
    + rewrite peek_poke_eq.
      2:{ rewrite peek_poke_eq by (by eexists). by eexists. }
      do 2 f_equal. unfold device_enabling, set_d_numEnabledExtensions,
        set_d_enabledExtensions. simpl. f_equal.
      * f_equal. lia.
      * rewrite <- Hlen at 1. rewrite filled_snoc by lia.
        by rewrite (take_S_r _ _ _ Hname), map_app.
    + eapply same_except_trans; [exact Hsame|].
      eapply same_except_trans; by apply same_except_poke.
  - intros w' (? & ? & ?). done.
Qed.

Lemma clear_queue_slots_footprint n p pd exts w0 w count :
  n < p -> footprint n p pd slots exts w0 w ->
  wp True (mfor 0 count (clear_queue_slot p))
    (fun _ w' => footprint n p pd slots exts w0 w') w.
Proof.
  intros Hnp H0.
  apply (wp_mfor True (fun _ w' => footprint n p pd slots exts w0 w'));
    [done| |done].
  intros c w' _ (Hframe & dv & Hp & Hhead). unfold clear_queue_slot.
  apply wp_bind. eapply wp_load_device; [done|].
  apply wp_bind, wp_put; [|done]. intros _.
  apply wp_bind. eapply wp_update_device; [done|].
  apply wp_ret. split.
  - eapply frame_trans; [done|].
    apply frame_poke; [done|by eapply frame_length].
  - eexists. split; [apply peek_poke_eq; by eexists|]. done.
Qed.

Lemma create_queues_footprint n p pd exts w0 infos c w :
  n < p -> footprint n p pd slots exts w0 w ->
  wp True (create_queues sizeof_queue SIZE_MAX p infos c)
    (fun _ w' => footprint n p pd slots exts w0 w') w.
Proof.
  intros Hnp (Hframe & dv & Hp & Hhead). unfold create_queues.
  pose proof (frame_length _ _ _ Hframe) as Hn.
  assert (Hpb : 0 < p <= length (heap w)) by (apply peek_bound; by eexists).
  apply wp_bind, wp_elt; [|done]. intros info _.
  apply wp_bind, wp_ALLOCATE.
  - intros rest _.
    apply wp_bind. eapply wp_load_device; [exact Hp|].
    apply wp_bind, wp_put; [|done]. intros _.
    apply wp_bind. eapply wp_update_device; [exact Hp|].
    simpl. apply wp_ret. split.
    + eapply frame_trans; [exact Hframe|].
      eapply frame_trans; [by apply frame_refuse|]. by apply frame_poke.
    + eexists. split; [apply peek_poke_eq; by eexists|]. done.
  - intros _.
    set (a := S (length (heap w))).
    set (w2 := alloc (BQueues (replicate
                                 (queue_array_length sizeof_queue SIZE_MAX
                                    (queueCount info)) fresh_queue)) w).
    assert (Hp2 : peek w2 p = Some (BDevice dv)).
    { subst w2. by rewrite peek_alloc_old by (by eexists). }
    assert (Hf2 : frame n w0 w2)
      by (eapply frame_trans; [done|by apply frame_alloc]).
    apply wp_bind. eapply wp_load_device; [exact Hp2|].
    apply wp_bind, wp_put; [|done]. intros Hfam.
    apply wp_bind. eapply wp_update_device; [exact Hp2|].
    set (dv3 := set_queues (<[queueFamilyIndex info := Some a]> (queues dv)) dv).
    set (w3 := poke p (Live (BDevice dv3)) w2).
    assert (Hp3 : peek w3 p = Some (BDevice dv3))
      by (apply peek_poke_eq; by eexists).
    assert (Hf3 : frame n w0 w3).
    { eapply frame_trans; [done|].
      apply frame_poke; [done|by eapply frame_length]. }
    replace (is_null a) with false by done.
    apply wp_bind.
    eapply (wp_mono True _
      (fun _ w4 => frame n w0 w4 /\ peek w4 p = Some (BDevice dv3))).
    { apply (wp_mfor True
        (fun _ w4 => frame n w0 w4 /\ peek w4 p = Some (BDevice dv3)));
        [done| |done].
      intros d w4 _ [Hf4 Hp4]. unfold init_queue.
      apply wp_bind. eapply wp_load_device; [exact Hp4|].
      apply wp_bind, wp_elt; [|done]. intros slot Hslot.
      subst dv3. simpl in Hslot.
      rewrite list_lookup_insert_eq in Hslot by done.
      injection Hslot as <-.
      apply wp_bind, wp_rd; [|done]. intros ? [= <-].
      apply wp_bind, wp_load_queues_partial. intros qs Hqs.
      apply wp_bind, wp_elt; [|done]. intros q _.
      apply wp_bind, wp_store_block; [by eexists|].
      apply wp_bind, wp_increment; [intros _|done].
      apply wp_ret. split.
      - eapply frame_trans; [done|].
        apply frame_poke; [subst a; lia|by eapply frame_length].
      - rewrite peek_poke_ne by (subst a; lia). done. }
    intros _ w4 [Hf4 Hp4]. cbv beta.
    apply wp_bind. eapply wp_load_device; [exact Hp4|].
    apply wp_bind, wp_put; [|done]. intros _.
    apply wp_bind. eapply wp_update_device; [exact Hp4|].
    apply wp_ret. split.
    + eapply frame_trans; [done|].
      apply frame_poke; [done|by eapply frame_length].
    + eexists. split; [apply peek_poke_eq; by eexists|]. done.
Qed.
End DeviceFootprint.

Section DeviceFootprintResult.
Variable deviceExtensions : list VkExtensionProperties.
Variable _features : list VkBool32.
Variable nf : nat.
Variable slots : nat.
Variable sizeof_queue SIZE_MAX : positive.

(** X15. Whenever vkCreateDevice returns with a non-null handle stored,
    whatever its code: the handle is the address of a block allocated by the
    call; every name of the request is in the registry and there are no more
    names than the array [enabledExtensions] has cells; the first cells of
    that array hold the positions of the names in the registry, in the order
    of the request, and the device holds the physical device it was created
    from; every block that existed before the call is as it was, and the
    kernel has not been called. *)
Theorem create_device_footprint (pd : VkPhysicalDevice)
    (ci : VkDeviceCreateInfo) (w w' : world) (r : VkResult) (p : VkDevice) :
  vkCreateDevice deviceExtensions _features nf slots sizeof_queue SIZE_MAX
    pd ci w = Ok ((r, Some p), w') ->
  p <> 0 ->
  p = S (length (heap w))
  /\ extensions_known deviceExtensions (d_ppEnabledExtensionNames ci)
  /\ length (d_ppEnabledExtensionNames ci) <= slots
  /\ frame (length (heap w)) w w'
  /\ exists dv,
       peek w' p = Some (BDevice dv)
       /\ header pd slots (map (findDeviceExtension deviceExtensions)
                             (d_ppEnabledExtensionNames ci)) dv.
Proof.
  set (names := d_ppEnabledExtensionNames ci).
  set (exts := map (findDeviceExtension deviceExtensions) names).
  set (n := length (heap w)).
  intros Hrun Hp.
  cut (wp True (vkCreateDevice deviceExtensions _features nf slots
                  sizeof_queue SIZE_MAX pd ci)
         (fun res w' =>
            forall p, snd res = Some p -> p <> 0 ->
              p = S n /\ extensions_known deviceExtensions names
              /\ length names <= slots
              /\ footprint n p pd slots exts w w') w).
  { intros Hwp.
    pose proof (wp_partial _ _ w (r, Some p) w' Hwp Hrun) as Hpost.
    destruct (Hpost p eq_refl Hp) as (-> & ? & ? & ? & ?). done. }
  clear Hrun Hp w' r p.
  unfold vkCreateDevice. fold names.
  apply wp_bind, wp_massert; [intros _|done].
  apply wp_bind. eapply wp_mono; [apply check_extensions_complete|].
  intros [err|] w1 [-> Hk]; [by apply wp_ret|].
  pose proof (Hk eq_refl) as Hknown. clear Hk.
  apply wp_bind.
  apply (wp_mono True _ (fun _ w' => w' = w)).
  { destruct (pEnabledFeatures ci); [apply check_features_quiet|done]. }
  intros [err|] w1 ->; [by apply wp_ret|].
  apply wp_bind, wp_ALLOCATE; [intros rest _; apply wp_ret; by intros p [= <-]|].
  intros _. fold n.
  set (p := S n).
  set (w1 := alloc (BDevice (fresh_device slots nf)) w).
  assert (Hp1 : peek w1 p = Some (BDevice (fresh_device slots nf))).
  { subst w1 p n. rewrite peek_alloc. by rewrite decide_True. }
  replace (is_null p) with false by done.
  apply wp_bind. eapply wp_update_device; [exact Hp1|].
  apply wp_bind. eapply wp_update_device; [apply peek_poke_eq; by eexists|].
  apply wp_bind. eapply wp_mono.
  { apply (enable_device_extensions_exact deviceExtensions nf slots pd p
             names); [done|].
    rewrite peek_poke_eq.
    2:{ rewrite peek_poke_eq by (by eexists). by eexists. }
    do 2 f_equal. unfold device_enabling, fresh_device. simpl.
    by rewrite filled_nil. }
  intros _ w3 (Hroom & Hp3 & Hsame3 & _ & Hlog3 & Hhw3).
  assert (Hfoot3 : footprint n p pd slots exts w w3).
  { split.
    - split; [|split; [|split; [exact Hlog3|exact Hhw3]]].
      + assert (0 < p <= length (heap w3))
          by (apply peek_bound; by eexists).
        subst p. lia.
      + intros q Hq. rewrite Hsame3 by (subst p; lia).
        rewrite !peek_poke_ne by (subst p; lia).
        subst w1. rewrite peek_alloc. case_decide; [subst n; lia|done].
    - eexists. split; [exact Hp3|].
      unfold header, device_enabling. simpl.
      subst exts. rewrite firstn_all, length_map. done. }
  clear Hp3 Hsame3 Hlog3 Hhw3.
  assert (Hnp : n < p) by (subst p; lia).
  assert (Hset : forall fs w4, footprint n p pd slots exts w w4 ->
            wp True (update_device p (set_enabledFeatures fs) ;; ret None)
              (fun (_ : option VkResult) w5 => footprint n p pd slots exts w w5) w4).
  { intros fs w4 (Hf & dv & Hdv & Hh).
    apply wp_bind. eapply wp_update_device; [exact Hdv|].
    apply wp_ret. split.
    - eapply frame_trans; [exact Hf|].
      apply frame_poke; [done|by eapply frame_length].
    - eexists. split; [apply peek_poke_eq; by eexists|]. done. }
  apply wp_bind.
  apply (wp_mono True _ (fun _ w4 => footprint n p pd slots exts w w4)).
  { destruct (pEnabledFeatures ci) as [req|].
    - apply wp_bind. eapply wp_mono; [apply check_features_quiet|].
      intros [err|] w4 ->; [by apply wp_ret|]. by apply Hset.
    - by apply Hset. }
  intros [err|] w4 Hfoot4.
  { apply wp_ret. intros q Hq _.
    assert (Hqp : q = p) by (simpl in Hq; congruence).
    rewrite Hqp. done. }
  apply wp_bind. eapply wp_mono; [by apply clear_queue_slots_footprint|].
  intros r5 w5 Hfoot5. cbv beta in Hfoot5.
  apply wp_bind.
  apply (wp_mono True _ (fun _ w6 => footprint n p pd slots exts w w6)).
  { destruct (0 <? _); [|by apply wp_ret].
    apply (wp_mfor True (fun _ w6 => footprint n p pd slots exts w w6));
      [done| |done].
    intros c w6 _ Hfoot6.
    eapply wp_mono; [by apply create_queues_footprint|].
    by intros [?|] ? ?. }
  intros [err|] w6 Hfoot6; apply wp_ret; intros q Hq _;
    assert (Hqp : q = p) by (simpl in Hq; congruence);
    rewrite Hqp; done.
Qed.
End DeviceFootprintResult.

Lemma create_device_footprint_witness :
  2 = S (length (heap world_with_instance))
  /\ extensions_known sample_device_extensions
       (d_ppEnabledExtensionNames sample_device_info)
  /\ length (d_ppEnabledExtensionNames sample_device_info) <= sample_slots
  /\ frame (length (heap world_with_instance)) world_with_instance
       world_with_device
  /\ exists dv,
       peek world_with_device 2 = Some (BDevice dv)
       /\ header (PD_of 1) sample_slots
            (map (findDeviceExtension sample_device_extensions)
               (d_ppEnabledExtensionNames sample_device_info)) dv.
Proof.
  apply (create_device_footprint sample_device_extensions sample_features 2
           sample_slots sample_sizeof_queue sample_SIZE_MAX
           (PD_of 1) sample_device_info world_with_instance world_with_device
           VK_SUCCESS 2).
  - vm_compute. reflexivity.
  - discriminate.
Defined.

(** ** The outcomes of device creation *)

Section DeviceOutcomes.
Variable deviceExtensions : list VkExtensionProperties.
Variable _features : list VkBool32.
Variable nf : nat.
Variable slots : nat.
Variable sizeof_queue SIZE_MAX : positive.

(** A loop over the features that returns nothing has found every
    requested feature supported. *)
Lemma check_features_result req w :
  wp True (mfor 0 (numFeatures _features) (check_feature req _features))
    (fun r w' =>
       w' = w
       /\ match r with
          | Some err => err = VK_ERROR_FEATURE_NOT_PRESENT
          | None => features_supported _features (Some req)
          end) w.
Proof.
  apply (wp_mfor True
    (fun c w' => w' = w
                 /\ forall k, k < c ->
                      exists r s, req !! k = Some r /\ _features !! k = Some s
                                  /\ truthy r && negb (truthy s) = false)).
  - split; [done|]. intros k Hk. lia.
  - intros c w' Hc [-> Hseen]. unfold check_feature.
    apply wp_bind, wp_elt; [|done]. intros r Hr.
    apply wp_bind, wp_elt; [|done]. intros s Hs.
    destruct (truthy r && negb (truthy s)) eqn:E; apply wp_ret; [done|].
    split; [done|]. intros k Hk.
    destruct (decide (k = c)) as [->|]; [eauto|].
    apply Hseen. lia.
  - intros w' [-> Hseen]. split; [done|]. simpl in Hseen. split.
    + destruct (decide (length _features <= length req)); [done|].
      destruct (Hseen (length req)) as (r & _ & Hr & _);
        [unfold numFeatures; lia|].
      apply lookup_lt_Some in Hr. lia.
    + intros c r s Hr Hs Tr.
      destruct (Hseen c) as (r' & s' & Hr' & Hs' & E).
      { apply lookup_lt_Some in Hs. unfold numFeatures. lia. }
      simplify_eq. rewrite Tr in E. simpl in E.
      by apply negb_false_iff in E.
Qed.

(** X16. The five outcomes of vkCreateDevice. The two validation codes come
    with no handle stored and with the world as it was; the failure to
    allocate the device comes with a null handle and nothing allocated; and
    every other return, VK_SUCCESS or VK_ERROR_OUT_OF_HOST_MEMORY, comes with
    the address of the newly allocated device block, which the failure path
    does not free. *)
Theorem create_device_outcomes (pd : VkPhysicalDevice)
    (ci : VkDeviceCreateInfo) (w w' : world) (r : VkResult)
    (out : option VkDevice) :
  vkCreateDevice deviceExtensions _features nf slots sizeof_queue
    SIZE_MAX pd ci w = Ok ((r, out), w') ->
  (r = VK_ERROR_EXTENSION_NOT_PRESENT /\ out = None /\ w' = w)
  \/ (r = VK_ERROR_FEATURE_NOT_PRESENT /\ out = None /\ w' = w)
  \/ (r = VK_ERROR_TOO_MANY_OBJECTS /\ out = Some 0 /\ w' = refuse w)
  \/ ((r = VK_SUCCESS \/ r = VK_ERROR_OUT_OF_HOST_MEMORY)
      /\ out = Some (S (length (heap w)))
      /\ exists dv, peek w' (S (length (heap w))) = Some (BDevice dv)).
Proof.
  intros Hrun.
  destruct pd as [|i] eqn:Epd; [done|].
  assert (Hpd : pd <> PD_null) by (by subst).
  rewrite <- Epd in Hrun. clear Epd.
  destruct (unknown_extension_or_all_known deviceExtensions
              (d_ppEnabledExtensionNames ci))
    as [Hknown|(c & name & Hname & Hmiss)].
  2:{ rewrite (create_device_unknown_extension _ _ _ _ _ _ pd ci w c name)
        in Hrun by done. left. by simplify_eq. }
  assert (Hcases :
    features_supported _features (pEnabledFeatures ci)
    \/ (r = VK_ERROR_FEATURE_NOT_PRESENT /\ out = None /\ w' = w)).
  { destruct (pEnabledFeatures ci) as [req|] eqn:Ereq; [|by left].
    pose proof (check_features_result req w) as Hwp.
    destruct (mfor 0 (numFeatures _features) (check_feature req _features) w)
      as [[[err|] w1]|f] eqn:Eloop.
    - right. apply (wp_partial _ _ _ _ _ Hwp) in Eloop as Hres.
      destruct Hres as [-> ->].
      revert Hrun. unfold vkCreateDevice.
      destruct pd; [done|]. simpl.
      erewrite (bind_eq (massert true)) by reflexivity.
      erewrite bind_eq by (by apply check_extensions_accept).
      cbv beta iota. rewrite Ereq.
      erewrite bind_eq by exact Eloop.
      intros [= <- <- <-]. done.
    - left. apply (wp_partial _ _ _ _ _ Hwp) in Eloop as Hres.
      by destruct Hres as [_ ?].
    - exfalso. revert Hrun. unfold vkCreateDevice.
      destruct pd; [done|]. simpl.
      erewrite (bind_eq (massert true)) by reflexivity.
      erewrite bind_eq by (by apply check_extensions_accept).
      cbv beta iota. rewrite Ereq.
      unfold bind at 1. by rewrite Eloop. }
  destruct Hcases as [Hfeat|?]; [|by auto].
  destruct (plan w) as [|[] rest] eqn:Eplan.
  3:{ rewrite (create_device_too_many_objects _ _ _ _ _ _ pd ci w rest)
        in Hrun by done. right. right. left. by simplify_eq. }
  all: assert (Hgo : forall rest', plan w <> false :: rest')
         by (rewrite Eplan; done).
  all: pose proof (create_device_wp deviceExtensions _features nf slots
                  sizeof_queue SIZE_MAX True
                     pd ci w Hpd Hknown Hfeat Hgo (or_introl I)) as Hwp.
  all: apply (wp_partial _ _ _ _ _ Hwp) in Hrun.
  all: unfold created in Hrun.
  all: destruct (all_granted _ _);
         [destruct Hrun as ([= -> ->] & dv & Hdv & _)
         |destruct Hrun as ([= -> ->] & _ & dv & Hdv & _)].
  all: right; right; right; eauto.
Qed.
End DeviceOutcomes.

Lemma create_device_outcomes_witness :
  (VK_ERROR_OUT_OF_HOST_MEMORY = VK_ERROR_EXTENSION_NOT_PRESENT
   /\ Some 2 = None
   /\ after (vkCreateDevice sample_device_extensions sample_features 2 sample_slots
               sample_sizeof_queue sample_SIZE_MAX
               (PD_of 1) sample_device_info)
            (with_answers [true; true; false] world_with_instance)
      = with_answers [true; true; false] world_with_instance)
  \/ (VK_ERROR_OUT_OF_HOST_MEMORY = VK_ERROR_FEATURE_NOT_PRESENT
      /\ Some 2 = None
      /\ after (vkCreateDevice sample_device_extensions sample_features 2 sample_slots
                  sample_sizeof_queue sample_SIZE_MAX
                  (PD_of 1) sample_device_info)
               (with_answers [true; true; false] world_with_instance)
         = with_answers [true; true; false] world_with_instance)
  \/ (VK_ERROR_OUT_OF_HOST_MEMORY = VK_ERROR_TOO_MANY_OBJECTS
      /\ Some 2 = Some 0
      /\ after (vkCreateDevice sample_device_extensions sample_features 2 sample_slots
                  sample_sizeof_queue sample_SIZE_MAX
                  (PD_of 1) sample_device_info)
               (with_answers [true; true; false] world_with_instance)
         = refuse (with_answers [true; true; false] world_with_instance))
  \/ ((VK_ERROR_OUT_OF_HOST_MEMORY = VK_SUCCESS
       \/ VK_ERROR_OUT_OF_HOST_MEMORY = VK_ERROR_OUT_OF_HOST_MEMORY)
      /\ Some 2
         = Some (S (length (heap (with_answers [true; true; false]
                                    world_with_instance))))
      /\ exists dv,
           peek (after (vkCreateDevice sample_device_extensions
                          sample_features 2 sample_slots sample_sizeof_queue
                          sample_SIZE_MAX (PD_of 1) sample_device_info)
                   (with_answers [true; true; false] world_with_instance))
             (S (length (heap (with_answers [true; true; false]
                                 world_with_instance))))
           = Some (BDevice dv)).
Proof.
  apply (create_device_outcomes sample_device_extensions sample_features 2
           sample_slots sample_sizeof_queue sample_SIZE_MAX
           (PD_of 1) sample_device_info
           (with_answers [true; true; false] world_with_instance)).
  vm_compute. reflexivity.
Defined.

(** ** The properties of the physical device *)

Section PropertiesReport.
Variable VK_DRIVER_VERSION : Z.
Variable Limits : Type.
Variable _limits : Limits.

(** X17. vkGetPhysicalDeviceProperties into a structure whose name array has
    room for the name: the version is the one vkEnumerateInstanceVersion
    reports, the name array reads back as "VideoCore IV HW" and keeps its
    length, and [pipelineCacheUUID] is not written: it holds what the caller
    had in it. The result does not depend on the handle, and a second call on
    the result changes nothing. *)
Theorem physical_device_properties_report
    (pd pd' : VkPhysicalDevice) (props : VkPhysicalDeviceProperties Limits)
    (v : Z) :
  pd <> PD_null -> pd' <> PD_null -> 16 <= length (deviceName props) ->
  exists out,
    vkGetPhysicalDeviceProperties VK_DRIVER_VERSION Limits _limits pd
      (Some props) = Ok out
    /\ vkEnumerateInstanceVersion VK_DRIVER_VERSION (Some v)
       = Ok (VK_SUCCESS, apiVersion out)
    /\ c_string (deviceName out) = "VideoCore IV HW"%string
    /\ length (deviceName out) = length (deviceName props)
    /\ pipelineCacheUUID out = pipelineCacheUUID props
    /\ limits out = _limits
    /\ vkGetPhysicalDeviceProperties VK_DRIVER_VERSION Limits _limits pd'
         (Some out) = Ok out.
Proof.
  intros Hpd Hpd' Hlen.
  destruct pd as [|i]; [done|]. destruct pd' as [|i']; [done|].
  unfold vkGetPhysicalDeviceProperties, strcpy. simpl.
  rewrite decide_True by done. simpl.
  eexists. split; [reflexivity|]. simpl.
  split; [done|]. split; [done|].
  split; [rewrite length_drop; lia|].
  split; [done|]. split; [done|]. reflexivity.
Qed.
End PropertiesReport.

Lemma physical_device_properties_report_witness :
  exists out,
    vkGetPhysicalDeviceProperties 4198400%Z nat 7 (PD_of 1)
      (Some sample_properties) = Ok out
    /\ vkEnumerateInstanceVersion 4198400%Z (Some 0%Z)
       = Ok (VK_SUCCESS, apiVersion out)
    /\ c_string (deviceName out) = "VideoCore IV HW"%string
    /\ length (deviceName out) = length (deviceName sample_properties)
    /\ pipelineCacheUUID out = pipelineCacheUUID sample_properties
    /\ limits out = 7
    /\ vkGetPhysicalDeviceProperties 4198400%Z nat 7 (PD_of 2) (Some out)
       = Ok out.
Proof.
  apply (physical_device_properties_report 4198400%Z nat 7 (PD_of 1) (PD_of 2)
           sample_properties 0%Z).
  - discriminate.
  - discriminate.
  - simpl. lia.
Defined.
